(** * Emotion intelligence engine: analyzer, pattern similarity, trajectory predictor

    A shallow embedding of
      - [backend/app/emotion_analysis/analyzer.py]   (module [AdvancedEmotionAnalyzer]),
      - [backend/app/services/historical_pattern.py] (module [HistoricalPatternService]),
      - [backend/app/services/trajectory_predictor.py] (module [EmotionTrajectoryPredictor]).

    Conventions.
      - [calculate_pattern_similarity] is modelled in binary64, operation by
        operation (module [PatternSimilarity], on primitive floats): its
        result for identical profiles is decided by rounding.
      - Elsewhere Python [float] values are modelled by exact numbers:
        rationals [Q] in the analyzer and in the clustering and outcome
        code, reals [R] in the trajectory predictor (it takes square
        roots); rounding is not part of the model there.
      - [np.polyfit] is a parameter of the predictor, [datetime.now()] an
        explicit day number.
      - Python [str] is modelled by [string]; on the ASCII range [lower] and
        [isupper] below agree with [str.lower] and [str.isupper].
      - [re.search] is modelled by a derivative matcher over the parsed
        pattern; only the truth value of a search is ever used by the code. *)

From Stdlib Require Import Bool Arith ZArith List String Ascii Lia.
From Stdlib Require Import QArith Qminmax Qabs.
From Stdlib Require Import Reals Psatz.
From Stdlib Require Sorted Permutation.
From Stdlib Require PrimFloat SpecFloat FloatOps FloatAxioms.
Import ListNotations.

(* ================================================================== *)
(** ** Python string primitives                                        *)
(* ================================================================== *)

Module PyStr.

Local Open Scope string_scope.
Local Open Scope char_scope.

(** [c.isupper()] on ASCII. *)
Definition isupper (c : ascii) : bool :=
  let n := nat_of_ascii c in (65 <=? n)%nat && (n <=? 90)%nat.

Definition lower_char (c : ascii) : ascii :=
  if isupper c then ascii_of_nat (nat_of_ascii c + 32) else c.

(** [s.lower()] *)
Fixpoint lower (s : string) : string :=
  match s with
  | EmptyString => EmptyString
  | String c s' => String (lower_char c) (lower s')
  end.

(** [sub in s] *)
Fixpoint contains (sub s : string) : bool :=
  String.prefix sub s ||
  match s with
  | EmptyString => false
  | String _ s' => contains sub s'
  end.

(** [s.count(c)] for a one-character needle. *)
Fixpoint count_char (c : ascii) (s : string) : nat :=
  match s with
  | EmptyString => O
  | String d s' => (if Ascii.eqb c d then 1 else 0) + count_char c s'
  end.

(** [sum(1 for c in s if c.isupper())] *)
Fixpoint count_upper (s : string) : nat :=
  match s with
  | EmptyString => O
  | String d s' => (if isupper d then 1 else 0) + count_upper s'
  end.

(** [s.split(sep)[0]] for a one-character separator. *)
Fixpoint split_first (sep : ascii) (s : string) : string :=
  match s with
  | EmptyString => EmptyString
  | String c s' => if Ascii.eqb c sep then EmptyString
                   else String c (split_first sep s')
  end.

(** [s.replace(c, '')] for a one-character needle. *)
Fixpoint remove_char (c : ascii) (s : string) : string :=
  match s with
  | EmptyString => EmptyString
  | String d s' => if Ascii.eqb c d then remove_char c s'
                   else String d (remove_char c s')
  end.

(** [s.replace(c1 + c2, '')] for a two-character needle: occurrences are
    removed left to right without overlap. *)
Fixpoint remove_pair (c1 c2 : ascii) (s : string) : string :=
  match s with
  | EmptyString => EmptyString
  | String d EmptyString => s
  | String d (String e s'' as s') =>
      if Ascii.eqb c1 d && Ascii.eqb c2 e
      then remove_pair c1 c2 s''
      else String d (remove_pair c1 c2 s')
  end.

(** ASCII members of [str.isspace]. *)
Definition isspace (c : ascii) : bool :=
  let n := nat_of_ascii c in
  ((9 <=? n)%nat && (n <=? 13)%nat) || ((28 <=? n)%nat && (n <=? 32)%nat).

Fixpoint all_space (s : string) : bool :=
  match s with
  | EmptyString => true
  | String c s' => isspace c && all_space s'
  end.

End PyStr.

(* ================================================================== *)
(** ** Regular expressions ([re.search])                               *)
(* ================================================================== *)

Module Re.

Local Open Scope string_scope.
Local Open Scope char_scope.

Inductive regex : Type :=
| Void : regex
| Eps : regex
| Chr : ascii -> regex
| Dot : regex                      (* any character but a newline *)
| Alt : regex -> regex -> regex
| Cat : regex -> regex -> regex
| Star : regex -> regex.

Definition Opt (r : regex) : regex := Alt r Eps.

(** *** Parsing the pattern syntax used by the analyzer:
        literals, [.], groups, [|], and the postfix operators [?] and [*]. *)

Definition postfix (a : regex) (s : string) : regex * string :=
  match s with
  | String "?" s' => (Opt a, s')
  | String "*" s' => (Star a, s')
  | _ => (a, s)
  end.

Fixpoint parse_alt (fuel : nat) (s : string) : option (regex * string) :=
  match fuel with
  | O => None
  | S f =>
      match parse_cat f s with
      | Some (r, String "|" s') =>
          match parse_alt f s' with
          | Some (r', s'') => Some (Alt r r', s'')
          | None => None
          end
      | res => res
      end
  end
with parse_cat (fuel : nat) (s : string) : option (regex * string) :=
  match fuel with
  | O => None
  | S f =>
      match s with
      | EmptyString => Some (Eps, s)
      | String "|" _ => Some (Eps, s)
      | String ")" _ => Some (Eps, s)
      | _ =>
          match parse_atom f s with
          | Some (a, s') =>
              let (a', s'') := postfix a s' in
              match parse_cat f s'' with
              | Some (r, s3) => Some (Cat a' r, s3)
              | None => None
              end
          | None => None
          end
      end
  end
with parse_atom (fuel : nat) (s : string) : option (regex * string) :=
  match fuel with
  | O => None
  | S f =>
      match s with
      | EmptyString => None
      | String "(" s1 =>
          match parse_alt f s1 with
          | Some (r, String ")" s2) => Some (r, s2)
          | _ => None
          end
      | String "." s1 => Some (Dot, s1)
      | String c s1 => Some (Chr c, s1)
      end
  end.

(** The pattern is read to its end. *)
Definition parses (pattern : string) : bool :=
  match parse_alt (3 * String.length pattern + 3) pattern with
  | Some (_, EmptyString) => true
  | _ => false
  end.

(** [re.compile(pattern)]; every pattern of the analyzer parses, an
    unparsable one is sent to [Void]. *)
Definition compile (pattern : string) : regex :=
  match parse_alt (3 * String.length pattern + 3) pattern with
  | Some (r, EmptyString) => r
  | _ => Void
  end.

(** *** Matching by derivatives *)

Fixpoint nullable (r : regex) : bool :=
  match r with
  | Void => false
  | Eps => true
  | Chr _ => false
  | Dot => false
  | Alt a b => nullable a || nullable b
  | Cat a b => nullable a && nullable b
  | Star _ => true
  end.

Definition mkAlt (a b : regex) : regex :=
  match a, b with
  | Void, _ => b
  | _, Void => a
  | _, _ => Alt a b
  end.

Definition mkCat (a b : regex) : regex :=
  match a, b with
  | Void, _ => Void
  | _, Void => Void
  | Eps, _ => b
  | _, _ => Cat a b
  end.

Definition newline : ascii := "010".

Fixpoint deriv (c : ascii) (r : regex) : regex :=
  match r with
  | Void => Void
  | Eps => Void
  | Chr d => if Ascii.eqb c d then Eps else Void
  | Dot => if Ascii.eqb c newline then Void else Eps
  | Alt a b => mkAlt (deriv c a) (deriv c b)
  | Cat a b =>
      mkAlt (mkCat (deriv c a) b) (if nullable a then deriv c b else Void)
  | Star a => mkCat (deriv c a) (Star a)
  end.

(** Some prefix of [s] belongs to the language of [r]. *)
Fixpoint match_prefix (r : regex) (s : string) : bool :=
  nullable r ||
  match s with
  | EmptyString => false
  | String c s' => match_prefix (deriv c r) s'
  end.

(** Some substring of [s] belongs to the language of [r]. *)
Fixpoint search_regex (r : regex) (s : string) : bool :=
  match_prefix r s ||
  match s with
  | EmptyString => false
  | String _ s' => search_regex r s'
  end.

(** [bool(re.search(pattern, s))], also [bool(re.findall(pattern, s))]. *)
Definition search (pattern s : string) : bool :=
  search_regex (compile pattern) s.

End Re.


(* ================================================================== *)
(** ** analyzer.py                                                     *)
(* ================================================================== *)

(** [class EmotionProfile(BaseModel)] *)
Record EmotionProfile : Type := {
  frustration_level : Q;
  engagement_level : Q;
  confidence_level : Q;
  satisfaction_level : Q;
  frustration_type : string;
  frustration_intensity : string;
  frustration_trend : string;
  urgency_level : string;
  urgency_signals : list string;
  response_urgency : string;
  emotional_temperature : Q;
  emotional_volatility : Q;
  emotional_trajectory : string;
  hidden_dissatisfaction_flag : bool;
  hidden_dissatisfaction_confidence : Q;
  hidden_signals : list string;
  politeness_mask_level : Q;
  dropout_risk_emotions : list string;
  positive_recovery_indicators : list string;
  emotional_triggers : list string;
  emotion_coherence : Q;
  sentiment_authenticity : Q;
  emotional_complexity : string
}.

(** One element of [historical_data : List[Dict]]; a key the analyzer reads
    with [entry.get(key, default)] is an optional field. *)
Record HistoryEntry : Type := {
  h_timestamp : option Q;
  h_frustration_level : option Q;
  h_satisfaction_level : option Q;
  h_emotional_temperature : option Q
}.

Module AdvancedEmotionAnalyzer.

Import PyStr.
Local Open Scope string_scope.
Local Open Scope Q_scope.

(** *** Helpers for the Python idioms of the module *)

Definition Qnat (n : nat) : Q := inject_Z (Z.of_nat n).

(** [sum(1 for word in words if word.lower() in text.lower())] *)
Definition count_words (words : list string) (text : string) : nat :=
  List.length (filter (fun word => contains (lower word) (lower text)) words).

(** [sum(1 for phrase in phrases if phrase in text.lower())] *)
Definition count_phrases (phrases : list string) (text : string) : nat :=
  List.length (filter (fun phrase => contains phrase (lower text)) phrases).

(** [any(phrase in text.lower() for phrase in phrases)] *)
Definition any_phrase (phrases : list string) (text : string) : bool :=
  existsb (fun phrase => contains phrase (lower text)) phrases.

(** [any(re.search(pattern, text.lower()) for pattern in patterns)] *)
Definition any_pattern (patterns : list string) (text : string) : bool :=
  existsb (fun pattern => Re.search pattern (lower text)) patterns.

(** [d.get(key, default)] *)
Definition get (o : option Q) (default : Q) : Q :=
  match o with Some v => v | None => default end.

Definition Qsum (l : list Q) : Q := fold_right Qplus 0 l.

(** [any(abs(latest - v) > bound for v in l)] *)
Definition any_far (latest bound : Q) (l : list Q) : bool :=
  existsb (fun v => if Qlt_le_dec bound (Qabs (latest - v)) then true else false) l.

(** [sorted(historical_data, key=lambda x: x.get('timestamp', 0), reverse=True)]:
    a stable sort, entries of equal timestamp keep their order. *)
Fixpoint insert_desc (x : HistoryEntry) (l : list HistoryEntry) : list HistoryEntry :=
  match l with
  | [] => [x]
  | y :: l' =>
      if Qle_bool (get (h_timestamp y) 0) (get (h_timestamp x) 0)
      then x :: l
      else y :: insert_desc x l'
  end.

Definition sorted_desc (l : list HistoryEntry) : list HistoryEntry :=
  fold_right insert_desc [] l.

(** [not historical_data or len(historical_data) < 2] *)
Definition insufficient (historical_data : option (list HistoryEntry)) : bool :=
  match historical_data with
  | None => true
  | Some l => (List.length l <? 2)%nat
  end.

Definition entries (historical_data : option (list HistoryEntry)) : list HistoryEntry :=
  match historical_data with Some l => l | None => [] end.

(** *** [__init__]: the lexicon tables (dicts keep their insertion order) *)

Definition frustration_words : list (string * list string) :=
  [ ("technical", ["website"; "platform"; "error"; "bug"; "login"; "system"; "lms"; "interface"; "broken"; "glitch"]);
    ("content", ["material"; "content"; "lecture"; "understand"; "concept"; "difficult"; "confusing"; "unclear"]);
    ("support", ["help"; "support"; "response"; "answer"; "question"; "ignored"; "waiting"; "unresponsive"]);
    ("pace", ["fast"; "slow"; "pace"; "speed"; "keep up"; "behind"; "rushed"; "dragging"]) ].

Definition urgency_phrases : list (string * list string) :=
  [ ("immediate", ["immediately"; "urgent"; "asap"; "right now"; "can't wait"; "emergency"; "critical"; "desperate"]);
    ("critical", ["very urgent"; "need help now"; "can't continue"; "blocking me"; "impossible"; "giving up"]);
    ("high", ["soon"; "quickly"; "need help"; "struggling"; "important"; "priority"; "stuck"]);
    ("medium", ["when possible"; "would like"; "appreciate"; "should be addressed"; "needs attention"]);
    ("low", ["eventually"; "minor"; "small issue"; "not urgent"; "whenever"; "no rush"]) ].

Definition hidden_dissatisfaction_patterns : list string :=
  [ "(it's|its) (fine|okay|alright)( I guess| I suppose)?";
    "not (too|that) bad";
    "could be (better|worse)";
    "I (suppose|guess) it('s| is) (okay|fine|alright)";
    "(works|functions) (well enough|adequately)";
    "(somewhat|kind of|sort of) (helpful|useful)";
    "(better than|not as bad as) (expected|anticipated)";
    "(can't complain|no complaints) (too much|much)";
    "(doing|trying) (my|their) best";
    "(probably|maybe) just me" ].

Definition engagement_high : list string :=
  ["excited"; "interested"; "engaged"; "fascinating"; "love"; "enjoy"; "captivating"].
Definition engagement_medium : list string :=
  ["good"; "okay"; "fine"; "decent"; "reasonable"; "satisfactory"].
Definition engagement_low : list string :=
  ["boring"; "dull"; "uninteresting"; "tedious"; "monotonous"; "disengaged"].

Definition confidence_high : list string :=
  ["confident"; "sure"; "certain"; "understand"; "grasp"; "mastered"; "clear"].
Definition confidence_medium : list string :=
  ["somewhat understand"; "getting it"; "making progress"; "improving"].
Definition confidence_low : list string :=
  ["confused"; "lost"; "uncertain"; "unclear"; "don't understand"; "struggling"].

Definition dropout_risk_emotions_list : list string :=
  ["helplessness"; "overwhelm"; "isolation"; "despair"; "frustration";
   "anxiety"; "hopelessness"; "defeat"; "inadequacy"; "disconnection"].

Definition positive_recovery_indicators_list : list string :=
  ["hope"; "determination"; "gratitude"; "optimism"; "relief";
   "confidence"; "satisfaction"; "enthusiasm"; "motivation"; "connection"].

(** *** Primary levels *)

Definition _detect_frustration_level (text : string) : Q :=
  let all_frustration_words :=
    (List.concat (map snd frustration_words) ++
     ["frustrating"; "difficult"; "confused"; "struggle"; "hard"; "annoying";
      "terrible"; "awful"; "horrible"; "useless"; "waste"; "disappointed"])%list in
  let strong_indicators := ["extremely"; "very"; "incredibly"; "terribly"; "absolutely"] in
  let base_count := count_words all_frustration_words text in
  let intensity_multiplier := 1.0 + 0.5 * Qnat (count_words strong_indicators text) in
  let frustration_score := Qmin (Qnat base_count * 0.15 * intensity_multiplier) 1.0 in
  let explicit_patterns :=
    [ "(I('m| am)|feeling) (very |really |extremely )?(frustrated|annoyed|upset)";
      "this is (very |really |extremely )?(frustrating|annoying|infuriating)";
      "(can't|cannot) (stand|handle|deal with) (this|it) (anymore)?" ] in
  if any_pattern explicit_patterns text
  then Qmax frustration_score 0.7
  else frustration_score.

(** The weighted score shared by the engagement and confidence detectors. *)
Definition weighted_indicator_score (high_count medium_count low_count : nat) : Q :=
  let total_indicators := (high_count + medium_count + low_count)%nat in
  if (0 <? total_indicators)%nat
  then (Qnat high_count * 0.9 + Qnat medium_count * 0.5 + Qnat low_count * 0.1)
       / Qnat total_indicators
  else 0.5.

Definition _detect_engagement_level (text : string) : Q :=
  let engagement_score :=
    weighted_indicator_score (count_words engagement_high text)
                             (count_words engagement_medium text)
                             (count_words engagement_low text) in
  let engagement_score :=
    if Re.search "(I (really |absolutely )?(love|enjoy|like))" (lower text)
    then Qmax engagement_score 0.8 else engagement_score in
  if Re.search "(I (really |absolutely )?(hate|dislike|can't stand))" (lower text)
  then Qmin engagement_score 0.2 else engagement_score.

Definition _detect_confidence_level (text : string) : Q :=
  let confidence_score :=
    weighted_indicator_score (count_words confidence_high text)
                             (count_words confidence_medium text)
                             (count_words confidence_low text) in
  let confidence_score :=
    if Re.search "(I('m| am) (very |really |extremely )?(confident|sure|certain))" (lower text)
    then Qmax confidence_score 0.8 else confidence_score in
  if Re.search "(I('m| am) (very |really |extremely )?(confused|lost|unsure))" (lower text)
  then Qmin confidence_score 0.2 else confidence_score.

(** The text part of the satisfaction level. *)
Definition text_satisfaction (text : string) : Q :=
  let positive_indicators := ["satisfied"; "happy"; "pleased"; "great"; "excellent"; "good"; "helpful"] in
  let negative_indicators := ["unsatisfied"; "unhappy"; "disappointed"; "poor"; "terrible"; "bad"; "unhelpful"] in
  let pos_count := count_words positive_indicators text in
  let neg_count := count_words negative_indicators text in
  let total_indicators := (pos_count + neg_count)%nat in
  if (0 <? total_indicators)%nat
  then Qnat pos_count / Qnat total_indicators
  else 0.5.

(** [sum(aspect_scores.values())] *)
Definition sum_values (aspect_scores : list (string * Z)) : Z :=
  fold_right Z.add 0%Z (map snd aspect_scores).

(** [aspect_scores : Dict[str, int] = None]; only the values and the number
    of entries are read.  [if aspect_scores:] fails on [None] and on [{}].
    The quotient is exact here: the [OverflowError] that [sum / len] raises
    for integers too large for a float is outside the model. *)
Definition _calculate_satisfaction_level
    (text : string) (aspect_scores : option (list (string * Z))) : Q :=
  match aspect_scores with
  | Some ((_ :: _) as scores) =>
      let avg_aspect_score := inject_Z (sum_values scores) / Qnat (List.length scores) in
      let aspect_satisfaction := (avg_aspect_score - 1) / 4 in
      text_satisfaction text * 0.6 + aspect_satisfaction * 0.4
  | _ => text_satisfaction text
  end.

(** *** Frustration classification *)

(** [max(matches, key=matches.get)]: the first key of maximal count. *)
Fixpoint max_by_count (best : string * nat) (l : list (string * nat)) : string * nat :=
  match l with
  | [] => best
  | kv :: l' =>
      if (snd best <? snd kv)%nat then max_by_count kv l' else max_by_count best l'
  end.

Definition _determine_frustration_type (text : string) : string :=
  let matches := map (fun kv => (fst kv, count_words (snd kv) text)) frustration_words in
  let total := fold_right Nat.add O (map snd matches) in
  if (total =? 0)%nat then "mixed"
  else
    match matches with
    | [] => "mixed"
    | first :: rest =>
        let max_type := max_by_count first rest in
        if (0 <? snd max_type)%nat &&
           (if Qlt_le_dec (Qnat (snd max_type) * 1.5) (Qnat total) then true else false)
        then "mixed"
        else if (0 <? snd max_type)%nat then fst max_type else "mixed"
    end.

Definition _determine_frustration_intensity (frustration_level : Q) : string :=
  if Qlt_le_dec frustration_level 0.3 then "mild"
  else if Qlt_le_dec frustration_level 0.6 then "moderate"
  else if Qlt_le_dec frustration_level 0.85 then "severe"
  else "critical".

(** The comparison of the latest value with the mean of the earlier ones,
    written once in the source for frustration and once for valence. *)
Definition trend_of (levels : list Q) (up down far steady : string) : string :=
  match levels with
  | latest :: ((_ :: _) as earlier) =>
      let previous := Qsum earlier / Qnat (List.length earlier) in
      let diff := latest - previous in
      if Qlt_le_dec 0.15 diff then up
      else if Qlt_le_dec diff (-0.15) then down
      else if any_far latest 0.25 earlier then far
      else steady
  | _ => steady
  end.

Definition _determine_frustration_trend (historical_data : option (list HistoryEntry)) : string :=
  if insufficient historical_data then "stable"
  else
    let recent_entries := firstn 3 (sorted_desc (entries historical_data)) in
    let frustration_levels :=
      map (fun entry => get (h_frustration_level entry) 0.5) recent_entries in
    trend_of frustration_levels "increasing" "decreasing" "spiking" "stable".

(** *** Urgency *)

Fixpoint first_matching_level (levels : list (string * list string)) (text : string) : string :=
  match levels with
  | [] => "low"
  | (level, phrases) :: rest =>
      if any_phrase phrases text then level else first_matching_level rest text
  end.

Definition _detect_urgency (text : string) : string :=
  first_matching_level urgency_phrases text.

(** [signals.append(tag)] under [if re.search(pattern, text.lower())],
    for each (pattern, tag) in turn. *)
Definition tags_of (rules : list (string * string)) (text : string) : list string :=
  map snd (filter (fun rule => Re.search (fst rule) (lower text)) rules).

Definition _detect_urgency_signals (text : string) : list string :=
  tags_of
    [ ("(thinking|considering) (of )?(dropping|quitting|leaving)", "considering_dropping");
      ("(missed|missing|late|behind on) (deadline|assignment|submission|work)", "missed_deadlines");
      ("(need|asking for|requesting) help", "help_requests");
      ("(can't|cannot|unable to) (continue|proceed|move forward|progress)", "progress_blocked");
      ("(deadline|due date) (approaching|coming up|soon)", "timeline_pressure");
      ("(tried|attempted) (multiple times|several times|many times)", "repeated_attempts") ]
    text.

Definition urgency_mapping (urgency_level : string) : string :=
  if String.eqb urgency_level "immediate" then "within_hour"
  else if String.eqb urgency_level "critical" then "within_hour"
  else if String.eqb urgency_level "high" then "same_day"
  else if String.eqb urgency_level "medium" then "within_week"
  else if String.eqb urgency_level "low" then "routine"
  else "routine".

Definition _determine_response_urgency (urgency_level : string) (frustration_level : Q) : string :=
  let response_urgency := urgency_mapping urgency_level in
  if (if Qlt_le_dec 0.8 frustration_level then true else false)
     && negb (String.eqb response_urgency "within_hour")
  then
    if String.eqb response_urgency "same_day" then "within_hour"
    else if String.eqb response_urgency "within_week" then "same_day"
    else if String.eqb response_urgency "routine" then "within_week"
    else response_urgency
  else response_urgency.

(** *** Emotional temperature, volatility, trajectory *)

Definition _calculate_emotional_temperature (text : string) : Q :=
  let hot_words := ["angry"; "furious"; "excited"; "thrilled"; "frustrated"; "enraged";
                    "anxious"; "stressed"; "panicked"; "desperate"; "urgent"; "passionate"] in
  let cold_words := ["calm"; "detached"; "indifferent"; "bored"; "tired"; "exhausted";
                     "apathetic"; "disinterested"; "resigned"; "defeated"; "numb"] in
  let intensifiers := ["very"; "extremely"; "incredibly"; "absolutely"; "completely"; "totally"] in
  let hot_count := count_words hot_words text in
  let cold_count := count_words cold_words text in
  let intensifier_count := count_words intensifiers text in
  let total_emotion_words := (hot_count + cold_count)%nat in
  let base_temp :=
    if (total_emotion_words =? 0)%nat then 0.5
    else Qnat hot_count / Qnat total_emotion_words in
  let intensity_factor := 1.0 + 0.1 * Qnat intensifier_count in
  let temperature := Qmin (Qmax (base_temp * intensity_factor) 0.0) 1.0 in
  let exclamation_count := count_char "!" text in
  let caps_ratio := Qnat (count_upper text) / Qnat (Nat.max (String.length text) 1) in
  let temperature := temperature + Qmin (Qnat exclamation_count * 0.05) 0.25 in
  let temperature := temperature + Qmin (caps_ratio * 0.5) 0.25 in
  Qmin temperature 1.0.

(** [changes]: for each pair of consecutive entries, the absolute change of
    the three dimensions, in that order. *)
Fixpoint dimension_changes (recent_entries : list HistoryEntry) : list Q :=
  match recent_entries with
  | current :: ((previous :: _) as rest) =>
      ([ Qabs (get (h_frustration_level current) 0.5 - get (h_frustration_level previous) 0.5);
         Qabs (get (h_satisfaction_level current) 0.5 - get (h_satisfaction_level previous) 0.5);
         Qabs (get (h_emotional_temperature current) 0.5 - get (h_emotional_temperature previous) 0.5) ]
       ++ dimension_changes rest)%list
  | _ => []
  end.

Definition _calculate_emotional_volatility (historical_data : option (list HistoryEntry)) : Q :=
  if insufficient historical_data then 0.3
  else
    let recent_entries := firstn 5 (sorted_desc (entries historical_data)) in
    let changes := dimension_changes recent_entries in
    match changes with
    | [] => 0.3
    | _ :: _ =>
        let volatility := Qsum changes / Qnat (List.length changes) in
        Qmin (volatility * 2.5) 1.0
    end.

Definition _determine_emotional_trajectory (historical_data : option (list HistoryEntry)) : string :=
  if insufficient historical_data then "neutral"
  else
    let recent_entries := firstn 3 (sorted_desc (entries historical_data)) in
    let valences :=
      map (fun entry => get (h_satisfaction_level entry) 0.5
                        - get (h_frustration_level entry) 0.5) recent_entries in
    trend_of valences "improving" "declining" "fluctuating" "neutral".

(** *** Hidden dissatisfaction *)

(** [pattern.split('|')[0]] with every opening and closing parenthesis
    removed, then every occurrence of the two characters [r] and double
    quote (code 34) removed. *)
Definition pattern_name (pattern : string) : string :=
  remove_pair "r"%char "034"%char
    (remove_char ")"%char (remove_char "("%char (split_first "|"%char pattern))).

Definition _analyze_hidden_dissatisfaction (text : string) (satisfaction_level : Q)
  : bool * Q * list string :=
  let hidden_signals :=
    (map pattern_name
         (filter (fun pattern => Re.search pattern (lower text)) hidden_dissatisfaction_patterns)
     ++ tags_of
          [ ("(good|great|nice) but", "praise_with_reservations");
            ("(like|enjoy).*(however|though|but)", "praise_with_reservations");
            ("(somewhat|kind of|sort of) (good|helpful|useful)", "faint_praise");
            ("(I appreciate|thank you for) (the effort|trying|attempting)", "diplomatic_language") ]
          text)%list in
  let hidden_dissatisfaction := (0 <? List.length hidden_signals)%nat in
  let base_confidence := Qmin (Qnat (List.length hidden_signals) * 0.25) 0.75 in
  let confidence_adjustment :=
    if (if Qlt_le_dec 0.7 satisfaction_level then true else false) && hidden_dissatisfaction
    then -0.3
    else if (if Qlt_le_dec satisfaction_level 0.4 then true else false) && hidden_dissatisfaction
    then 0.2
    else 0 in
  let hidden_confidence := Qmax (Qmin (base_confidence + confidence_adjustment) 1.0) 0.0 in
  (hidden_dissatisfaction, hidden_confidence, hidden_signals).

Definition _calculate_politeness_mask (text : string) (hidden_dissatisfaction : bool) : Q :=
  if negb hidden_dissatisfaction then 0.0
  else
    let polite_phrases :=
      [ "thank you"; "thanks for"; "appreciate"; "grateful";
        "please"; "if possible"; "if you could"; "would be nice";
        "understand that"; "I know that"; "I realize" ] in
    let polite_count := count_phrases polite_phrases text in
    let mask_level := Qmin (Qnat polite_count * 0.2) 0.8 in
    let mask_level :=
      if Re.search "(very|really|truly|so) (grateful|thankful|appreciative)" (lower text)
      then mask_level + 0.1 else mask_level in
    let mask_level :=
      if Re.search "(sorry to|apologize for) (bother|trouble|disturb)" (lower text)
      then mask_level + 0.15 else mask_level in
    Qmin mask_level 1.0.

(** *** Advanced emotional markers *)

(** [x in detected] *)
Definition mem (x : string) (detected : list string) : bool :=
  existsb (String.eqb x) detected.

(** The second loop of the two tag detectors: a tag whose phrases occur is
    appended unless it is already there. *)
Definition add_by_phrases (table : list (string * list string)) (text : string)
    (detected : list string) : list string :=
  fold_left
    (fun detected entry =>
       if any_phrase (snd entry) text && negb (mem (fst entry) detected)
       then (detected ++ [fst entry])%list else detected)
    table detected.

Definition _detect_dropout_risk_emotions (text : string) : list string :=
  let detected_emotions :=
    filter (fun emotion => contains emotion (lower text)) dropout_risk_emotions_list in
  add_by_phrases
    [ ("helplessness", ["can't do this"; "beyond me"; "impossible for me"; "no way I can"]);
      ("overwhelm", ["too much"; "overwhelming"; "drowning in"; "can't keep up"; "too difficult"]);
      ("isolation", ["all alone"; "no one helps"; "no support"; "by myself"; "no one responds"]);
      ("despair", ["giving up"; "no point"; "useless to try"; "hopeless"; "waste of time"]);
      ("anxiety", ["anxious"; "worried"; "stressed"; "panic"; "fear"; "dread"]) ]
    text detected_emotions.

Definition _detect_positive_recovery_indicators (text : string) : list string :=
  let detected_indicators :=
    filter (fun indicator => contains indicator (lower text)) positive_recovery_indicators_list in
  add_by_phrases
    [ ("hope", ["hoping"; "look forward to"; "optimistic"; "better next time"]);
      ("determination", ["determined"; "will try again"; "not giving up"; "keep working"]);
      ("gratitude", ["thankful"; "appreciate"; "grateful"; "thanks for"]);
      ("confidence", ["confident"; "I can do this"; "getting better at"; "improving"]);
      ("enthusiasm", ["excited"; "looking forward"; "can't wait"; "eager"]) ]
    text detected_indicators.

Definition trigger_patterns : list (string * list string) :=
  [ ("deadline_pressure", ["deadline"; "due date"; "running out of time"; "not enough time"]);
    ("technical_issues", ["(website|system|platform) (doesn't work|isn't working|broken)"; "technical (issue|problem|error)"]);
    ("content_difficulty", ["(too|very) (difficult|hard|complex)"; "don't understand"; "confused by"]);
    ("lack_of_support", ["no (help|support|response)"; "no one (answers|responds)"; "waiting for (help|response)"]);
    ("peer_comparison", ["everyone else (gets it|understands)"; "falling behind"; "only one struggling"]);
    ("feedback_issues", ["(no|unclear|unhelpful) feedback"; "don't know (how|what) I'm doing wrong"]);
    ("workload_issues", ["too (much|many) (assignments|tasks|work)"; "workload is (overwhelming|too much)"]);
    ("instructor_issues", ["instructor (doesn't|isn't) (explain|clear|helpful)"; "teaching style"]) ].

Definition _identify_emotional_triggers (text : string) : list string :=
  map fst (filter (fun entry => any_pattern (snd entry) text) trigger_patterns).

(** *** Meta-emotional analysis *)

Definition _calculate_emotion_coherence (frustration engagement confidence satisfaction : Q) : Q :=
  let frustration_satisfaction_coherence := 1.0 - Qabs ((1 - satisfaction) - frustration) in
  let engagement_confidence_coherence := 1.0 - Qabs (engagement - confidence) in
  frustration_satisfaction_coherence * 0.6 + engagement_confidence_coherence * 0.4.

Definition _calculate_sentiment_authenticity (text : string) (hidden_dissatisfaction : bool) : Q :=
  let authenticity := 0.8 in
  let authenticity := if hidden_dissatisfaction then authenticity - 0.3 else authenticity in
  let authentic_markers :=
    [ "honestly"; "to be honest"; "frankly"; "to tell the truth";
      "I (really|truly) (feel|think|believe)"; "I'm not going to lie" ] in
  let authenticity :=
    if any_pattern authentic_markers text then authenticity + 0.1 else authenticity in
  let mixed_message_patterns :=
    [ "(good|great|excellent).*(but|however|though)";
      "(like|enjoy).*(but|however|though)";
      "(not complaining|don't want to complain).*(but|however|though)" ] in
  let authenticity :=
    if any_pattern mixed_message_patterns text then authenticity - 0.15 else authenticity in
  Qmax (Qmin authenticity 1.0) 0.0.

Definition _determine_emotional_complexity (text : string) : string :=
  let emotion_words :=
    [ "happy"; "sad"; "angry"; "frustrated"; "confused"; "anxious"; "excited";
      "bored"; "interested"; "confident"; "worried"; "overwhelmed"; "satisfied";
      "disappointed"; "hopeful"; "discouraged"; "grateful"; "annoyed"; "proud" ] in
  let distinct_emotions :=
    nodup string_dec (filter (fun word => contains word (lower text)) emotion_words) in
  let emotion_count := List.length distinct_emotions in
  let positive_emotions :=
    ["happy"; "excited"; "interested"; "confident"; "satisfied"; "hopeful"; "grateful"; "proud"] in
  let negative_emotions :=
    ["sad"; "angry"; "frustrated"; "confused"; "anxious"; "bored"; "worried";
     "overwhelmed"; "disappointed"; "discouraged"; "annoyed"] in
  let has_positive := any_phrase positive_emotions text in
  let has_negative := any_phrase negative_emotions text in
  let has_contradiction := has_positive && has_negative in
  let mixed_feelings_patterns :=
    [ "mixed feelings"; "conflicted"; "torn"; "on one hand.*(on the other)";
      "part of me.*(another part)"; "both happy and"; "both frustrated and" ] in
  let has_explicit_conflict := any_pattern mixed_feelings_patterns text in
  if has_explicit_conflict || (has_contradiction && (3 <=? emotion_count)%nat) then "conflicted"
  else if (4 <=? emotion_count)%nat || (has_contradiction && (2 <=? emotion_count)%nat) then "complex"
  else if (2 <=? emotion_count)%nat then "mixed"
  else "simple".

(** *** [analyze_text] *)

Definition analyze_text (text : string)
    (aspect_scores : option (list (string * Z)))
    (historical_data : option (list HistoryEntry)) : EmotionProfile :=
  let frustration_level := _detect_frustration_level text in
  let engagement_level := _detect_engagement_level text in
  let confidence_level := _detect_confidence_level text in
  let satisfaction_level := _calculate_satisfaction_level text aspect_scores in
  let frustration_type := _determine_frustration_type text in
  let frustration_intensity := _determine_frustration_intensity frustration_level in
  let frustration_trend := _determine_frustration_trend historical_data in
  let urgency_level := _detect_urgency text in
  let urgency_signals := _detect_urgency_signals text in
  let response_urgency := _determine_response_urgency urgency_level frustration_level in
  let emotional_temperature := _calculate_emotional_temperature text in
  let emotional_volatility := _calculate_emotional_volatility historical_data in
  let emotional_trajectory := _determine_emotional_trajectory historical_data in
  let '(hidden_dissatisfaction, hidden_confidence, hidden_signals) :=
    _analyze_hidden_dissatisfaction text satisfaction_level in
  let politeness_mask_level := _calculate_politeness_mask text hidden_dissatisfaction in
  let dropout_risk_emotions := _detect_dropout_risk_emotions text in
  let positive_recovery_indicators := _detect_positive_recovery_indicators text in
  let emotional_triggers := _identify_emotional_triggers text in
  let emotion_coherence :=
    _calculate_emotion_coherence frustration_level engagement_level
                                 confidence_level satisfaction_level in
  let sentiment_authenticity := _calculate_sentiment_authenticity text hidden_dissatisfaction in
  let emotional_complexity := _determine_emotional_complexity text in
  {| frustration_level := frustration_level;
     engagement_level := engagement_level;
     confidence_level := confidence_level;
     satisfaction_level := satisfaction_level;
     frustration_type := frustration_type;
     frustration_intensity := frustration_intensity;
     frustration_trend := frustration_trend;
     urgency_level := urgency_level;
     urgency_signals := urgency_signals;
     response_urgency := response_urgency;
     emotional_temperature := emotional_temperature;
     emotional_volatility := emotional_volatility;
     emotional_trajectory := emotional_trajectory;
     hidden_dissatisfaction_flag := hidden_dissatisfaction;
     hidden_dissatisfaction_confidence := hidden_confidence;
     hidden_signals := hidden_signals;
     politeness_mask_level := politeness_mask_level;
     dropout_risk_emotions := dropout_risk_emotions;
     positive_recovery_indicators := positive_recovery_indicators;
     emotional_triggers := emotional_triggers;
     emotion_coherence := emotion_coherence;
     sentiment_authenticity := sentiment_authenticity;
     emotional_complexity := emotional_complexity |}.

End AdvancedEmotionAnalyzer.

(* ================================================================== *)
(** ** historical_pattern.py                                           *)
(* ================================================================== *)

(** [calculate_pattern_similarity] and its helpers, evaluated as the
    source does: every operation is a binary64 operation, applied in the
    order of the source. *)
Module PatternSimilarity.

Import PrimFloat PyStr.
Local Open Scope string_scope.
Local Open Scope float_scope.
#[local] Set Warnings "-inexact-float".

(** [class EmotionProfile(BaseModel)], with its [float] fields as the
    binary64 values the similarity receives. *)
Record EmotionProfile : Type := {
  frustration_level : float;
  engagement_level : float;
  confidence_level : float;
  satisfaction_level : float;
  frustration_type : string;
  frustration_intensity : string;
  frustration_trend : string;
  urgency_level : string;
  urgency_signals : list string;
  response_urgency : string;
  emotional_temperature : float;
  emotional_volatility : float;
  emotional_trajectory : string;
  hidden_dissatisfaction_flag : bool;
  hidden_dissatisfaction_confidence : float;
  hidden_signals : list string;
  politeness_mask_level : float;
  dropout_risk_emotions : list string;
  positive_recovery_indicators : list string;
  emotional_triggers : list string;
  emotion_coherence : float;
  sentiment_authenticity : float;
  emotional_complexity : string
}.

(** [urgency_map.get(urgency_level.lower(), 0.0)] *)
Definition _urgency_to_numeric (urgency_level : string) : float :=
  let key := lower urgency_level in
  if String.eqb key "low" then 0.2
  else if String.eqb key "medium" then 0.4
  else if String.eqb key "high" then 0.6
  else if String.eqb key "critical" then 0.8
  else if String.eqb key "immediate" then 1.0
  else 0.0.

(** [trajectory_map.get(trajectory.lower(), 0.5)] *)
Definition _trajectory_to_numeric (trajectory : string) : float :=
  let key := lower trajectory in
  if String.eqb key "improving" then 0.8
  else if String.eqb key "neutral" then 0.5
  else if String.eqb key "declining" then 0.2
  else if String.eqb key "fluctuating" then 0.4
  else 0.5.

Definition calculate_pattern_similarity (pattern1 pattern2 : EmotionProfile) : float :=
  let primary_diff :=
    (abs (frustration_level pattern1 - frustration_level pattern2) +
     abs (engagement_level pattern1 - engagement_level pattern2) +
     abs (confidence_level pattern1 - confidence_level pattern2) +
     abs (satisfaction_level pattern1 - satisfaction_level pattern2)) / 4.0 in
  let primary_sim := 1.0 - primary_diff in
  let temp_vol_diff :=
    (abs (emotional_temperature pattern1 - emotional_temperature pattern2) +
     abs (emotional_volatility pattern1 - emotional_volatility pattern2)) / 2.0 in
  let temp_vol_sim := 1.0 - temp_vol_diff in
  let hidden_sim :=
    if Bool.eqb (hidden_dissatisfaction_flag pattern1) (hidden_dissatisfaction_flag pattern2)
    then 1.0 else 0.0 in
  let urgency_sim :=
    1.0 - abs (_urgency_to_numeric (urgency_level pattern1) -
               _urgency_to_numeric (urgency_level pattern2)) in
  let trajectory_sim :=
    if String.eqb (emotional_trajectory pattern1) (emotional_trajectory pattern2)
    then 1.0 else 0.0 in
  0.4 * primary_sim +
  0.2 * temp_vol_sim +
  0.15 * hidden_sim +
  0.15 * urgency_sim +
  0.1 * trajectory_sim.

End PatternSimilarity.

(** The rest of the service, over exact rationals. *)
Module HistoricalPatternService.

Import PyStr.
Local Open Scope string_scope.
Local Open Scope Q_scope.

(** *** Pattern signatures and clusters *)

(** [s.split(sep)] for a separator of one character: always at least one
    component. *)
Fixpoint split (sep : ascii) (s : string) : list string :=
  match s with
  | EmptyString => [EmptyString]
  | String c s' =>
      if Ascii.eqb c sep then EmptyString :: split sep s'
      else match split sep s' with
           | w :: ws => String c w :: ws
           | [] => [String c EmptyString]
           end
  end.

(** The metadata of a pattern match, as far as it is read: each key may be
    absent. *)
Record InterventionRecord : Type := {
  ir_type : option string;
  ir_success : bool
}.

Record Metadata : Type := {
  completion_status : option string;
  successful_interventions : option (list string);
  interventions : option (list InterventionRecord)
}.

(** The dictionaries of [pattern_signatures]. *)
Record Pattern : Type := {
  p_student_id : option string;
  p_signature : string;
  p_similarity_score : Q;
  p_metadata : Metadata
}.

(** The dictionaries of [pattern_clusters]. *)
Record Cluster : Type := {
  cluster_id : nat;
  patterns : list Pattern;
  avg_similarity : Q;
  signature_prototype : string
}.

(** [j in processed] *)
Definition mem_index (j : nat) (processed : list nat) : bool :=
  existsb (Nat.eqb j) processed.

(** [enumerate(l)] *)
Definition enumerate {A : Type} (l : list A) : list (nat * A) :=
  combine (seq 0 (List.length l)) l.

(** [sum(p["similarity_score"] for p in patterns) / len(patterns)] *)
Definition mean_similarity (l : list Pattern) : Q :=
  fold_right Qplus 0 (map p_similarity_score l) / inject_Z (Z.of_nat (List.length l)).

Section Signatures.

(** [float(val)] on the strings it is applied to.  [None] stands for
    [ValueError] and for the results that are not finite: with those the
    comparison [abs(v1 - v2) <= 0.2] is false as well. *)
Variable float : string -> option Q.

(** One turn of the loop over the zipped components; [None] is the
    [IndexError] of [c1[0]] or [c2[0]] on an empty component. *)
Definition component_match (c1 c2 : string) : option bool :=
  match c1, c2 with
  | String type1 val1, String type2 val2 =>
      if negb (Ascii.eqb type1 type2) then Some false
      else if contains (String type1 EmptyString) "fecstvuh" then
        match float val1, float val2 with
        | Some v1, Some v2 => Some (Qle_bool (Qabs (v1 - v2)) 0.2)
        | _, _ => Some false
        end
      else Some (String.eqb val1 val2)
  | _, _ => None
  end.

Fixpoint count_matches (pairs : list (string * string)) : option nat :=
  match pairs with
  | [] => Some O
  | (c1, c2) :: rest =>
      match component_match c1 c2 with
      | Some matched =>
          match count_matches rest with
          | Some matches => Some ((if matched then 1 else 0) + matches)%nat
          | None => None
          end
      | None => None
      end
  end.

Definition _are_signatures_similar (sig1 sig2 : string) : option bool :=
  let components1 := split "_" sig1 in
  let components2 := split "_" sig2 in
  if negb (List.length components1 =? List.length components2)%nat then Some false
  else
    match count_matches (combine components1 components2) with
    | Some matches =>
        Some (Qle_bool 0.7 (inject_Z (Z.of_nat matches)
                            / inject_Z (Z.of_nat (List.length components1))))
    | None => None
    end.

(** The inner loop of [_cluster_patterns]: the patterns similar to
    [pattern] and not yet processed join its cluster. *)
Fixpoint absorb (i : nat) (pattern : Pattern) (others : list (nat * Pattern))
    (cluster : Cluster) (processed : list nat) : option (Cluster * list nat) :=
  match others with
  | [] => Some (cluster, processed)
  | (j, other) :: rest =>
      if mem_index j processed || (i =? j)%nat then absorb i pattern rest cluster processed
      else
        match _are_signatures_similar (p_signature pattern) (p_signature other) with
        | Some true =>
            let members := (patterns cluster ++ [other])%list in
            absorb i pattern rest
              {| cluster_id := cluster_id cluster;
                 patterns := members;
                 avg_similarity := mean_similarity members;
                 signature_prototype := signature_prototype cluster |}
              (j :: processed)
        | Some false => absorb i pattern rest cluster processed
        | None => None
        end
  end.

(** The outer loop, over what is left of [enumerate(pattern_signatures)]. *)
Fixpoint cluster_from (all todo : list (nat * Pattern))
    (clusters : list Cluster) (processed : list nat) : option (list Cluster) :=
  match todo with
  | [] => Some clusters
  | (i, pattern) :: rest =>
      if mem_index i processed then cluster_from all rest clusters processed
      else
        let cluster :=
          {| cluster_id := List.length clusters + 1;
             patterns := [pattern];
             avg_similarity := p_similarity_score pattern;
             signature_prototype := p_signature pattern |} in
        match absorb i pattern all cluster (i :: processed) with
        | Some (cluster, processed) =>
            cluster_from all rest (clusters ++ [cluster])%list processed
        | None => None
        end
  end.

Definition _cluster_patterns (pattern_signatures : list Pattern) : option (list Cluster) :=
  cluster_from (enumerate pattern_signatures) (enumerate pattern_signatures) [] [].

End Signatures.

(** *** Outcomes *)

(** The value of [_predict_outcomes_from_patterns] when it is not [{}]. *)
Record Outcomes : Type := {
  dropout_risk : Q;
  intervention_success_probability : Q;
  recommended_interventions : list string
}.

(** [if intervention not in recommended_interventions: ...append(intervention)],
    for each intervention in turn. *)
Definition add_unique (recommended cluster_interventions : list string) : list string :=
  fold_left
    (fun recommended intervention =>
       if existsb (String.eqb intervention) recommended then recommended
       else (recommended ++ [intervention])%list)
    cluster_interventions recommended.

(** The number of patterns of a cluster whose completion status starts
    with "dropped", and the successful interventions their metadata list. *)
Definition dropped (cluster : Cluster) : nat :=
  List.length
    (filter (fun pattern =>
               match completion_status (p_metadata pattern) with
               | Some status => String.prefix "dropped" status
               | None => false
               end)
            (patterns cluster)).

Definition cluster_interventions (cluster : Cluster) : list string :=
  List.concat
    (map (fun pattern =>
            match successful_interventions (p_metadata pattern) with
            | Some l => l
            | None => []
            end)
         (patterns cluster)).

(** One turn of the loop over the clusters, on the triple
    [(dropout_risk, total_weight, recommended_interventions)]. *)
Definition weigh_cluster (state : Q * Q * list string) (cluster : Cluster)
  : Q * Q * list string :=
  let '(dropout_risk, total_weight, recommended) := state in
  let size := List.length (patterns cluster) in
  let weight := inject_Z (Z.of_nat size) * avg_similarity cluster in
  let total_weight := total_weight + weight in
  if (0 <? size)%nat then
    let cluster_dropout_risk :=
      inject_Z (Z.of_nat (dropped cluster)) / inject_Z (Z.of_nat size) in
    (dropout_risk + cluster_dropout_risk * weight, total_weight,
     add_unique recommended (cluster_interventions cluster))
  else (dropout_risk, total_weight, recommended).

(** [None] is the empty dictionary returned for no cluster. *)
Definition _predict_outcomes_from_patterns (pattern_clusters : list Cluster)
  : option Outcomes :=
  match pattern_clusters with
  | [] => None
  | _ :: _ =>
      let '(dropout_risk, total_weight, recommended) :=
        fold_left weigh_cluster pattern_clusters (0, 0, []) in
      let dropout_risk :=
        if Qlt_le_dec 0 total_weight then dropout_risk / total_weight else dropout_risk in
      Some {| dropout_risk := dropout_risk;
              intervention_success_probability := 1.0 - dropout_risk;
              recommended_interventions := recommended |}
  end.

(** *** Successful interventions *)

(** The values of [intervention_stats]. *)
Record InterventionStats : Type := {
  is_type : string;
  total_count : nat;
  success_count : nat;
  success_rate : Q;
  examples : list (string * InterventionRecord)
}.

(** The update of the entry of one intervention type. *)
Definition count_intervention (student_id : string) (intervention : InterventionRecord)
    (stats : InterventionStats) : InterventionStats :=
  {| is_type := is_type stats;
     total_count := total_count stats + 1;
     success_count :=
       if ir_success intervention then success_count stats + 1 else success_count stats;
     success_rate := success_rate stats;
     examples :=
       if ir_success intervention && (List.length (examples stats) <? 3)%nat
       then (examples stats ++ [(student_id, intervention)])%list
       else examples stats |}.

(** [intervention_stats] is a dictionary keyed by the type: an entry is
    updated where it stands, a new one is added at the end. *)
Fixpoint record_intervention (student_id : string) (intervention_type : string)
    (intervention : InterventionRecord) (intervention_stats : list InterventionStats)
  : list InterventionStats :=
  match intervention_stats with
  | [] =>
      [ count_intervention student_id intervention
          {| is_type := intervention_type; total_count := 0; success_count := 0;
             success_rate := 0.0; examples := [] |} ]
  | stats :: rest =>
      if String.eqb (is_type stats) intervention_type
      then count_intervention student_id intervention stats :: rest
      else stats :: record_intervention student_id intervention_type intervention rest
  end.

(** [d.get(key, default)] for a string. *)
Definition get_string (o : option string) (default : string) : string :=
  match o with Some s => s | None => default end.

Definition record_match (intervention_stats : list InterventionStats) (match_ : Pattern)
  : list InterventionStats :=
  let student_id := get_string (p_student_id match_) "unknown" in
  match interventions (p_metadata match_) with
  | None => intervention_stats
  | Some l =>
      fold_left
        (fun intervention_stats intervention =>
           record_intervention student_id (get_string (ir_type intervention) "unknown")
                               intervention intervention_stats)
        l intervention_stats
  end.

Definition with_success_rate (stats : InterventionStats) : InterventionStats :=
  if (0 <? total_count stats)%nat then
    {| is_type := is_type stats;
       total_count := total_count stats;
       success_count := success_count stats;
       success_rate := inject_Z (Z.of_nat (success_count stats))
                       / inject_Z (Z.of_nat (total_count stats));
       examples := examples stats |}
  else stats.

(** [interventions.sort(key=lambda x: x["success_rate"], reverse=True)]:
    a stable sort, entries of equal rate keep their order. *)
Fixpoint insert_by_rate (x : InterventionStats) (l : list InterventionStats)
  : list InterventionStats :=
  match l with
  | [] => [x]
  | y :: l' =>
      if Qle_bool (success_rate y) (success_rate x) then x :: l
      else y :: insert_by_rate x l'
  end.

Definition sort_by_rate (l : list InterventionStats) : list InterventionStats :=
  fold_right insert_by_rate [] l.

Definition identify_successful_interventions (pattern_matches : list Pattern)
  : list InterventionStats :=
  let intervention_stats := fold_left record_match pattern_matches [] in
  sort_by_rate (map with_success_rate intervention_stats).

End HistoricalPatternService.

(* ================================================================== *)
(** ** trajectory_predictor.py                                         *)
(* ================================================================== *)

(** [class StudentEmotionHistory(BaseModel)] (models/emotion_trajectory.py) *)
Record StudentEmotionHistory : Type := {
  student_id : string;
  course_id : string;
  weeks : list Z;
  frustration_levels : list R;
  engagement_levels : list R;
  confidence_levels : list R;
  satisfaction_levels : list R;
  emotional_trajectories : list string;
  hidden_dissatisfaction_flags : list bool;
  urgency_levels : list string;
  emotional_temperatures : list R;
  emotional_volatilities : list R
}.

Module EmotionTrajectoryPredictor.

Local Open Scope string_scope.
Local Open Scope R_scope.

(** *** The dictionaries the predictor passes around, as records *)

(** Result of [model_frustration_curve]. *)
Record FrustrationTrajectory : Type := {
  ft_trend : string;
  ft_prediction : option (list (Z * R));
  ft_confidence : R;
  ft_days_to_threshold : option Z
}.

(** Result of [predict_engagement_decline]. *)
Record EngagementDecay : Type := {
  ed_trend : string;
  ed_prediction : option (list (Z * R));
  ed_dropout_risk : string;
  ed_confidence : R;
  ed_weeks_to_disengagement : option R
}.

(** Result of [predict_hidden_dissatisfaction]. *)
Record HiddenDissatisfaction : Type := {
  hd_risk : string;
  hd_explosion_probability : R;
  hd_days_to_explosion : option Z;
  hd_confidence : R
}.

(** One horizon of [emotion_predictions]. *)
Record EmotionPrediction : Type := {
  pred_frustration_level : R;
  pred_engagement_level : R;
  pred_confidence_level : R;
  pred_satisfaction_level : R;
  pred_emotional_temperature : R
}.

(** Result of [predict_frustration_threshold]. *)
Record FrustrationThreshold : Type := {
  fth_risk_level : string;
  fth_days_to_threshold : option Z;
  fth_intervention_urgency : string;
  fth_confidence : R
}.

(** Result of [predict_engagement_dropout]. *)
Record EngagementDropout : Type := {
  edo_dropout_risk : string;
  edo_weeks_to_disengagement : option R;
  edo_intervention_type : string;
  edo_days_to_intervention : option Z;
  edo_confidence : R
}.

(** Result of [predict_dissatisfaction_explosion]. *)
Record DissatisfactionExplosion : Type := {
  de_risk : string;
  de_explosion_probability : R;
  de_days_to_explosion : option Z;
  de_intervention_approach : string;
  de_intervention_timing : string;
  de_confidence : R
}.

(** [risk_escalations] *)
Record RiskEscalations : Type := {
  frustration_boiling_point : FrustrationThreshold;
  engagement_dropout_risk : EngagementDropout;
  hidden_to_open_dissatisfaction : DissatisfactionExplosion
}.

(** An element of [urgent_interventions]. *)
Record Intervention : Type := {
  i_type : string;
  i_days : Z;
  i_urgency : string;
  i_confidence : R
}.

(** A value of [intervention_windows]; [w_target_date] is the day the
    string [target_date] names, counted like [now]. *)
Record Window : Type := {
  w_type : string;
  w_timing : string;
  w_days_from_now : Z;
  w_confidence : R;
  w_target_date : Z
}.

(** [intervention_windows]: the key ['primary'] is always set, the key
    ['secondary'] only sometimes. *)
Record InterventionWindows : Type := {
  primary : Window;
  secondary : option Window
}.

(** [emotion_predictions] *)
Record EmotionPredictions : Type := {
  next_week : EmotionPrediction;
  two_week : EmotionPrediction;
  course_completion : EmotionPrediction
}.

(** [confidence_scores] *)
Record ConfidenceScores : Type := {
  cs_next_week : R;
  cs_two_week : R;
  cs_course_completion : R;
  cs_frustration_threshold : R;
  cs_engagement_dropout : R;
  cs_dissatisfaction_explosion : R;
  cs_intervention_windows : R;
  cs_overall : R
}.

(** [class EmotionTrajectoryPrediction(BaseModel)] *)
Record EmotionTrajectoryPrediction : Type := {
  emotion_predictions : EmotionPredictions;
  risk_escalations : RiskEscalations;
  optimal_intervention_windows : InterventionWindows;
  confidence_scores : ConfidenceScores
}.

(** *** Python and numpy primitives *)

Definition Rltb (x y : R) : bool := if Rlt_dec x y then true else false.

(** [int(x)]: truncation towards zero. *)
Definition py_int (x : R) : Z :=
  if Rle_dec 0 x then Int_part x else (- Int_part (- x))%Z.

(** [max(l)] and [min(l)] of a non-empty list. *)
Definition max_list (l : list R) : R :=
  match l with [] => 0 | x :: l' => fold_left Rmax l' x end.
Definition min_list (l : list R) : R :=
  match l with [] => 0 | x :: l' => fold_left Rmin l' x end.
Definition max_week (l : list Z) : Z :=
  match l with [] => 0%Z | x :: l' => fold_left Z.max l' x end.

Definition Rsum (l : list R) : R := fold_right Rplus 0 l.
Definition len {A : Type} (l : list A) : R := INR (List.length l).

(** [np.mean] and [np.var] *)
Definition mean (l : list R) : R := Rsum l / len l.
Definition var (l : list R) : R := mean (map (fun x => (x - mean l) ^ 2) l).

(** [np.clip(x, 0, 1)], also [max(0.0, min(1.0, x))] *)
Definition clip01 (x : R) : R := Rmax 0 (Rmin 1 x).

(** [l[-3:]] *)
Definition last3 {A : Type} (l : list A) : list A :=
  skipn (List.length l - 3) l.

(** [np.poly1d(coeffs)(x)], coefficients of highest degree first. *)
Definition poly1 (coeffs : R * R) (x : R) : R :=
  let '(a, b) := coeffs in a * x + b.
Definition poly2 (coeffs : R * R * R) (x : R) : R :=
  let '(a, b, c) := coeffs in a * x ^ 2 + b * x + c.

Definition weeks_array (l : list Z) : list R := map IZR l.

Section Predictor.

(** [np.polyfit(x, y, 1)] and [np.polyfit(x, y, 2)]: the least-squares fit is
    numpy's; the predictor only uses the coefficients it returns, highest
    degree first. *)
Variable polyfit1 : list R -> list R -> R * R.
Variable polyfit2 : list R -> list R -> R * R * R.

(** [_calculate_r_squared(x, y, poly)] *)
Definition _calculate_r_squared (x y : list R) (poly : R -> R) : R :=
  let y_pred := map poly x in
  let ss_total := Rsum (map (fun yi => (yi - mean y) ^ 2) y) in
  let ss_residual := Rsum (map (fun p => (fst p - snd p) ^ 2) (combine y y_pred)) in
  if Req_EM_T ss_total 0 then 0
  else clip01 (1 - ss_residual / ss_total).

(** The block shared by [model_frustration_curve] and
    [predict_engagement_decline]: solve [a x^2 + b x + c = threshold] and
    return the distance from [current_week] to the nearest root ahead.
    For [a = 0] the source divides by a floating-point zero; the value of
    the model there carries no meaning. *)
Definition weeks_to_crossing (coeffs : R * R * R) (threshold current_week : R) : option R :=
  let '(a, b, c) := coeffs in
  let c := c - threshold in
  let discriminant := b ^ 2 - 4 * a * c in
  if Rle_dec 0 discriminant then
    let x1 := (- b + sqrt discriminant) / (2 * a) in
    let x2 := (- b - sqrt discriminant) / (2 * a) in
    let future_roots := filter (fun x => Rltb current_week x) [x1; x2] in
    match future_roots with
    | [] => None
    | _ :: _ => Some (min_list future_roots - current_week)
    end
  else None.

Definition next_three_weeks (ws : list Z) : list Z :=
  map (fun i => (max_week ws + i)%Z) [1; 2; 3]%Z.

Definition model_frustration_curve (history : StudentEmotionHistory) : FrustrationTrajectory :=
  let ws := weeks_array (weeks history) in
  let levels := frustration_levels history in
  if (List.length (weeks history) <? 3)%nat then
    {| ft_trend := "insufficient_data"; ft_prediction := None;
       ft_confidence := 0; ft_days_to_threshold := None |}
  else
    let coeffs := polyfit2 ws levels in
    let poly := poly2 coeffs in
    let next_weeks := next_three_weeks (weeks history) in
    let predicted_frustration := map (fun w => clip01 (poly (IZR w))) next_weeks in
    let '(a, b, _) := coeffs in
    let trend :=
      if Rlt_dec 0.01 a then "accelerating_increase"
      else if Rlt_dec a (-0.01) then "decelerating"
      else if Rlt_dec 0.01 b then "steady_increase"
      else if Rlt_dec b (-0.01) then "steady_decrease"
      else "stable" in
    let threshold := 0.8 in
    let days_to_threshold :=
      if Rle_dec threshold (max_list predicted_frustration) then
        match weeks_to_crossing coeffs threshold (IZR (max_week (weeks history))) with
        | Some weeks_to_threshold => Some (py_int (weeks_to_threshold * 7))
        | None => None
        end
      else None in
    let r_squared := _calculate_r_squared ws levels poly in
    let data_points_factor := Rmin 1 (len ws / 10) in
    let confidence := r_squared * 0.7 + data_points_factor * 0.3 in
    {| ft_trend := trend;
       ft_prediction := Some (combine next_weeks predicted_frustration);
       ft_confidence := confidence;
       ft_days_to_threshold := days_to_threshold |}.

Definition predict_engagement_decline (history : StudentEmotionHistory) : EngagementDecay :=
  let ws := weeks_array (weeks history) in
  let levels := engagement_levels history in
  if (List.length (weeks history) <? 3)%nat then
    {| ed_trend := "insufficient_data"; ed_prediction := None;
       ed_dropout_risk := "unknown"; ed_confidence := 0;
       ed_weeks_to_disengagement := None |}
  else
    let coeffs := polyfit2 ws levels in
    let poly := poly2 coeffs in
    let next_weeks := next_three_weeks (weeks history) in
    let predicted_engagement := map (fun w => clip01 (poly (IZR w))) next_weeks in
    let dropout_risk :=
      if Rlt_dec (min_list predicted_engagement) 0.3 then "high"
      else if Rlt_dec (min_list predicted_engagement) 0.5 then "medium"
      else "low" in
    let threshold := 0.3 in
    let weeks_to_disengagement :=
      if Rle_dec (min_list predicted_engagement) threshold then
        weeks_to_crossing coeffs threshold (IZR (max_week (weeks history)))
      else None in
    let r_squared := _calculate_r_squared ws levels poly in
    let data_points_factor := Rmin 1 (len ws / 10) in
    let confidence := r_squared * 0.7 + data_points_factor * 0.3 in
    let '(_, b, _) := coeffs in
    {| ed_trend := if Rlt_dec b 0 then "declining" else "improving";
       ed_prediction := Some (combine next_weeks predicted_engagement);
       ed_dropout_risk := dropout_risk;
       ed_confidence := confidence;
       ed_weeks_to_disengagement :=
         match weeks_to_disengagement with
         | Some w => if Req_EM_T w 0 then None else Some w
         | None => None
         end |}.

(** The number of [True] flags at the end of the list. *)
Fixpoint leading_true (l : list bool) : nat :=
  match l with
  | true :: l' => S (leading_true l')
  | _ => O
  end.

Definition predict_hidden_dissatisfaction (history : StudentEmotionHistory) : HiddenDissatisfaction :=
  let hidden_flags := hidden_dissatisfaction_flags history in
  let satisfaction := satisfaction_levels history in
  let frustration := frustration_levels history in
  if (List.length (weeks history) <? 3)%nat then
    {| hd_risk := "insufficient_data"; hd_explosion_probability := 0;
       hd_days_to_explosion := None; hd_confidence := 0 |}
  else
    let consecutive_hidden_weeks := leading_true (rev hidden_flags) in
    let n := Z.of_nat consecutive_hidden_weeks in
    let frustration_increasing :=
      (3 <=? List.length frustration)%nat &&
      match last3 frustration with
      | [f0; _; f2] => Rltb f0 f2
      | _ => false
      end in
    let satisfaction_stable :=
      (3 <=? List.length satisfaction)%nat &&
      (let recent_satisfaction := last3 satisfaction in
       Rltb (max_list recent_satisfaction - min_list recent_satisfaction) 0.2
       && Rltb 0.5 (min_list recent_satisfaction)) in
    let '(risk, explosion_probability, days_to_explosion) :=
      if (3 <=? consecutive_hidden_weeks)%nat && frustration_increasing && satisfaction_stable
      then ("high", Rmin 0.9 (0.5 + IZR n * 0.1), Some (Z.max 1 (14 - n * 2)))
      else if (2 <=? consecutive_hidden_weeks)%nat && frustration_increasing
      then ("medium", Rmin 0.7 (0.3 + IZR n * 0.1), Some (Z.max 3 (21 - n * 2)))
      else if (1 <=? consecutive_hidden_weeks)%nat
      then ("low", Rmin 0.4 (0.1 + IZR n * 0.1), Some (Z.max 7 (28 - n * 2)))
      else ("minimal", 0.1, None) in
    let data_points_factor := Rmin 1 (len (weeks history) / 10) in
    let pattern_strength :=
      if (0 <? consecutive_hidden_weeks)%nat then 0.5 + 0.1 * IZR n else 0.5 in
    let confidence := data_points_factor * 0.5 + pattern_strength * 0.5 in
    {| hd_risk := risk;
       hd_explosion_probability := explosion_probability;
       hd_days_to_explosion := days_to_explosion;
       hd_confidence := confidence |}.

(** [_default_emotion_prediction()] *)
Definition _default_emotion_prediction : EmotionPrediction :=
  {| pred_frustration_level := 0.5;
     pred_engagement_level := 0.5;
     pred_confidence_level := 0.5;
     pred_satisfaction_level := 0.5;
     pred_emotional_temperature := 0.5 |}.

Definition _predict_next_value (ws : list Z) (values : list R) : R :=
  if (List.length ws <? 2)%nat then
    match rev values with
    | v :: _ => v
    | [] => 0.5
    end
  else
    let coeffs := polyfit1 (weeks_array ws) values in
    let next_week := (max_week ws + 1)%Z in
    clip01 (poly1 coeffs (IZR next_week)).

Definition _predict_polynomial (ws : list Z) (values : list R) (target_week : Z) : R :=
  let prediction :=
    if (List.length ws <? 3)%nat
    then poly1 (polyfit1 (weeks_array ws) values) (IZR target_week)
    else poly2 (polyfit2 (weeks_array ws) values) (IZR target_week) in
  clip01 prediction.

(** The record built at the end of the three horizon predictors. *)
Definition with_temperature (frustration_pred engagement_pred confidence_pred satisfaction_pred : R)
  : EmotionPrediction :=
  {| pred_frustration_level := frustration_pred;
     pred_engagement_level := engagement_pred;
     pred_confidence_level := confidence_pred;
     pred_satisfaction_level := satisfaction_pred;
     pred_emotional_temperature := frustration_pred * 0.7 + (1 - engagement_pred) * 0.3 |}.

Definition predict_next_week_emotions (history : StudentEmotionHistory) : EmotionPrediction :=
  if (List.length (weeks history) <? 2)%nat then _default_emotion_prediction
  else
    with_temperature
      (_predict_next_value (weeks history) (frustration_levels history))
      (_predict_next_value (weeks history) (engagement_levels history))
      (_predict_next_value (weeks history) (confidence_levels history))
      (_predict_next_value (weeks history) (satisfaction_levels history)).

Definition predict_two_week_emotions (history : StudentEmotionHistory) : EmotionPrediction :=
  if (List.length (weeks history) <? 3)%nat then _default_emotion_prediction
  else
    let next_week := (max_week (weeks history) + 2)%Z in
    with_temperature
      (_predict_polynomial (weeks history) (frustration_levels history) next_week)
      (_predict_polynomial (weeks history) (engagement_levels history) next_week)
      (_predict_polynomial (weeks history) (confidence_levels history) next_week)
      (_predict_polynomial (weeks history) (satisfaction_levels history) next_week).

Definition predict_end_course_emotions (history : StudentEmotionHistory) : EmotionPrediction :=
  if (List.length (weeks history) <? 3)%nat then _default_emotion_prediction
  else
    let end_week := 12%Z in
    if (10 <=? max_week (weeks history))%Z then
      let recent_weeks := last3 (weeks history) in
      with_temperature
        (_predict_polynomial recent_weeks (last3 (frustration_levels history)) end_week)
        (_predict_polynomial recent_weeks (last3 (engagement_levels history)) end_week)
        (_predict_polynomial recent_weeks (last3 (confidence_levels history)) end_week)
        (_predict_polynomial recent_weeks (last3 (satisfaction_levels history)) end_week)
    else
      with_temperature
        (_predict_polynomial (weeks history) (frustration_levels history) end_week)
        (_predict_polynomial (weeks history) (engagement_levels history) end_week)
        (_predict_polynomial (weeks history) (confidence_levels history) end_week)
        (_predict_polynomial (weeks history) (satisfaction_levels history) end_week).

(** [days is not None and days <= bound] *)
Definition within (days : option Z) (bound : Z) : bool :=
  match days with Some d => (d <=? bound)%Z | None => false end.

Definition predict_frustration_threshold (frustration_trajectory : FrustrationTrajectory)
  : FrustrationThreshold :=
  let trend := ft_trend frustration_trajectory in
  let days_to_threshold := ft_days_to_threshold frustration_trajectory in
  let risk_level :=
    if String.eqb trend "insufficient_data" then "unknown"
    else if within days_to_threshold 3 then "critical"
    else if within days_to_threshold 7 then "high"
    else if within days_to_threshold 14 then "medium"
    else if String.eqb trend "accelerating_increase" || String.eqb trend "steady_increase"
    then "low"
    else "minimal" in
  let intervention_urgency :=
    if String.eqb risk_level "critical" then "immediate"
    else if String.eqb risk_level "high" then "within_24_hours"
    else if String.eqb risk_level "medium" then "within_week"
    else "routine" in
  {| fth_risk_level := risk_level;
     fth_days_to_threshold := days_to_threshold;
     fth_intervention_urgency := intervention_urgency;
     fth_confidence := ft_confidence frustration_trajectory |}.

Definition predict_engagement_dropout (engagement_decay : EngagementDecay) : EngagementDropout :=
  let dropout_risk := ed_dropout_risk engagement_decay in
  let weeks_to_disengagement := ed_weeks_to_disengagement engagement_decay in
  let intervention_type :=
    if String.eqb dropout_risk "high" then "intensive_support"
    else if String.eqb dropout_risk "medium" then "targeted_engagement"
    else if String.eqb dropout_risk "low" then "preventive_check_in"
    else "routine_monitoring" in
  let days_to_intervention :=
    match weeks_to_disengagement with
    | Some w => Some (Z.max 1 (py_int (w * 7 - 7)))
    | None => None
    end in
  {| edo_dropout_risk := dropout_risk;
     edo_weeks_to_disengagement := weeks_to_disengagement;
     edo_intervention_type := intervention_type;
     edo_days_to_intervention := days_to_intervention;
     edo_confidence := ed_confidence engagement_decay |}.

Definition predict_dissatisfaction_explosion (hidden_dissatisfaction : HiddenDissatisfaction)
  : DissatisfactionExplosion :=
  let risk := hd_risk hidden_dissatisfaction in
  let days_to_explosion := hd_days_to_explosion hidden_dissatisfaction in
  let intervention_approach :=
    if String.eqb risk "high" then "empathetic_outreach"
    else if String.eqb risk "medium" then "indirect_support"
    else if String.eqb risk "low" then "subtle_check_in"
    else "routine_monitoring" in
  let intervention_timing :=
    if within days_to_explosion 3 then "immediate"
    else if within days_to_explosion 7 then "this_week"
    else match days_to_explosion with
         | Some _ => "next_week"
         | None => "routine"
         end in
  {| de_risk := risk;
     de_explosion_probability := hd_explosion_probability hidden_dissatisfaction;
     de_days_to_explosion := days_to_explosion;
     de_intervention_approach := intervention_approach;
     de_intervention_timing := intervention_timing;
     de_confidence := hd_confidence hidden_dissatisfaction |}.

(** [urgency_map.get(urgency, 5)] *)
Definition _urgency_to_numeric (urgency : string) : Z :=
  if String.eqb urgency "immediate" then 0
  else if String.eqb urgency "within_24_hours" then 1
  else if String.eqb urgency "this_week" then 2
  else if String.eqb urgency "within_week" then 2
  else if String.eqb urgency "next_week" then 3
  else if String.eqb urgency "routine" then 4
  else 5.

(** The sort key [(self._urgency_to_numeric(x['urgency']), -x['days'], -x['confidence'])]
    and the order of Python tuples. *)
Definition sort_key (x : Intervention) : Z * Z * R :=
  (_urgency_to_numeric (i_urgency x), (- i_days x)%Z, - i_confidence x).

Definition key_lt (k1 k2 : Z * Z * R) : bool :=
  let '(u1, d1, c1) := k1 in
  let '(u2, d2, c2) := k2 in
  (u1 <? u2)%Z || ((u1 =? u2)%Z && ((d1 <? d2)%Z || ((d1 =? d2)%Z && Rltb c1 c2))).

(** [list.sort(key=...)]: stable, ascending. *)
Fixpoint insert_by_key (x : Intervention) (l : list Intervention) : list Intervention :=
  match l with
  | [] => [x]
  | y :: l' =>
      if key_lt (sort_key y) (sort_key x) then y :: insert_by_key x l' else x :: l
  end.

Definition sort_interventions (l : list Intervention) : list Intervention :=
  fold_right insert_by_key [] l.

(** The interventions collected before sorting, in the order of the source. *)
Definition urgent_interventions (risks : RiskEscalations) : list Intervention :=
  let frustration_threshold := frustration_boiling_point risks in
  let engagement_dropout := engagement_dropout_risk risks in
  let dissatisfaction_explosion := hidden_to_open_dissatisfaction risks in
  (match fth_days_to_threshold frustration_threshold with
   | Some frustration_days =>
       if (frustration_days <=? 7)%Z then
         [ {| i_type := "frustration_intervention";
              i_days := frustration_days;
              i_urgency := fth_intervention_urgency frustration_threshold;
              i_confidence := fth_confidence frustration_threshold |} ]
       else []
   | None => []
   end ++
   match edo_days_to_intervention engagement_dropout with
   | Some engagement_days =>
       [ {| i_type := "engagement_intervention";
            i_days := engagement_days;
            i_urgency := if (engagement_days <=? 7)%Z then "within_week" else "routine";
            i_confidence := edo_confidence engagement_dropout |} ]
   | None => []
   end ++
   match de_days_to_explosion dissatisfaction_explosion with
   | Some dissatisfaction_days =>
       [ {| i_type := "dissatisfaction_intervention";
            i_days := dissatisfaction_days;
            i_urgency := de_intervention_timing dissatisfaction_explosion;
            i_confidence := de_confidence dissatisfaction_explosion |} ]
   | None => []
   end)%list.

(** A window with its [target_date], [now + timedelta(days=days)]. *)
Definition window (now : Z) (type timing : string) (days : Z) (confidence : R) : Window :=
  {| w_type := type; w_timing := timing; w_days_from_now := days;
     w_confidence := confidence; w_target_date := (now + days)%Z |}.

Definition window_of (now : Z) (x : Intervention) : Window :=
  window now (i_type x) (i_urgency x) (i_days x) (i_confidence x).

(** [find_intervention_windows(emotion_predictions, risk_escalations)];
    [now] is the day [datetime.now()] falls on. *)
Definition find_intervention_windows (now : Z)
    (predictions : EmotionPredictions) (risks : RiskEscalations) : InterventionWindows :=
  match sort_interventions (urgent_interventions risks) with
  | most_urgent :: rest =>
      {| primary := window_of now most_urgent;
         secondary := match rest with
                      | second :: _ => Some (window_of now second)
                      | [] => None
                      end |}
  | [] =>
      {| primary := window now "routine_check_in" "routine" 14 0.5;
         secondary := None |}
  end.

Definition calculate_prediction_confidence (history : StudentEmotionHistory) : ConfidenceScores :=
  let data_points := List.length (weeks history) in
  let data_quality_factor := Rmin 1 (INR data_points / 10) in
  let frustration_variance :=
    if (1 <? data_points)%nat then var (frustration_levels history) else 1 in
  let engagement_variance :=
    if (1 <? data_points)%nat then var (engagement_levels history) else 1 in
  let consistency_factor := 1 - Rmin 1 ((frustration_variance + engagement_variance) / 2) in
  let recency_factor :=
    if (3 <=? data_points)%nat
       && (max_week (weeks history) - 2 <=? max_week (weeks history))%Z
    then 0.9 else 0.7 in
  let base_confidence :=
    data_quality_factor * 0.4 + consistency_factor * 0.3 + recency_factor * 0.3 in
  {| cs_next_week := Rmin 0.95 (base_confidence * 1.2);
     cs_two_week := Rmin 0.9 (base_confidence * 1.0);
     cs_course_completion := Rmin 0.8 (base_confidence * 0.8);
     cs_frustration_threshold := Rmin 0.9 (base_confidence * 1.1);
     cs_engagement_dropout := Rmin 0.85 (base_confidence * 1.0);
     cs_dissatisfaction_explosion := Rmin 0.8 (base_confidence * 0.9);
     cs_intervention_windows := Rmin 0.85 (base_confidence * 1.0);
     cs_overall := base_confidence |}.

Definition predict_emotion_evolution (now : Z) (student_emotion_history : StudentEmotionHistory)
  : EmotionTrajectoryPrediction :=
  let frustration_trajectory := model_frustration_curve student_emotion_history in
  let engagement_decay := predict_engagement_decline student_emotion_history in
  let hidden_dissatisfaction_emergence :=
    predict_hidden_dissatisfaction student_emotion_history in
  let emotion_predictions :=
    {| next_week := predict_next_week_emotions student_emotion_history;
       two_week := predict_two_week_emotions student_emotion_history;
       course_completion := predict_end_course_emotions student_emotion_history |} in
  let risk_escalations :=
    {| frustration_boiling_point := predict_frustration_threshold frustration_trajectory;
       engagement_dropout_risk := predict_engagement_dropout engagement_decay;
       hidden_to_open_dissatisfaction :=
         predict_dissatisfaction_explosion hidden_dissatisfaction_emergence |} in
  let optimal_intervention_windows :=
    find_intervention_windows now emotion_predictions risk_escalations in
  {| emotion_predictions := emotion_predictions;
     risk_escalations := risk_escalations;
     optimal_intervention_windows := optimal_intervention_windows;
     confidence_scores := calculate_prediction_confidence student_emotion_history |}.

End Predictor.

(** *** [get_student_emotion_history] *)

(** The columns of [StudentJourney] (models/student_journey.py) the
    predictor reads; every one of them but [week_number] is nullable. *)
Record StudentJourney : Type := {
  j_week_number : Z;
  j_frustration_level : option R;
  j_engagement_level : option R;
  j_confidence_level : option R;
  j_satisfaction_level : option R;
  j_emotional_trajectory : option string;
  j_hidden_dissatisfaction_flag : option bool;
  j_urgency_level : option string;
  j_emotional_temperature : option R;
  j_emotional_volatility : option R
}.

(** [x or default]: the default replaces [None] and every falsy value,
    which is 0.0 for a float, the empty string and [False]. *)
Definition or_float (x : option R) (default : R) : R :=
  match x with
  | Some v => if Req_EM_T v 0 then default else v
  | None => default
  end.

Definition or_string (x : option string) (default : string) : string :=
  match x with
  | Some EmptyString => default
  | Some s => s
  | None => default
  end.

Definition or_false (x : option bool) : bool :=
  match x with
  | Some b => b
  | None => false
  end.

(** The loop of [get_student_emotion_history] over [student_journeys], the
    rows the query returns. *)
Definition get_student_emotion_history (student_id course_id : string)
    (student_journeys : list StudentJourney) : StudentEmotionHistory :=
  {| student_id := student_id;
     course_id := course_id;
     weeks := map j_week_number student_journeys;
     frustration_levels :=
       map (fun journey => or_float (j_frustration_level journey) 0.5) student_journeys;
     engagement_levels :=
       map (fun journey => or_float (j_engagement_level journey) 0.5) student_journeys;
     confidence_levels :=
       map (fun journey => or_float (j_confidence_level journey) 0.5) student_journeys;
     satisfaction_levels :=
       map (fun journey => or_float (j_satisfaction_level journey) 0.5) student_journeys;
     emotional_trajectories :=
       map (fun journey => or_string (j_emotional_trajectory journey) "neutral")
           student_journeys;
     hidden_dissatisfaction_flags :=
       map (fun journey => or_false (j_hidden_dissatisfaction_flag journey)) student_journeys;
     urgency_levels :=
       map (fun journey => or_string (j_urgency_level journey) "low") student_journeys;
     emotional_temperatures :=
       map (fun journey => or_float (j_emotional_temperature journey) 0.5) student_journeys;
     emotional_volatilities :=
       map (fun journey => or_float (j_emotional_volatility journey) 0.5) student_journeys |}.

End EmotionTrajectoryPredictor.

(* ================================================================== *)
(** ** Reference definitions that follow the wording of the specification *)
(* ================================================================== *)

Module Spec.

Import PyStr AdvancedEmotionAnalyzer.
Local Open Scope string_scope.

(** An aspect score is well formed when it lies in 1..5. *)
Definition well_formed_score (entry : string * Z) : bool :=
  (1 <=? snd entry)%Z && (snd entry <=? 5)%Z.


(** A word that cannot occur in a text made of whitespace only: its first
    character is not a space. *)
Definition starts_nonspace (w : string) : bool :=
  match w with
  | EmptyString => false
  | String c _ => negb (isspace c)
  end.

(** A sufficient syntactic condition for a regular expression to match no
    string made of whitespace only. *)
Fixpoint never_space (r : Re.regex) : bool :=
  match r with
  | Re.Void => true
  | Re.Eps => false
  | Re.Chr c => negb (isspace c)
  | Re.Dot => false
  | Re.Alt a b => never_space a && never_space b
  | Re.Cat a b => never_space a || never_space b
  | Re.Star _ => false
  end.

(** The profile of a text that says nothing: the four primary levels at
    [frustration], 0.5, 0.5 and 0.5, empty lists, categorical fields at
    their neutral value, no hidden dissatisfaction. *)
Definition neutral_profile (frustration : Q) (p : EmotionProfile) : Prop :=
  (frustration_level p == frustration /\
   engagement_level p == 0.5 /\
   confidence_level p == 0.5 /\
   satisfaction_level p == 0.5)%Q /\
  (urgency_signals p = [] /\
   hidden_signals p = [] /\
   dropout_risk_emotions p = [] /\
   positive_recovery_indicators p = [] /\
   emotional_triggers p = []) /\
  (frustration_type p = "mixed" /\
   frustration_intensity p = "mild" /\
   frustration_trend p = "stable" /\
   urgency_level p = "low" /\
   response_urgency p = "routine" /\
   emotional_trajectory p = "neutral" /\
   emotional_complexity p = "simple") /\
  hidden_dissatisfaction_flag p = false.

(** The text of scenario B. *)
Definition scenario_B : string :=
  "The course is fine I guess, somewhat helpful, probably just me".

(** The patterns the analyzer hands to [re.search] and [re.findall]. *)
Definition analyzer_patterns : list string :=
  [ "(I (really |absolutely )?(hate|dislike|can't stand))";
    "(I (really |absolutely )?(love|enjoy|like))";
    "(I appreciate|thank you for) (the effort|trying|attempting)";
    "(I('m| am) (very |really |extremely )?(confident|sure|certain))";
    "(I('m| am) (very |really |extremely )?(confused|lost|unsure))";
    "(I('m| am)|feeling) (very |really |extremely )?(frustrated|annoyed|upset)";
    "(better than|not as bad as) (expected|anticipated)";
    "(can't complain|no complaints) (too much|much)";
    "(can't|cannot) (stand|handle|deal with) (this|it) (anymore)?";
    "(can't|cannot|unable to) (continue|proceed|move forward|progress)";
    "(deadline|due date) (approaching|coming up|soon)";
    "(doing|trying) (my|their) best";
    "(good|great|excellent).*(but|however|though)";
    "(good|great|nice) but";
    "(it's|its) (fine|okay|alright)( I guess| I suppose)?";
    "(like|enjoy).*(but|however|though)";
    "(like|enjoy).*(however|though|but)";
    "(missed|missing|late|behind on) (deadline|assignment|submission|work)";
    "(need|asking for|requesting) help";
    "(not complaining|don't want to complain).*(but|however|though)";
    "(no|unclear|unhelpful) feedback";
    "(probably|maybe) just me";
    "(somewhat|kind of|sort of) (good|helpful|useful)";
    "(somewhat|kind of|sort of) (helpful|useful)";
    "(sorry to|apologize for) (bother|trouble|disturb)";
    "(thinking|considering) (of )?(dropping|quitting|leaving)";
    "(too|very) (difficult|hard|complex)";
    "(tried|attempted) (multiple times|several times|many times)";
    "(very|really|truly|so) (grateful|thankful|appreciative)";
    "(website|system|platform) (doesn't work|isn't working|broken)";
    "(works|functions) (well enough|adequately)";
    "I (really|truly) (feel|think|believe)";
    "I (suppose|guess) it('s| is) (okay|fine|alright)";
    "I'm not going to lie";
    "both frustrated and";
    "both happy and";
    "conflicted";
    "confused by";
    "could be (better|worse)";
    "deadline";
    "don't know (how|what) I'm doing wrong";
    "don't understand";
    "due date";
    "everyone else (gets it|understands)";
    "falling behind";
    "frankly";
    "honestly";
    "instructor (doesn't|isn't) (explain|clear|helpful)";
    "mixed feelings";
    "no (help|support|response)";
    "no one (answers|responds)";
    "not (too|that) bad";
    "not enough time";
    "on one hand.*(on the other)";
    "only one struggling";
    "part of me.*(another part)";
    "running out of time";
    "teaching style";
    "technical (issue|problem|error)";
    "this is (very |really |extremely )?(frustrating|annoying|infuriating)";
    "to be honest";
    "to tell the truth";
    "too (much|many) (assignments|tasks|work)";
    "torn";
    "waiting for (help|response)";
    "workload is (overwhelming|too much)" ].

(** Every supplied aspect score lies in 1..5. *)
Definition scores_in_range (aspect_scores : option (list (string * Z))) : bool :=
  match aspect_scores with
  | Some scores => forallb well_formed_score scores
  | None => true
  end.

(** A float field lies in [0,1]. *)
Definition unit_interval (x : Q) : Prop := (0 <= x /\ x <= 1)%Q.

(** The enumerations of the categorical fields. *)
Definition frustration_types : list string :=
  ["technical"; "content"; "pace"; "support"; "mixed"].
Definition frustration_intensities : list string :=
  ["mild"; "moderate"; "severe"; "critical"].
Definition frustration_trends : list string :=
  ["increasing"; "decreasing"; "stable"; "spiking"].
Definition urgency_levels_enum : list string :=
  ["low"; "medium"; "high"; "critical"; "immediate"].
Definition response_urgencies : list string :=
  ["within_hour"; "same_day"; "within_week"; "routine"].
Definition emotional_trajectories_enum : list string :=
  ["improving"; "declining"; "neutral"; "fluctuating"].
Definition emotional_complexities : list string :=
  ["simple"; "mixed"; "complex"; "conflicted"].

(** The invariant of a profile: every float field in [0,1], every
    categorical field in its enumeration. *)
Definition fields_in_range (p : EmotionProfile) : Prop :=
  (unit_interval (frustration_level p) /\
   unit_interval (engagement_level p) /\
   unit_interval (confidence_level p) /\
   unit_interval (satisfaction_level p) /\
   unit_interval (emotional_temperature p) /\
   unit_interval (emotional_volatility p) /\
   unit_interval (hidden_dissatisfaction_confidence p) /\
   unit_interval (politeness_mask_level p) /\
   unit_interval (emotion_coherence p) /\
   unit_interval (sentiment_authenticity p)) /\
  (In (frustration_type p) frustration_types /\
   In (frustration_intensity p) frustration_intensities /\
   In (frustration_trend p) frustration_trends /\
   In (urgency_level p) urgency_levels_enum /\
   In (response_urgency p) response_urgencies /\
   In (emotional_trajectory p) emotional_trajectories_enum /\
   In (emotional_complexity p) emotional_complexities).

End Spec.

Module TrajectorySpec.

Import EmotionTrajectoryPredictor.
Local Open Scope string_scope.
Local Open Scope R_scope.

(** The four primary dimensions of a predicted horizon are all 0.5. *)
Definition primary_levels_half (p : EmotionPrediction) : Prop :=
  pred_frustration_level p = 0.5 /\
  pred_engagement_level p = 0.5 /\
  pred_confidence_level p = 0.5 /\
  pred_satisfaction_level p = 0.5.

(** The windows hold the routine check-in and nothing else. *)
Definition routine_window_only (now : Z) (w : InterventionWindows) : Prop :=
  primary w = window now "routine_check_in" "routine" 14 0.5 /\
  secondary w = None.

(** The fixed default of a prediction: the four primary dimensions of each
    horizon at 0.5 and only the routine window. *)
Definition default_prediction (now : Z) (prediction : EmotionTrajectoryPrediction) : Prop :=
  primary_levels_half (next_week (emotion_predictions prediction)) /\
  primary_levels_half (two_week (emotion_predictions prediction)) /\
  primary_levels_half (course_completion (emotion_predictions prediction)) /\
  routine_window_only now (optimal_intervention_windows prediction).



(** The clipped forecasts of the next three weeks. *)
Definition forecast (coeffs : R * R * R) (ws : list Z) : list R :=
  map (fun w => clip01 (poly2 coeffs (IZR w))) (next_three_weeks ws).



(** The leading coefficient of a fit. *)
Definition leading (coeffs : R * R * R) : R := fst (fst coeffs).

(** A history whose frustration rises slowly along the parabola
    0.01 w^2 - 0.03 w + 0.1, which reaches 0.8 at week 10. *)
Definition slow_history : StudentEmotionHistory :=
  {| student_id := "s1"; course_id := "c1"; weeks := [1; 2; 3]%Z;
     frustration_levels := [0.08; 0.08; 0.1]; engagement_levels := [0.08; 0.08; 0.1];
     confidence_levels := [0.5; 0.5; 0.5]; satisfaction_levels := [0.5; 0.5; 0.5];
     emotional_trajectories := ["neutral"; "neutral"; "neutral"];
     hidden_dissatisfaction_flags := [false; false; false];
     urgency_levels := ["low"; "low"; "low"];
     emotional_temperatures := [0.5; 0.5; 0.5];
     emotional_volatilities := [0.3; 0.3; 0.3] |}.

Definition slow_fit (_ _ : list R) : R * R * R := (0.01, -0.03, 0.1).

(** What the sort of the source establishes: every intervention is kept
    and no element has a smaller key, in the order of Python tuples and
    with the day count negated, than an element before it. *)
Definition may_precede (x y : Intervention) : Prop :=
  key_lt (sort_key y) (sort_key x) = false.

(** The ranking the specification describes: urgency rank ascending, then
    days ascending, then confidence descending. *)
Definition claimed_key (x : Intervention) : Z * Z * R :=
  (_urgency_to_numeric (i_urgency x), i_days x, - i_confidence x).

Fixpoint insert_claimed (x : Intervention) (l : list Intervention) : list Intervention :=
  match l with
  | [] => [x]
  | y :: l' =>
      if key_lt (claimed_key y) (claimed_key x) then y :: insert_claimed x l' else x :: l
  end.

Definition claimed_ranking (l : list Intervention) : list Intervention :=
  fold_right insert_claimed [] l.

(** Risk escalations in which two risk types tie on the urgency rank:
    an engagement dropout expected in 2 days ("within_week", rank 2) and a
    dissatisfaction explosion expected in 6 days ("this_week", rank 2). *)
Definition tied_risks : RiskEscalations :=
  {| frustration_boiling_point :=
       {| fth_risk_level := "minimal"; fth_days_to_threshold := None;
          fth_intervention_urgency := "routine"; fth_confidence := 0.6 |};
     engagement_dropout_risk :=
       {| edo_dropout_risk := "high"; edo_weeks_to_disengagement := Some (9 / 7);
          edo_intervention_type := "intensive_support";
          edo_days_to_intervention := Some 2%Z; edo_confidence := 0.6 |};
     hidden_to_open_dissatisfaction :=
       {| de_risk := "high"; de_explosion_probability := 0.9;
          de_days_to_explosion := Some 6%Z;
          de_intervention_approach := "empathetic_outreach";
          de_intervention_timing := "this_week"; de_confidence := 0.7 |} |}.

Definition any_predictions : EmotionPredictions :=
  {| next_week := _default_emotion_prediction;
     two_week := _default_emotion_prediction;
     course_completion := _default_emotion_prediction |}.

(** A history of a single week. *)
Definition one_week_history : StudentEmotionHistory :=
  {| student_id := "s1"; course_id := "c1"; weeks := [1%Z];
     frustration_levels := [0.9]; engagement_levels := [0.2];
     confidence_levels := [0.3]; satisfaction_levels := [0.2];
     emotional_trajectories := ["declining"];
     hidden_dissatisfaction_flags := [true];
     urgency_levels := ["high"];
     emotional_temperatures := [0.8]; emotional_volatilities := [0.5] |}.

End TrajectorySpec.

(* ================================================================== *)
(** ** Auxiliary definitions for the further properties                *)
(* ================================================================== *)

Module ExtraSpec.

Import PyStr AdvancedEmotionAnalyzer.
Local Open Scope string_scope.

Section CharClass.

(** The characters a text is made of. *)
Variable inside : ascii -> bool.

Fixpoint all_inside (s : string) : bool :=
  match s with
  | EmptyString => true
  | String c s' => inside c && all_inside s'
  end.

(** A sufficient syntactic condition for a regular expression to match no
    string made of such characters only: every match needs a character
    outside the class. *)
Fixpoint leaves_class (r : Re.regex) : bool :=
  match r with
  | Re.Void => true
  | Re.Eps => false
  | Re.Chr c => negb (inside c)
  | Re.Dot => false
  | Re.Alt a b => leaves_class a && leaves_class b
  | Re.Cat a b => leaves_class a || leaves_class b
  | Re.Star _ => false
  end.

End CharClass.

(** The characters of a lowercased text. *)
Definition not_upper (c : ascii) : bool := negb (isupper c).

(** A pattern that can only match a text holding a capital letter. *)
Definition needs_capital (pattern : string) : bool :=
  leaves_class not_upper (Re.compile pattern).

(** The patterns of explicit frustration statements
    ([explicit_patterns] in [_detect_frustration_level]). *)
Definition explicit_frustration_patterns : list string :=
  [ "(I('m| am)|feeling) (very |really |extremely )?(frustrated|annoyed|upset)";
    "this is (very |really |extremely )?(frustrating|annoying|infuriating)";
    "(can't|cannot) (stand|handle|deal with) (this|it) (anymore)?" ].

(** The tags [hidden_signals] can hold. *)
Definition hidden_signal_tags : list string :=
  [ "it's"; "not too"; "could be better"; "works"; "somewhat"; "better than";
    "can't complain"; "doing"; "probably";
    "praise_with_reservations"; "faint_praise"; "diplomatic_language" ].

(** The tags [urgency_signals] and [emotional_triggers] can hold. *)
Definition urgency_signal_tags : list string :=
  [ "considering_dropping"; "missed_deadlines"; "help_requests";
    "progress_blocked"; "timeline_pressure"; "repeated_attempts" ].

Definition trigger_tags : list string := map fst trigger_patterns.

(** The position of an intensity and of a response time on their scales. *)
Definition intensity_rank (intensity : string) : nat :=
  if String.eqb intensity "mild" then 0
  else if String.eqb intensity "moderate" then 1
  else if String.eqb intensity "severe" then 2
  else 3.

(** The per-category keyword counts of [_determine_frustration_type]. *)
Definition frustration_matches (text : string) : list (string * nat) :=
  map (fun kv => (fst kv, count_words (snd kv) text)) frustration_words.

(** Two profiles agree on every field but [emotional_temperature]. *)
Definition same_but_temperature (p q : EmotionProfile) : Prop :=
  frustration_level p = frustration_level q /\
  engagement_level p = engagement_level q /\
  confidence_level p = confidence_level q /\
  satisfaction_level p = satisfaction_level q /\
  frustration_type p = frustration_type q /\
  frustration_intensity p = frustration_intensity q /\
  frustration_trend p = frustration_trend q /\
  urgency_level p = urgency_level q /\
  urgency_signals p = urgency_signals q /\
  response_urgency p = response_urgency q /\
  emotional_volatility p = emotional_volatility q /\
  emotional_trajectory p = emotional_trajectory q /\
  hidden_dissatisfaction_flag p = hidden_dissatisfaction_flag q /\
  hidden_dissatisfaction_confidence p = hidden_dissatisfaction_confidence q /\
  hidden_signals p = hidden_signals q /\
  politeness_mask_level p = politeness_mask_level q /\
  dropout_risk_emotions p = dropout_risk_emotions q /\
  positive_recovery_indicators p = positive_recovery_indicators q /\
  emotional_triggers p = emotional_triggers q /\
  emotion_coherence p = emotion_coherence q /\
  sentiment_authenticity p = sentiment_authenticity q /\
  emotional_complexity p = emotional_complexity q.

(** The phrases listed for an urgency level in [urgency_phrases]. *)
Definition phrases_of (level : string) : list string :=
  match find (fun kv => String.eqb (fst kv) level) urgency_phrases with
  | Some kv => snd kv
  | None => []
  end.

End ExtraSpec.

Module TrajectoryExtraSpec.

Import EmotionTrajectoryPredictor.
Local Open Scope string_scope.
Local Open Scope R_scope.

(** A predicted value or a confidence lies in [0,1]. *)
Definition in_unit (x : R) : Prop := 0 <= x <= 1.

Definition prediction_in_unit (p : EmotionPrediction) : Prop :=
  in_unit (pred_frustration_level p) /\
  in_unit (pred_engagement_level p) /\
  in_unit (pred_confidence_level p) /\
  in_unit (pred_satisfaction_level p) /\
  in_unit (pred_emotional_temperature p).

(** Every list of a history has one entry per week. *)
Definition well_formed (h : StudentEmotionHistory) : Prop :=
  let n := List.length (weeks h) in
  List.length (frustration_levels h) = n /\
  List.length (engagement_levels h) = n /\
  List.length (confidence_levels h) = n /\
  List.length (satisfaction_levels h) = n /\
  List.length (emotional_trajectories h) = n /\
  List.length (hidden_dissatisfaction_flags h) = n /\
  List.length (urgency_levels h) = n /\
  List.length (emotional_temperatures h) = n /\
  List.length (emotional_volatilities h) = n.

(** The number of weeks, counted from the latest one back, that carry the
    hidden dissatisfaction flag. *)
Definition consecutive_hidden_weeks (h : StudentEmotionHistory) : nat :=
  leading_true (rev (hidden_dissatisfaction_flags h)).

Definition hidden_risks : list string :=
  ["insufficient_data"; "high"; "medium"; "low"; "minimal"].

(** The same observations as [TrajectorySpec.slow_history], reported for
    weeks that lie far apart. *)
Definition gapped_history : StudentEmotionHistory :=
  {| student_id := "s1"; course_id := "c1";
     weeks := [1; 2; 40]%Z;
     frustration_levels := frustration_levels TrajectorySpec.slow_history;
     engagement_levels := engagement_levels TrajectorySpec.slow_history;
     confidence_levels := confidence_levels TrajectorySpec.slow_history;
     satisfaction_levels := satisfaction_levels TrajectorySpec.slow_history;
     emotional_trajectories := emotional_trajectories TrajectorySpec.slow_history;
     hidden_dissatisfaction_flags := hidden_dissatisfaction_flags TrajectorySpec.slow_history;
     urgency_levels := urgency_levels TrajectorySpec.slow_history;
     emotional_temperatures := emotional_temperatures TrajectorySpec.slow_history;
     emotional_volatilities := emotional_volatilities TrajectorySpec.slow_history |}.

(** The float lists of a history, one after the other. *)
Definition float_entries (h : StudentEmotionHistory) : list R :=
  (frustration_levels h ++ engagement_levels h ++ confidence_levels h ++
   satisfaction_levels h ++ emotional_temperatures h ++ emotional_volatilities h)%list.

(** The urgency rank of a window. *)
Definition window_rank (w : Window) : Z := _urgency_to_numeric (w_timing w).

(** A fit for the linear predictions of the examples. *)
Definition flat_fit (_ _ : list R) : R * R := (0, 0.5).

(** Curve results to instantiate the statements with: a frustration
    threshold expected in 5 days, a disengagement in two weeks, and no
    hidden dissatisfaction. *)
Definition rising_frustration : FrustrationTrajectory :=
  {| ft_trend := "accelerating_increase"; ft_prediction := None;
     ft_confidence := 0.6; ft_days_to_threshold := Some 5%Z |}.

Definition fading_engagement : EngagementDecay :=
  {| ed_trend := "declining"; ed_prediction := None; ed_dropout_risk := "high";
     ed_confidence := 0.9; ed_weeks_to_disengagement := Some 2 |}.

Definition no_hidden_dissatisfaction : HiddenDissatisfaction :=
  {| hd_risk := "minimal"; hd_explosion_probability := 0.1;
     hd_days_to_explosion := None; hd_confidence := 0.4 |}.

End TrajectoryExtraSpec.

Module PatternExtraSpec.

Import PyStr HistoricalPatternService.
Local Open Scope string_scope.
Local Open Scope Q_scope.

(** A component that can count as a match with itself: it is not empty
    and, when its first character is one of "fecstvuh", the rest reads as
    a float. *)
Definition comparable (float : string -> option Q) (component : string) : bool :=
  match component with
  | String type val =>
      if contains (String type EmptyString) "fecstvuh"
      then match float val with Some _ => true | None => false end
      else true
  | EmptyString => false
  end.

Definition is_empty (component : string) : bool :=
  match component with EmptyString => true | String _ _ => false end.

(** A signature with an empty component, such as "" or "f0.50__e0.40". *)
Definition has_empty_component (signature : string) : bool :=
  existsb is_empty (split "_" signature).

(** The patterns whose position is in [processed]. *)
Definition select (processed : list nat) (all : list (nat * Pattern)) : list Pattern :=
  map snd (filter (fun ip => mem_index (fst ip) processed) all).

(** What holds of every cluster: it has a first pattern, which gives the
    prototype; every other member is similar to it; the average is the
    mean of the members' scores. *)
Definition cluster_formed (float : string -> option Q) (cluster : Cluster) : Prop :=
  match patterns cluster with
  | first :: rest =>
      signature_prototype cluster = p_signature first /\
      Forall (fun other =>
                _are_signatures_similar float (p_signature first) (p_signature other)
                = Some true) rest /\
      avg_similarity cluster == mean_similarity (patterns cluster)
  | [] => False
  end.

(** A reading of floats for the examples: two decimals are known. *)
Definition sample_float (val : string) : option Q :=
  if String.eqb val "0.50" then Some 0.5
  else if String.eqb val "0.60" then Some 0.6
  else if String.eqb val "0.90" then Some 0.9
  else None.

Definition no_metadata : Metadata :=
  {| completion_status := None; successful_interventions := None; interventions := None |}.

Definition sample_pattern (signature : string) (score : Q) : Pattern :=
  {| p_student_id := Some "s1"; p_signature := signature;
     p_similarity_score := score; p_metadata := no_metadata |}.

Definition sample_patterns : list Pattern :=
  [ sample_pattern "f0.50_e0.50_c0.50" 0.9;
    sample_pattern "f0.90_e0.90_c0.90" 0.8;
    sample_pattern "f0.60_e0.60_c0.50" 0.7 ].

(** The interventions listed in the metadata of a match. *)
Definition listed_interventions (match_ : Pattern) : list InterventionRecord :=
  match interventions (p_metadata match_) with
  | Some l => l
  | None => []
  end.

(** What holds of every entry of the intervention statistics. *)
Definition stats_consistent (stats : InterventionStats) : Prop :=
  (1 <= total_count stats)%nat /\
  (success_count stats <= total_count stats)%nat /\
  List.length (examples stats) = Nat.min 3 (success_count stats) /\
  Forall (fun example => ir_success (snd example) = true) (examples stats).

(** A cluster of two matches, one of a student who dropped out. *)
Definition sample_cluster : Cluster :=
  {| cluster_id := 1;
     patterns :=
       [ {| p_student_id := Some "s1"; p_signature := "f0.50"; p_similarity_score := 0.9;
            p_metadata := {| completion_status := Some "dropped_week_4";
                             successful_interventions := Some ["tutoring"];
                             interventions := None |} |};
         {| p_student_id := Some "s2"; p_signature := "f0.60"; p_similarity_score := 0.7;
            p_metadata := {| completion_status := Some "completed";
                             successful_interventions := Some ["tutoring"; "office_hours"];
                             interventions := None |} |} ];
     avg_similarity := 0.8;
     signature_prototype := "f0.50" |}.

End PatternExtraSpec.

Module SimilaritySpec.

Import PrimFloat PatternSimilarity.
Local Open Scope string_scope.
Local Open Scope float_scope.
#[local] Set Warnings "-inexact-float".

(** The six numeric fields the similarity reads hold finite numbers
    (neither an infinity nor NaN). *)
Definition finite_levels (p : EmotionProfile) : Prop :=
  is_finite (frustration_level p) = true /\
  is_finite (engagement_level p) = true /\
  is_finite (confidence_level p) = true /\
  is_finite (satisfaction_level p) = true /\
  is_finite (emotional_temperature p) = true /\
  is_finite (emotional_volatility p) = true.

(** Two profiles that agree on every field but [frustration_type]. *)
Definition same_but_frustration_type (a b : EmotionProfile) : Prop :=
  frustration_level a = frustration_level b /\
  engagement_level a = engagement_level b /\
  confidence_level a = confidence_level b /\
  satisfaction_level a = satisfaction_level b /\
  frustration_intensity a = frustration_intensity b /\
  frustration_trend a = frustration_trend b /\
  urgency_level a = urgency_level b /\
  urgency_signals a = urgency_signals b /\
  response_urgency a = response_urgency b /\
  emotional_temperature a = emotional_temperature b /\
  emotional_volatility a = emotional_volatility b /\
  emotional_trajectory a = emotional_trajectory b /\
  hidden_dissatisfaction_flag a = hidden_dissatisfaction_flag b /\
  hidden_dissatisfaction_confidence a = hidden_dissatisfaction_confidence b /\
  hidden_signals a = hidden_signals b /\
  politeness_mask_level a = politeness_mask_level b /\
  dropout_risk_emotions a = dropout_risk_emotions b /\
  positive_recovery_indicators a = positive_recovery_indicators b /\
  emotional_triggers a = emotional_triggers b /\
  emotion_coherence a = emotion_coherence b /\
  sentiment_authenticity a = sentiment_authenticity b /\
  emotional_complexity a = emotional_complexity b.

(** The value the source returns for identical profiles: the binary64
    sum 0.4 + 0.2 + 0.15 + 0.15 + 0.1, which Python prints as
    1.0000000000000002, the double that follows 1.0. *)
Definition identical_similarity : float := 0x1.0000000000001p+0.

(** A profile to instantiate the statements with. *)
Definition sample_profile (ftype : string) : EmotionProfile :=
  {| frustration_level := 0.6; engagement_level := 0.4;
     confidence_level := 0.5; satisfaction_level := 0.3;
     frustration_type := ftype; frustration_intensity := "severe";
     frustration_trend := "stable";
     urgency_level := "high"; urgency_signals := ["help_requests"%string];
     response_urgency := "same_day";
     emotional_temperature := 0.7; emotional_volatility := 0.3;
     emotional_trajectory := "declining";
     hidden_dissatisfaction_flag := false;
     hidden_dissatisfaction_confidence := 0.0;
     hidden_signals := []; politeness_mask_level := 0.0;
     dropout_risk_emotions := []; positive_recovery_indicators := [];
     emotional_triggers := ["technical_issues"%string];
     emotion_coherence := 0.9; sentiment_authenticity := 0.8;
     emotional_complexity := "simple" |}.

End SimilaritySpec.

(* ================================================================== *)
(** ** Properties of the pattern similarity                            *)
(* ================================================================== *)

Module SimilarityFacts.

Import SpecFloat PrimFloat FloatOps FloatAxioms.
Import PatternSimilarity SimilaritySpec.
Local Open Scope string_scope.
Local Open Scope float_scope.
#[local] Set Warnings "-inexact-float".

(** *** Two facts of binary64 arithmetic *)

Section Format.

Variables prec emax : Z.

Lemma binary_round_sign (m : positive) (e : Z) :
  SFabs (binary_round prec emax true m e) = SFabs (binary_round prec emax false m e).
Proof.
  unfold binary_round. destruct (shl_align _ _ _) as [mz ez].
  unfold binary_round_aux.
  destruct (shr_fexp prec emax (Zpos mz) ez loc_Exact) as [mrs' e'].
  destruct (shr_fexp prec emax _ e' loc_Exact) as [mrs'' e''].
  destruct (shr_m mrs''); [reflexivity | | reflexivity].
  destruct (Z.leb e'' (Z.sub emax prec)); reflexivity.
Qed.

Lemma binary_normalize_opp (z e : Z) :
  SFabs (binary_normalize prec emax (- z) e false)
  = SFabs (binary_normalize prec emax z e false).
Proof.
  destruct z as [|p|p]; cbn [Z.opp binary_normalize]; [reflexivity | |].
  - apply binary_round_sign.
  - symmetry. apply binary_round_sign.
Qed.

Lemma SFabs_sub_sym (x y : spec_float) :
  SFabs (SFsub prec emax x y) = SFabs (SFsub prec emax y x).
Proof.
  destruct x as [sx|sx| |sx mx ex], y as [sy|sy| |sy my ey];
    try (destruct sx, sy; reflexivity); try (destruct sx; reflexivity);
    try (destruct sy; reflexivity); try reflexivity.
  cbn [SFsub]. cbv zeta. rewrite (Z.min_comm ey ex).
  set (a := cond_Zopp sx _). set (b := cond_Zopp sy _).
  replace (b - a)%Z with (- (a - b))%Z by lia.
  symmetry. apply binary_normalize_opp.
Qed.

Lemma SFsub_diag (x : spec_float) :
  match x with S754_zero _ | S754_finite _ _ _ => True | _ => False end ->
  SFsub prec emax x x = S754_zero false.
Proof.
  destruct x as [s|s| |s m e]; intros H; try contradiction.
  - destruct s; reflexivity.
  - cbn [SFsub]. cbv zeta. rewrite Z.min_id, Z.sub_diag. reflexivity.
Qed.

End Format.

Lemma abs_sub_sym (x y : float) : abs (x - y) = abs (y - x).
Proof.
  apply Prim2SF_inj. rewrite !abs_spec, !sub_spec. apply SFabs_sub_sym.
Qed.

Lemma finite_shape (x : float) :
  is_finite x = true ->
  match Prim2SF x with S754_zero _ | S754_finite _ _ _ => True | _ => False end.
Proof.
  unfold is_finite, is_nan, is_infinity. rewrite !eqb_spec, abs_spec.
  destruct (Prim2SF x) as [s|s| |s m e]; intros H; try exact I.
  - destruct s; vm_compute in H; discriminate H.
  - vm_compute in H. discriminate H.
Qed.

Lemma sub_diag (x : float) : is_finite x = true -> abs (x - x) = 0.
Proof.
  intros H. assert (E : x - x = 0).
  { apply Prim2SF_inj. rewrite sub_spec. unfold SF64sub.
    rewrite (SFsub_diag _ _ _ (finite_shape x H)). reflexivity. }
  rewrite E. reflexivity.
Qed.

Lemma urgency_finite (urgency_level : string) :
  is_finite (_urgency_to_numeric urgency_level) = true.
Proof.
  unfold _urgency_to_numeric. cbv zeta.
  repeat match goal with |- context [if ?b then _ else _] => destruct b end; reflexivity.
Qed.

(** *** The similarity *)

Lemma similarity_sym (a b : EmotionProfile) :
  calculate_pattern_similarity a b = calculate_pattern_similarity b a.
Proof.
  unfold calculate_pattern_similarity. cbv zeta.
  rewrite (abs_sub_sym (frustration_level a)), (abs_sub_sym (engagement_level a)),
          (abs_sub_sym (confidence_level a)), (abs_sub_sym (satisfaction_level a)),
          (abs_sub_sym (emotional_temperature a)), (abs_sub_sym (emotional_volatility a)),
          (abs_sub_sym (_urgency_to_numeric (urgency_level a))).
  rewrite (String.eqb_sym (emotional_trajectory a)).
  destruct (hidden_dissatisfaction_flag a), (hidden_dissatisfaction_flag b); reflexivity.
Qed.

Lemma similarity_diag (a : EmotionProfile) :
  finite_levels a -> calculate_pattern_similarity a a = identical_similarity.
Proof.
  intros (F & E & C & S & T & V).
  unfold calculate_pattern_similarity. cbv zeta.
  rewrite (sub_diag _ F), (sub_diag _ E), (sub_diag _ C), (sub_diag _ S),
          (sub_diag _ T), (sub_diag _ V), (sub_diag _ (urgency_finite (urgency_level a))).
  rewrite Bool.eqb_reflx, String.eqb_refl. reflexivity.
Qed.

Lemma similarity_ignores_frustration_type (a b : EmotionProfile) :
  same_but_frustration_type a b ->
  calculate_pattern_similarity a b = calculate_pattern_similarity a a.
Proof.
  unfold same_but_frustration_type, calculate_pattern_similarity.
  intros (-> & -> & -> & -> & _ & _ & -> & _ & _ & -> & -> & -> & -> & _).
  reflexivity.
Qed.

Lemma sample_profile_finite (ftype : string) : finite_levels (sample_profile ftype).
Proof. repeat split. Qed.

(** C2. The similarity is symmetric for every pair of profiles, but the
    similarity of a profile with itself is not 1.0: for every profile with
    finite levels it is the binary64 sum of the five weights, the double
    that follows 1.0 (printed 1.0000000000000002). *)
Theorem similarity_of_identical_profiles_exceeds_one :
  (forall a : EmotionProfile,
     finite_levels a ->
     calculate_pattern_similarity a a = identical_similarity /\
     (calculate_pattern_similarity a a =? 1.0) = false /\
     (1.0 <? calculate_pattern_similarity a a) = true) /\
  (forall a b : EmotionProfile,
     calculate_pattern_similarity a b = calculate_pattern_similarity b a) /\
  finite_levels (sample_profile "technical").
Proof.
  split; [|split].
  - intros a H. rewrite (similarity_diag a H). repeat split.
  - exact similarity_sym.
  - apply sample_profile_finite.
Qed.

(** C4, the claim as stated fails: two profiles that differ only in the
    frustration type ("technical" against "content") have a similarity
    that is not below 1.0. *)
Theorem similarity_type_only_not_below_one :
  same_but_frustration_type (sample_profile "technical") (sample_profile "content") /\
  frustration_type (sample_profile "technical") = "technical"%string /\
  frustration_type (sample_profile "content") = "content"%string /\
  (calculate_pattern_similarity (sample_profile "technical") (sample_profile "content")
   <? 1.0) = false.
Proof.
  split; [|split; [|split]]; try reflexivity.
  unfold same_but_frustration_type. cbn. repeat split.
Qed.

(** C4, amended.  The frustration type is not an input of the similarity:
    two profiles that agree on every other field are as similar as a
    profile is to itself; with finite levels that similarity is greater
    than 0.8 and not below 1.0. *)
Theorem similarity_type_only_is_self_similarity (a b : EmotionProfile) :
  same_but_frustration_type a b ->
  frustration_type a = "technical"%string -> frustration_type b = "content"%string ->
  finite_levels a ->
  calculate_pattern_similarity a b = calculate_pattern_similarity a a /\
  (0.8 <? calculate_pattern_similarity a b) = true /\
  (calculate_pattern_similarity a b <? 1.0) = false.
Proof.
  intros H _ _ F.
  rewrite (similarity_ignores_frustration_type a b H), (similarity_diag a F).
  repeat split.
Qed.

Lemma similarity_type_only_is_self_similarity_witness :
  calculate_pattern_similarity (sample_profile "technical") (sample_profile "content")
  = calculate_pattern_similarity (sample_profile "technical") (sample_profile "technical") /\
  (0.8 <? calculate_pattern_similarity (sample_profile "technical") (sample_profile "content"))
  = true.
Proof.
  destruct (similarity_type_only_is_self_similarity
              (sample_profile "technical") (sample_profile "content")) as (E & G & _).
  - unfold same_but_frustration_type. cbn. repeat split.
  - reflexivity.
  - reflexivity.
  - apply sample_profile_finite.
  - split; [exact E | exact G].
Defined.

End SimilarityFacts.

(* ================================================================== *)
(** ** Properties of the analyzer                                      *)
(* ================================================================== *)

Module AnalyzerFacts.

Import PyStr AdvancedEmotionAnalyzer Spec.
Local Open Scope string_scope.
Local Open Scope Q_scope.

(** *** Patterns *)

Lemma analyzer_patterns_parse : forallb Re.parses analyzer_patterns = true.
Proof. vm_compute. reflexivity. Qed.

(** *** Urgency *)

(** C10. A text whose lowercased form contains "urgent" is classified
    "immediate", whatever else it says ("not urgent" included): the phrases
    are matched as substrings and the immediate set, which lists "urgent",
    is scanned first. *)
Theorem detect_urgency_urgent_is_immediate (text : string) :
  contains "urgent" (lower text) = true ->
  _detect_urgency text = "immediate".
Proof.
  intros H.
  unfold _detect_urgency, urgency_phrases, first_matching_level, any_phrase.
  cbn [existsb].
  rewrite H, orb_true_r. reflexivity.
Qed.

Lemma detect_urgency_urgent_is_immediate_witness :
  contains "urgent" (lower "This is not urgent at all") = true /\
  _detect_urgency "This is not urgent at all" = "immediate".
Proof.
  split.
  - vm_compute. reflexivity.
  - apply (detect_urgency_urgent_is_immediate "This is not urgent at all").
    vm_compute. reflexivity.
Defined.

(** *** Scenario B *)

(** C9, as stated, fails: the confidence reported for the text of
    scenario B is below 0.5. *)
Lemma scenario_B_confidence_not_half :
  ~ (hidden_dissatisfaction_flag (analyze_text scenario_B None None) = true /\
     0.5 <= hidden_dissatisfaction_confidence (analyze_text scenario_B None None)).
Proof.
  intros [_ H]. vm_compute in H. apply H. reflexivity.
Qed.

(** C9, amended. For the text of scenario B the flag is set and the
    confidence is 0.45: three signals fire (base 0.75) and the satisfaction
    level, 1.0 because of "helpful", is above 0.7, which takes 0.3 off. *)
Theorem scenario_B_hidden_dissatisfaction :
  hidden_dissatisfaction_flag (analyze_text scenario_B None None) = true /\
  hidden_signals (analyze_text scenario_B None None) = ["somewhat"; "probably"; "faint_praise"] /\
  satisfaction_level (analyze_text scenario_B None None) == 1.0 /\
  hidden_dissatisfaction_confidence (analyze_text scenario_B None None) == 0.45.
Proof.
  repeat split; vm_compute; reflexivity.
Qed.

(** *** Aspect scores *)

Lemma sum_values_app (l1 l2 : list (string * Z)) :
  sum_values (l1 ++ l2) = (sum_values l1 + sum_values l2)%Z.
Proof.
  unfold sum_values. induction l1 as [|e l1 IH]; simpl.
  - reflexivity.
  - rewrite IH. ring.
Qed.

Lemma Qnat_pos (n : nat) : (0 < n)%nat -> 0 < Qnat n.
Proof.
  intros H. unfold Qnat, Qlt. simpl. lia.
Qed.

Lemma satisfaction_with_scores (text : string) (scores : list (string * Z)) :
  scores <> [] ->
  _calculate_satisfaction_level text (Some scores) =
  text_satisfaction text * 0.6 +
  (inject_Z (sum_values scores) / Qnat (List.length scores) - 1) / 4 * 0.4.
Proof.
  destruct scores; [congruence | reflexivity].
Qed.




(** *** Ranges of the numeric fields *)

Lemma Qnat_nonneg (n : nat) : 0 <= Qnat n.
Proof. unfold Qnat, Qle. simpl. lia. Qed.

Lemma Qnat_add (n m : nat) : Qnat (n + m) == Qnat n + Qnat m.
Proof. unfold Qnat. rewrite Nat2Z.inj_add, inject_Z_plus. reflexivity. Qed.

Lemma Qnat_le (n m : nat) : (n <= m)%nat -> Qnat n <= Qnat m.
Proof. intros H. unfold Qnat, Qle. simpl. lia. Qed.

Lemma unit_min_one (x : Q) : 0 <= x -> unit_interval (Qmin x 1.0).
Proof.
  intros H. unfold unit_interval.
  destruct (Q.min_spec x 1.0) as [[H1 E]|[H1 E]]; rewrite E; lra.
Qed.

Lemma unit_max (x k : Q) : unit_interval x -> unit_interval k -> unit_interval (Qmax x k).
Proof.
  unfold unit_interval. intros H1 H2.
  destruct (Q.max_spec x k) as [[H3 E]|[H3 E]]; rewrite E; lra.
Qed.

Lemma unit_min (x k : Q) : unit_interval x -> unit_interval k -> unit_interval (Qmin x k).
Proof.
  unfold unit_interval. intros H1 H2.
  destruct (Q.min_spec x k) as [[H3 E]|[H3 E]]; rewrite E; lra.
Qed.

Lemma unit_clamp (x : Q) : unit_interval (Qmax (Qmin x 1.0) 0.0).
Proof.
  unfold unit_interval.
  destruct (Q.min_spec x 1.0) as [[H1 E]|[H1 E]];
    destruct (Q.max_spec (Qmin x 1.0) 0.0) as [[H3 E']|[H3 E']];
    rewrite E'; try rewrite E; lra.
Qed.

Lemma unit_ratio (a b : Q) : 0 <= a -> a <= b -> 0 < b -> unit_interval (a / b).
Proof.
  intros Ha Hab Hb. split.
  - apply Qle_shift_div_l; [assumption | lra].
  - apply Qle_shift_div_r; [assumption | lra].
Qed.

Lemma frustration_level_range (text : string) :
  unit_interval (_detect_frustration_level text).
Proof.
  unfold _detect_frustration_level.
  set (n := Qnat (count_words _ text)). set (m := Qnat (count_words _ text)).
  assert (Hs : unit_interval (Qmin (n * 0.15 * (1.0 + 0.5 * m)) 1.0)).
  { apply unit_min_one.
    assert (0 <= n) by apply Qnat_nonneg. assert (0 <= m) by apply Qnat_nonneg.
    apply Qmult_le_0_compat; [apply Qmult_le_0_compat|]; lra. }
  destruct (any_pattern _ text).
  - apply unit_max; [exact Hs | unfold unit_interval; lra].
  - exact Hs.
Qed.

Lemma weighted_indicator_score_range (h m l : nat) :
  unit_interval (weighted_indicator_score h m l).
Proof.
  unfold weighted_indicator_score.
  destruct (Nat.ltb_spec 0 (h + m + l)) as [Hpos|_]; [| unfold unit_interval; lra].
  pose proof (Qnat_nonneg h). pose proof (Qnat_nonneg m). pose proof (Qnat_nonneg l).
  pose proof (Qnat_pos _ Hpos) as HT.
  assert (E : Qnat (h + m + l) == Qnat h + Qnat m + Qnat l)
    by (rewrite !Qnat_add; reflexivity).
  apply unit_ratio; [lra | lra | exact HT].
Qed.

Lemma engagement_level_range (text : string) :
  unit_interval (_detect_engagement_level text).
Proof.
  unfold _detect_engagement_level.
  pose proof (weighted_indicator_score_range
                (count_words engagement_high text) (count_words engagement_medium text)
                (count_words engagement_low text)) as H.
  assert (unit_interval 0.8 /\ unit_interval 0.2) as [H8 H2]
    by (unfold unit_interval; split; lra).
  repeat match goal with
         | |- context [if ?b then _ else _] => destruct b
         end; auto using unit_max, unit_min.
Qed.

Lemma confidence_level_range (text : string) :
  unit_interval (_detect_confidence_level text).
Proof.
  unfold _detect_confidence_level.
  pose proof (weighted_indicator_score_range
                (count_words confidence_high text) (count_words confidence_medium text)
                (count_words confidence_low text)) as H.
  assert (unit_interval 0.8 /\ unit_interval 0.2) as [H8 H2]
    by (unfold unit_interval; split; lra).
  repeat match goal with
         | |- context [if ?b then _ else _] => destruct b
         end; auto using unit_max, unit_min.
Qed.

Lemma text_satisfaction_range (text : string) : unit_interval (text_satisfaction text).
Proof.
  unfold text_satisfaction.
  set (p := count_words _ text). set (n := count_words _ text).
  destruct (Nat.ltb_spec 0 (p + n)) as [Hpos|_]; [| unfold unit_interval; lra].
  apply unit_ratio.
  - apply Qnat_nonneg.
  - apply Qnat_le. lia.
  - apply Qnat_pos, Hpos.
Qed.

Lemma sum_values_bounds (scores : list (string * Z)) :
  forallb well_formed_score scores = true ->
  (Z.of_nat (List.length scores) <= sum_values scores <= 5 * Z.of_nat (List.length scores))%Z.
Proof.
  unfold sum_values.
  induction scores as [|e scores IH]; simpl; intros H.
  - lia.
  - apply andb_prop in H as [He H]. specialize (IH H).
    unfold well_formed_score in He. apply andb_prop in He as [H1 H5].
    apply Z.leb_le in H1, H5. lia.
Qed.

Lemma satisfaction_level_range (text : string) (aspect_scores : option (list (string * Z))) :
  scores_in_range aspect_scores = true ->
  unit_interval (_calculate_satisfaction_level text aspect_scores).
Proof.
  intros Hr. pose proof (text_satisfaction_range text) as [Ht0 Ht1].
  destruct aspect_scores as [[|e scores]|]; try (split; assumption).
  rewrite satisfaction_with_scores by discriminate.
  unfold scores_in_range in Hr. apply sum_values_bounds in Hr.
  set (l := e :: scores) in *.
  assert (Hn : 0 < Qnat (List.length l)) by (apply Qnat_pos; simpl; lia).
  assert (Ha : 1 <= inject_Z (sum_values l) / Qnat (List.length l) /\
               inject_Z (sum_values l) / Qnat (List.length l) <= 5).
  { split.
    - apply Qle_shift_div_l; [exact Hn|].
      unfold Qnat. rewrite Qmult_1_l. rewrite <- Zle_Qle. lia.
    - apply Qle_shift_div_r; [exact Hn|].
      unfold Qnat. change 5 with (inject_Z 5). rewrite <- inject_Z_mult, <- Zle_Qle. lia. }
  destruct Ha as [Ha1 Ha5].
  set (avg := inject_Z (sum_values l) / Qnat (List.length l)) in *.
  unfold unit_interval. split.
  - assert (0 <= (avg - 1) / 4) by (apply Qle_shift_div_l; lra). lra.
  - assert ((avg - 1) / 4 <= 1) by (apply Qle_shift_div_r; lra). lra.
Qed.

Lemma emotional_temperature_range (text : string) :
  unit_interval (_calculate_emotional_temperature text).
Proof.
  unfold _calculate_emotional_temperature.
  set (base := if (_ =? 0)%nat then _ else _).
  set (factor := 1.0 + 0.1 * Qnat _).
  set (excl := Qnat (count_char _ text)).
  set (caps := Qnat (count_upper text) / Qnat (Nat.max (String.length text) 1)).
  assert (Hexcl : 0 <= excl) by apply Qnat_nonneg.
  assert (Hcaps : 0 <= caps).
  { apply Qle_shift_div_l.
    - apply Qnat_pos. lia.
    - rewrite Qmult_0_l. apply Qnat_nonneg. }
  assert (Hb : 0 <= Qmin (Qmax (base * factor) 0.0) 1.0).
  { destruct (Q.max_spec (base * factor) 0.0) as [[H3 E']|[H3 E']];
      destruct (Q.min_spec (Qmax (base * factor) 0.0) 1.0) as [[H1 E]|[H1 E]];
      rewrite E; try rewrite E'; lra. }
  set (t := Qmin (Qmax (base * factor) 0.0) 1.0) in *.
  apply unit_min_one.
  destruct (Q.min_spec (excl * 0.05) 0.25) as [[H1 E]|[H1 E]];
    destruct (Q.min_spec (caps * 0.5) 0.25) as [[H2 E']|[H2 E']];
    rewrite E, E'; lra.
Qed.

Lemma Qsum_nonneg (l : list Q) : Forall (fun x => 0 <= x) l -> 0 <= Qsum l.
Proof.
  induction 1 as [|x l Hx _ IH]; simpl.
  - lra.
  - lra.
Qed.

Lemma dimension_changes_cons (current previous : HistoryEntry) (rest : list HistoryEntry) :
  dimension_changes (current :: previous :: rest) =
  ([ Qabs (get (h_frustration_level current) 0.5 - get (h_frustration_level previous) 0.5);
     Qabs (get (h_satisfaction_level current) 0.5 - get (h_satisfaction_level previous) 0.5);
     Qabs (get (h_emotional_temperature current) 0.5 - get (h_emotional_temperature previous) 0.5) ]
   ++ dimension_changes (previous :: rest))%list.
Proof. reflexivity. Qed.

Lemma dimension_changes_nonneg (l : list HistoryEntry) :
  Forall (fun x => 0 <= x) (dimension_changes l).
Proof.
  induction l as [|current l IH].
  - constructor.
  - destruct l as [|previous rest]; [constructor|].
    rewrite dimension_changes_cons.
    apply Forall_app. split; [| exact IH].
    repeat (constructor; [apply Qabs_nonneg|]). constructor.
Qed.

Lemma emotional_volatility_range (historical_data : option (list HistoryEntry)) :
  unit_interval (_calculate_emotional_volatility historical_data).
Proof.
  unfold _calculate_emotional_volatility.
  destruct (insufficient historical_data); [unfold unit_interval; lra|].
  pose proof (dimension_changes_nonneg (firstn 5 (sorted_desc (entries historical_data)))) as H.
  destruct (dimension_changes _) as [|c changes]; [unfold unit_interval; lra|].
  apply unit_min_one.
  apply Qsum_nonneg in H.
  assert (0 <= Qsum (c :: changes) / Qnat (List.length (c :: changes))).
  { apply Qle_shift_div_l; [apply Qnat_pos; simpl; lia | lra]. }
  lra.
Qed.

Lemma hidden_confidence_range (text : string) (satisfaction : Q) :
  unit_interval (snd (fst (_analyze_hidden_dissatisfaction text satisfaction))).
Proof.
  unfold _analyze_hidden_dissatisfaction. simpl. apply unit_clamp.
Qed.

Lemma politeness_mask_range (text : string) (hidden : bool) :
  unit_interval (_calculate_politeness_mask text hidden).
Proof.
  unfold _calculate_politeness_mask.
  destruct hidden; simpl; [| unfold unit_interval; lra].
  set (c := Qnat (count_phrases _ text)).
  assert (Hc : 0 <= c) by apply Qnat_nonneg.
  apply unit_min_one.
  destruct (Q.min_spec (c * 0.2) 0.8) as [[H1 E]|[H1 E]];
    repeat match goal with
           | |- context [if ?b then _ else _] => destruct b
           end; rewrite E; lra.
Qed.

Lemma emotion_coherence_range (f e c s : Q) :
  unit_interval f -> unit_interval e -> unit_interval c -> unit_interval s ->
  unit_interval (_calculate_emotion_coherence f e c s).
Proof.
  unfold unit_interval, _calculate_emotion_coherence.
  intros [Hf0 Hf1] [He0 He1] [Hc0 Hc1] [Hs0 Hs1].
  pose proof (Qabs_nonneg (1 - s - f)) as A0.
  pose proof (Qabs_nonneg (e - c)) as B0.
  assert (A1 : Qabs (1 - s - f) <= 1) by (apply Qabs_Qle_condition; split; lra).
  assert (B1 : Qabs (e - c) <= 1) by (apply Qabs_Qle_condition; split; lra).
  split; lra.
Qed.

Lemma sentiment_authenticity_range (text : string) (hidden : bool) :
  unit_interval (_calculate_sentiment_authenticity text hidden).
Proof.
  unfold _calculate_sentiment_authenticity. apply unit_clamp.
Qed.

(** *** Membership of the categorical fields *)

Lemma max_by_count_in (best : string * nat) (l : list (string * nat)) :
  In (fst (max_by_count best l)) (fst best :: map fst l).
Proof.
  revert best. induction l as [|kv l IH]; intros best; simpl.
  - left. reflexivity.
  - destruct (snd best <? snd kv)%nat.
    + right. apply (IH kv).
    + destruct (IH best) as [H|H]; [left; exact H | right; right; exact H].
Qed.

Lemma frustration_type_enum (text : string) :
  In (_determine_frustration_type text) frustration_types.
Proof.
  unfold _determine_frustration_type, frustration_types.
  destruct (_ =? 0)%nat; [simpl; tauto|].
  destruct (map _ frustration_words) as [|first rest] eqn:E; [simpl; tauto|].
  destruct (_ && _); [simpl; tauto|].
  destruct (0 <? _)%nat; [|simpl; tauto].
  pose proof (max_by_count_in first rest) as H.
  assert (K : map fst (first :: rest) = ["technical"; "content"; "support"; "pace"]).
  { rewrite <- E. reflexivity. }
  simpl in K. injection K as K1 K2. rewrite K1, K2 in H.
  simpl in H. simpl. tauto.
Qed.

Lemma frustration_intensity_enum (level : Q) :
  In (_determine_frustration_intensity level) frustration_intensities.
Proof.
  unfold _determine_frustration_intensity, frustration_intensities.
  repeat destruct (Qlt_le_dec _ _); simpl; tauto.
Qed.

Lemma trend_of_in (levels : list Q) (up down far steady : string) :
  In (trend_of levels up down far steady) [up; down; steady; far].
Proof.
  unfold trend_of.
  destruct levels as [|latest [|x earlier]]; try (simpl; tauto).
  repeat destruct (Qlt_le_dec _ _); try (simpl; tauto).
  destruct (any_far _ _ _); simpl; tauto.
Qed.

Lemma frustration_trend_enum (historical_data : option (list HistoryEntry)) :
  In (_determine_frustration_trend historical_data) frustration_trends.
Proof.
  unfold _determine_frustration_trend, frustration_trends.
  destruct (insufficient historical_data); [simpl; tauto|].
  apply trend_of_in.
Qed.

Lemma emotional_trajectory_enum (historical_data : option (list HistoryEntry)) :
  In (_determine_emotional_trajectory historical_data) emotional_trajectories_enum.
Proof.
  unfold _determine_emotional_trajectory, emotional_trajectories_enum.
  destruct (insufficient historical_data); [simpl; tauto|].
  apply trend_of_in.
Qed.

Lemma first_matching_level_in (levels : list (string * list string)) (text : string) :
  In (first_matching_level levels text) ("low" :: map fst levels).
Proof.
  induction levels as [|[level phrases] levels IH]; simpl.
  - left. reflexivity.
  - destruct (any_phrase phrases text).
    + right. left. reflexivity.
    + destruct IH as [H|H]; [left; exact H | right; right; exact H].
Qed.

Lemma urgency_level_enum (text : string) :
  In (_detect_urgency text) urgency_levels_enum.
Proof.
  pose proof (first_matching_level_in urgency_phrases text) as H.
  unfold _detect_urgency, urgency_levels_enum. simpl in H. simpl. tauto.
Qed.

Lemma response_urgency_enum (urgency : string) (frustration : Q) :
  In (_determine_response_urgency urgency frustration) response_urgencies.
Proof.
  unfold _determine_response_urgency, urgency_mapping, response_urgencies.
  repeat match goal with
         | |- context [String.eqb urgency ?s] => destruct (String.eqb urgency s)
         end;
    destruct (Qlt_le_dec _ _); simpl; tauto.
Qed.

Lemma emotional_complexity_enum (text : string) :
  In (_determine_emotional_complexity text) emotional_complexities.
Proof.
  unfold _determine_emotional_complexity, emotional_complexities.
  repeat match goal with
         | |- context [if ?b then _ else _] => destruct b
         end; simpl; tauto.
Qed.

(** *** C1 *)

(** C1. For every text, every history and every aspect-score map whose
    values lie in 1..5, each float field of the profile returned by
    [analyze_text] lies in [0,1] and each categorical field belongs to its
    enumeration. *)
Theorem analyze_text_fields_in_range
    (text : string) (aspect_scores : option (list (string * Z)))
    (historical_data : option (list HistoryEntry)) :
  scores_in_range aspect_scores = true ->
  fields_in_range (analyze_text text aspect_scores historical_data).
Proof.
  intros Hr. unfold fields_in_range.
  pose proof (satisfaction_level_range text aspect_scores Hr) as Hs.
  split.
  - repeat split.
    + apply (frustration_level_range text).
    + apply (frustration_level_range text).
    + apply (engagement_level_range text).
    + apply (engagement_level_range text).
    + apply (confidence_level_range text).
    + apply (confidence_level_range text).
    + apply Hs.
    + apply Hs.
    + apply (emotional_temperature_range text).
    + apply (emotional_temperature_range text).
    + apply (emotional_volatility_range historical_data).
    + apply (emotional_volatility_range historical_data).
    + apply (hidden_confidence_range text (_calculate_satisfaction_level text aspect_scores)).
    + apply (hidden_confidence_range text (_calculate_satisfaction_level text aspect_scores)).
    + apply (politeness_mask_range text _).
    + apply (politeness_mask_range text _).
    + apply (emotion_coherence_range _ _ _ _ (frustration_level_range text)
               (engagement_level_range text) (confidence_level_range text) Hs).
    + apply (emotion_coherence_range _ _ _ _ (frustration_level_range text)
               (engagement_level_range text) (confidence_level_range text) Hs).
    + apply (sentiment_authenticity_range text _).
    + apply (sentiment_authenticity_range text _).
  - repeat split.
    + apply frustration_type_enum.
    + apply frustration_intensity_enum.
    + apply frustration_trend_enum.
    + apply urgency_level_enum.
    + apply response_urgency_enum.
    + apply emotional_trajectory_enum.
    + apply emotional_complexity_enum.
Qed.

Lemma analyze_text_fields_in_range_witness :
  scores_in_range (Some [("content", 4%Z); ("pace", 2%Z)]) = true /\
  fields_in_range
    (analyze_text "I am VERY frustrated, the website is broken and I need help now!"
                  (Some [("content", 4%Z); ("pace", 2%Z)]) None).
Proof.
  split.
  - reflexivity.
  - apply (analyze_text_fields_in_range
             "I am VERY frustrated, the website is broken and I need help now!"
             (Some [("content", 4%Z); ("pace", 2%Z)]) None).
    reflexivity.
Defined.

(** *** Texts made of whitespace only *)

Section Whitespace.

Variable text : string.
Hypothesis Hspace : all_space text = true.

Lemma isspace_not_upper (c : ascii) : isspace c = true -> isupper c = false.
Proof.
  unfold isspace, isupper. cbv zeta.
  destruct (Nat.leb_spec 65 (nat_of_ascii c)), (Nat.leb_spec (nat_of_ascii c) 90),
           (Nat.leb_spec 9 (nat_of_ascii c)), (Nat.leb_spec (nat_of_ascii c) 13),
           (Nat.leb_spec 28 (nat_of_ascii c)), (Nat.leb_spec (nat_of_ascii c) 32);
    simpl; intros; try reflexivity; try discriminate; lia.
Qed.

Lemma lower_all_space (t : string) : all_space t = true -> lower t = t.
Proof.
  induction t as [|c t IH]; simpl; intros H.
  - reflexivity.
  - apply andb_prop in H as [Hc Ht].
    unfold lower_char. rewrite (isspace_not_upper _ Hc), (IH Ht). reflexivity.
Qed.

Lemma contains_all_space (w t : string) :
  starts_nonspace w = true -> all_space t = true -> contains w t = false.
Proof.
  destruct w as [|c w]; [discriminate|]. simpl. intros Hc.
  induction t as [|d t IH]; simpl; intros Ht.
  - reflexivity.
  - apply andb_prop in Ht as [Hd Ht].
    destruct (Ascii.eqb_spec c d) as [->|Hne].
    + rewrite Hd in Hc. discriminate.
    + destruct (ascii_dec c d) as [E|_]; [contradiction|].
      simpl. apply IH, Ht.
Qed.

Lemma count_words_space (words : list string) :
  forallb (fun w => starts_nonspace (lower w)) words = true ->
  count_words words text = O.
Proof.
  unfold count_words. rewrite (lower_all_space _ Hspace).
  induction words as [|w words IH]; simpl; intros H.
  - reflexivity.
  - apply andb_prop in H as [Hw H].
    rewrite (contains_all_space _ _ Hw Hspace). apply IH, H.
Qed.

Lemma filter_phrases_space (phrases : list string) :
  forallb starts_nonspace phrases = true ->
  filter (fun phrase => contains phrase (lower text)) phrases = [].
Proof.
  rewrite (lower_all_space _ Hspace).
  induction phrases as [|w phrases IH]; simpl; intros H.
  - reflexivity.
  - apply andb_prop in H as [Hw H].
    rewrite (contains_all_space _ _ Hw Hspace). apply IH, H.
Qed.

Lemma count_phrases_space (phrases : list string) :
  forallb starts_nonspace phrases = true ->
  count_phrases phrases text = O.
Proof.
  intros H. unfold count_phrases. rewrite (filter_phrases_space _ H). reflexivity.
Qed.

Lemma any_phrase_space (phrases : list string) :
  forallb starts_nonspace phrases = true ->
  any_phrase phrases text = false.
Proof.
  unfold any_phrase. rewrite (lower_all_space _ Hspace).
  induction phrases as [|w phrases IH]; simpl; intros H.
  - reflexivity.
  - apply andb_prop in H as [Hw H].
    rewrite (contains_all_space _ _ Hw Hspace). apply IH, H.
Qed.

Lemma never_space_not_nullable (r : Re.regex) :
  never_space r = true -> Re.nullable r = false.
Proof.
  induction r; simpl; intros H; try reflexivity; try discriminate.
  - apply andb_prop in H as [H1 H2]. rewrite IHr1, IHr2 by assumption. reflexivity.
  - apply orb_prop in H as [H|H].
    + rewrite IHr1 by assumption. reflexivity.
    + rewrite IHr2 by assumption. apply andb_false_r.
Qed.

Lemma never_space_mkAlt (a b : Re.regex) :
  never_space a = true -> never_space b = true -> never_space (Re.mkAlt a b) = true.
Proof.
  intros Ha Hb. destruct a, b; simpl in *; try reflexivity; try assumption;
    try discriminate; rewrite ?Ha, ?Hb; reflexivity.
Qed.

Lemma never_space_mkCat (a b : Re.regex) :
  never_space a || never_space b = true -> never_space (Re.mkCat a b) = true.
Proof.
  intros H. destruct a, b; simpl in *; try reflexivity; try assumption; try discriminate.
Qed.

Lemma never_space_deriv (c : ascii) (r : Re.regex) :
  isspace c = true -> never_space r = true -> never_space (Re.deriv c r) = true.
Proof.
  intros Hc. induction r; simpl; intros H; try reflexivity; try discriminate.
  - destruct (Ascii.eqb_spec c a) as [->|_]; [| reflexivity].
    rewrite Hc in H. discriminate.
  - apply andb_prop in H as [H1 H2]. apply never_space_mkAlt; auto.
  - apply never_space_mkAlt.
    + apply never_space_mkCat. destruct (never_space r1) eqn:E1.
      * rewrite IHr1 by reflexivity. reflexivity.
      * simpl in H. rewrite H. apply orb_true_r.
    + destruct (Re.nullable r1) eqn:En; [| reflexivity].
      destruct (never_space r1) eqn:E1.
      * rewrite (never_space_not_nullable _ E1) in En. discriminate.
      * simpl in H. apply IHr2, H.
Qed.

Lemma match_prefix_all_space (t : string) (r : Re.regex) :
  all_space t = true -> never_space r = true -> Re.match_prefix r t = false.
Proof.
  revert r. induction t as [|c t IH]; simpl; intros r Ht Hr;
    rewrite (never_space_not_nullable _ Hr); simpl.
  - reflexivity.
  - apply andb_prop in Ht as [Hc Ht]. apply IH; [exact Ht|].
    apply never_space_deriv; assumption.
Qed.

Lemma search_regex_all_space (t : string) (r : Re.regex) :
  all_space t = true -> never_space r = true -> Re.search_regex r t = false.
Proof.
  induction t as [|c t IH]; intros Ht Hr; simpl.
  - rewrite (never_space_not_nullable _ Hr). reflexivity.
  - rewrite (never_space_not_nullable _ Hr). simpl.
    pose proof Ht as Ht'. simpl in Ht'. apply andb_prop in Ht' as [Hc Ht'].
    rewrite (match_prefix_all_space _ _ Ht' (never_space_deriv _ _ Hc Hr)).
    apply IH; assumption.
Qed.

Lemma search_space (pattern : string) :
  never_space (Re.compile pattern) = true ->
  Re.search pattern (lower text) = false.
Proof.
  intros H. unfold Re.search. rewrite (lower_all_space _ Hspace).
  apply search_regex_all_space; assumption.
Qed.

Lemma any_pattern_space (patterns : list string) :
  forallb (fun p => never_space (Re.compile p)) patterns = true ->
  any_pattern patterns text = false.
Proof.
  unfold any_pattern.
  induction patterns as [|p patterns IH]; simpl; intros H.
  - reflexivity.
  - apply andb_prop in H as [Hp H].
    rewrite (search_space _ Hp). apply IH, H.
Qed.

Lemma filter_patterns_space (patterns : list string) :
  forallb (fun p => never_space (Re.compile p)) patterns = true ->
  filter (fun pattern => Re.search pattern (lower text)) patterns = [].
Proof.
  induction patterns as [|p patterns IH]; simpl; intros H.
  - reflexivity.
  - apply andb_prop in H as [Hp H].
    rewrite (search_space _ Hp). apply IH, H.
Qed.

Lemma tags_of_space (rules : list (string * string)) :
  forallb (fun rule => never_space (Re.compile (fst rule))) rules = true ->
  tags_of rules text = [].
Proof.
  unfold tags_of.
  induction rules as [|p rules IH]; simpl; intros H.
  - reflexivity.
  - apply andb_prop in H as [Hp H].
    rewrite (search_space _ Hp). apply IH, H.
Qed.

Lemma count_char_space (c : ascii) :
  isspace c = false -> count_char c text = O.
Proof.
  intros Hc. revert Hspace. induction text as [|d t IH]; simpl; intros H.
  - reflexivity.
  - apply andb_prop in H as [Hd Ht].
    destruct (Ascii.eqb_spec c d) as [->|_].
    + rewrite Hd in Hc. discriminate.
    + apply IH, Ht.
Qed.

Lemma count_upper_space : count_upper text = O.
Proof.
  revert Hspace. induction text as [|d t IH]; simpl; intros H.
  - reflexivity.
  - apply andb_prop in H as [Hd Ht].
    rewrite (isspace_not_upper _ Hd). apply IH, Ht.
Qed.

End Whitespace.

Ltac space_rw H :=
  repeat first
    [ rewrite (count_words_space _ H) by reflexivity
    | rewrite (count_phrases_space _ H) by reflexivity
    | rewrite (any_phrase_space _ H) by reflexivity
    | rewrite (any_pattern_space _ H) by reflexivity
    | rewrite (search_space _ H) by reflexivity
    | rewrite (filter_patterns_space _ H) by reflexivity
    | rewrite (filter_phrases_space _ H) by reflexivity
    | rewrite (tags_of_space _ H) by reflexivity ].

Section WhitespaceProfile.

Variable text : string.
Hypothesis Hspace : all_space text = true.

Lemma frustration_level_space : _detect_frustration_level text = _detect_frustration_level "".
Proof. unfold _detect_frustration_level. cbv zeta. space_rw Hspace. reflexivity. Qed.

Lemma engagement_level_space : _detect_engagement_level text = _detect_engagement_level "".
Proof. unfold _detect_engagement_level. cbv zeta. space_rw Hspace. reflexivity. Qed.

Lemma confidence_level_space : _detect_confidence_level text = _detect_confidence_level "".
Proof. unfold _detect_confidence_level. cbv zeta. space_rw Hspace. reflexivity. Qed.

Lemma text_satisfaction_space : text_satisfaction text = text_satisfaction "".
Proof. unfold text_satisfaction. cbv zeta. space_rw Hspace. reflexivity. Qed.

Lemma frustration_type_space : _determine_frustration_type text = _determine_frustration_type "".
Proof.
  unfold _determine_frustration_type, frustration_words. cbn [map fst snd].
  space_rw Hspace. reflexivity.
Qed.

Lemma urgency_space : _detect_urgency text = _detect_urgency "".
Proof.
  unfold _detect_urgency, urgency_phrases. cbn [first_matching_level].
  space_rw Hspace. reflexivity.
Qed.

Lemma urgency_signals_space : _detect_urgency_signals text = _detect_urgency_signals "".
Proof. unfold _detect_urgency_signals. space_rw Hspace. reflexivity. Qed.

Lemma hidden_dissatisfaction_space (satisfaction : Q) :
  _analyze_hidden_dissatisfaction text satisfaction
  = _analyze_hidden_dissatisfaction "" satisfaction.
Proof.
  unfold _analyze_hidden_dissatisfaction. cbv zeta. space_rw Hspace. reflexivity.
Qed.

Lemma dropout_risk_emotions_space :
  _detect_dropout_risk_emotions text = _detect_dropout_risk_emotions "".
Proof.
  unfold _detect_dropout_risk_emotions, add_by_phrases. cbv zeta.
  space_rw Hspace. cbn [fold_left fst snd]. space_rw Hspace. reflexivity.
Qed.

Lemma positive_recovery_indicators_space :
  _detect_positive_recovery_indicators text = _detect_positive_recovery_indicators "".
Proof.
  unfold _detect_positive_recovery_indicators, add_by_phrases. cbv zeta.
  space_rw Hspace. cbn [fold_left fst snd]. space_rw Hspace. reflexivity.
Qed.

Lemma emotional_triggers_space :
  _identify_emotional_triggers text = _identify_emotional_triggers "".
Proof.
  unfold _identify_emotional_triggers, trigger_patterns. cbn [filter fst snd].
  space_rw Hspace. reflexivity.
Qed.

Lemma emotional_complexity_space :
  _determine_emotional_complexity text = _determine_emotional_complexity "".
Proof.
  unfold _determine_emotional_complexity. cbv zeta. space_rw Hspace. reflexivity.
Qed.

End WhitespaceProfile.

(** C5, as stated, fails: the frustration level of the empty text is 0,
    not 0.5. *)
Lemma empty_text_frustration_not_half :
  ~ neutral_profile 0.5 (analyze_text "" None None).
Proof.
  intros [[H _] _]. vm_compute in H. discriminate H.
Qed.

(** C5, amended. For a text that is empty or made of whitespace only
    (analyzed without aspect scores and without history) the frustration
    level is 0 and the engagement, confidence and satisfaction levels are
    0.5; the tag lists are empty, the categorical fields take their neutral
    value ("mixed", "mild", "stable", "low", "routine", "neutral", "simple")
    and no hidden dissatisfaction is flagged.  [analyze_text] is a total
    function: it returns a profile for every string. *)
Theorem whitespace_text_profile (text : string) :
  all_space text = true ->
  neutral_profile 0 (analyze_text text None None).
Proof.
  intros H.
  assert (E : forall p q : EmotionProfile,
             frustration_level p = frustration_level q ->
             engagement_level p = engagement_level q ->
             confidence_level p = confidence_level q ->
             satisfaction_level p = satisfaction_level q ->
             urgency_signals p = urgency_signals q ->
             hidden_signals p = hidden_signals q ->
             dropout_risk_emotions p = dropout_risk_emotions q ->
             positive_recovery_indicators p = positive_recovery_indicators q ->
             emotional_triggers p = emotional_triggers q ->
             frustration_type p = frustration_type q ->
             frustration_intensity p = frustration_intensity q ->
             frustration_trend p = frustration_trend q ->
             urgency_level p = urgency_level q ->
             response_urgency p = response_urgency q ->
             emotional_trajectory p = emotional_trajectory q ->
             emotional_complexity p = emotional_complexity q ->
             hidden_dissatisfaction_flag p = hidden_dissatisfaction_flag q ->
             neutral_profile 0 q -> neutral_profile 0 p).
  { unfold neutral_profile. intros p q.
    repeat (let e := fresh in intros e; rewrite e). tauto. }
  apply (E _ (analyze_text "" None None)).
  - exact (frustration_level_space text H).
  - exact (engagement_level_space text H).
  - exact (confidence_level_space text H).
  - exact (text_satisfaction_space text H).
  - exact (urgency_signals_space text H).
  - change (snd (_analyze_hidden_dissatisfaction text (text_satisfaction text))
            = snd (_analyze_hidden_dissatisfaction "" (text_satisfaction ""))).
    rewrite (hidden_dissatisfaction_space text H), (text_satisfaction_space text H).
    reflexivity.
  - exact (dropout_risk_emotions_space text H).
  - exact (positive_recovery_indicators_space text H).
  - exact (emotional_triggers_space text H).
  - exact (frustration_type_space text H).
  - change (_determine_frustration_intensity (_detect_frustration_level text)
            = _determine_frustration_intensity (_detect_frustration_level "")).
    rewrite (frustration_level_space text H). reflexivity.
  - reflexivity.
  - exact (urgency_space text H).
  - change (_determine_response_urgency (_detect_urgency text) (_detect_frustration_level text)
            = _determine_response_urgency (_detect_urgency "") (_detect_frustration_level "")).
    rewrite (frustration_level_space text H), (urgency_space text H). reflexivity.
  - reflexivity.
  - exact (emotional_complexity_space text H).
  - change (fst (fst (_analyze_hidden_dissatisfaction text (text_satisfaction text)))
            = fst (fst (_analyze_hidden_dissatisfaction "" (text_satisfaction "")))).
    rewrite (hidden_dissatisfaction_space text H), (text_satisfaction_space text H).
    reflexivity.
  - unfold neutral_profile. vm_compute. intuition discriminate.
Qed.

Lemma whitespace_text_profile_witness :
  all_space "  " = true /\ neutral_profile 0 (analyze_text "  " None None).
Proof.
  split.
  - reflexivity.
  - apply (whitespace_text_profile "  "). reflexivity.
Defined.

End AnalyzerFacts.

(* ================================================================== *)
(** ** Properties of the trajectory predictor                          *)
(* ================================================================== *)

Module TrajectoryFacts.

Import EmotionTrajectoryPredictor TrajectorySpec.
Local Open Scope string_scope.
Local Open Scope R_scope.

(** *** Short histories *)

(** C3. With fewer than 2 entries every horizon of the emotion prediction
    has its four primary dimensions at 0.5, and the intervention windows
    hold the routine 14-day check-in only, whatever the fits return. *)
Theorem short_history_default_prediction
    (polyfit1 : list R -> list R -> R * R)
    (polyfit2 : list R -> list R -> R * R * R)
    (now : Z) (history : StudentEmotionHistory) :
  (List.length (weeks history) < 2)%nat ->
  default_prediction now (predict_emotion_evolution polyfit1 polyfit2 now history).
Proof.
  intros Hlen. unfold default_prediction.
  assert (H2 : (List.length (weeks history) <? 2)%nat = true) by (apply Nat.ltb_lt; lia).
  assert (H3 : (List.length (weeks history) <? 3)%nat = true) by (apply Nat.ltb_lt; lia).
  unfold predict_emotion_evolution, predict_next_week_emotions, predict_two_week_emotions,
    predict_end_course_emotions, model_frustration_curve, predict_engagement_decline,
    predict_hidden_dissatisfaction.
  rewrite H2, H3.
  unfold primary_levels_half, routine_window_only. cbn.
  repeat split; reflexivity.
Qed.

Lemma short_history_default_prediction_witness :
  (List.length (weeks one_week_history) < 2)%nat /\
  default_prediction 0
    (predict_emotion_evolution (fun _ _ => (0, 0)) (fun _ _ => (0, 0, 0)) 0 one_week_history).
Proof.
  split.
  - simpl. lia.
  - apply (short_history_default_prediction
             (fun _ _ => (0, 0)) (fun _ _ => (0, 0, 0)) 0 one_week_history).
    simpl. lia.
Defined.

(** *** Ranking of the interventions *)

(** C7, at an input where two risk types tie on the urgency rank: the code
    sorts on the negated day count, so the window 6 days away comes out as
    primary and the one 2 days away as secondary. *)
Theorem tied_risks_later_window_first (now : Z) :
  find_intervention_windows now any_predictions tied_risks =
  {| primary := window now "dissatisfaction_intervention" "this_week" 6 0.7;
     secondary := Some (window now "engagement_intervention" "within_week" 2 0.6) |}.
Proof.
  unfold find_intervention_windows, tied_risks, urgent_interventions. cbn.
  reflexivity.
Qed.

Lemma key_lt_asym (k1 k2 : Z * Z * R) : key_lt k1 k2 = true -> key_lt k2 k1 = false.
Proof.
  destruct k1 as [[u1 d1] c1], k2 as [[u2 d2] c2]. unfold key_lt, Rltb.
  destruct (Z.ltb_spec u1 u2), (Z.ltb_spec u2 u1), (Z.eqb_spec u1 u2), (Z.eqb_spec u2 u1),
           (Z.ltb_spec d1 d2), (Z.ltb_spec d2 d1), (Z.eqb_spec d1 d2), (Z.eqb_spec d2 d1),
           (Rlt_dec c1 c2), (Rlt_dec c2 c1);
    simpl; intros; try reflexivity; try discriminate; try lia; lra.
Qed.

Lemma insert_by_key_sorted (x : Intervention) (l : list Intervention) :
  Sorted.LocallySorted may_precede l ->
  Sorted.LocallySorted may_precede (insert_by_key x l).
Proof.
  induction 1 as [|y|y z l Hl IH Hyz]; cbn [insert_by_key].
  - constructor.
  - destruct (key_lt (sort_key y) (sort_key x)) eqn:E.
    + constructor; [constructor|]. apply key_lt_asym, E.
    + constructor; [constructor|]. exact E.
  - destruct (key_lt (sort_key y) (sort_key x)) eqn:E.
    + cbn [insert_by_key] in IH. destruct (key_lt (sort_key z) (sort_key x)) eqn:E'.
      * constructor; assumption.
      * constructor; [exact IH|]. apply key_lt_asym, E.
    + constructor; [constructor; assumption|]. exact E.
Qed.

Lemma sort_interventions_sorted (l : list Intervention) :
  Sorted.LocallySorted may_precede (sort_interventions l).
Proof.
  induction l as [|x l IH].
  - constructor.
  - apply (insert_by_key_sorted x _ IH).
Qed.

Lemma insert_by_key_perm (x : Intervention) (l : list Intervention) :
  Permutation.Permutation (x :: l) (insert_by_key x l).
Proof.
  induction l as [|y l IH]; cbn [insert_by_key].
  - apply Permutation.Permutation_refl.
  - destruct (key_lt (sort_key y) (sort_key x)).
    + eapply Permutation.perm_trans; [apply Permutation.perm_swap|].
      apply Permutation.perm_skip, IH.
    + apply Permutation.Permutation_refl.
Qed.

Lemma sort_interventions_perm (l : list Intervention) :
  Permutation.Permutation l (sort_interventions l).
Proof.
  induction l as [|x l IH].
  - constructor.
  - eapply Permutation.perm_trans; [apply Permutation.perm_skip, IH|].
    apply (insert_by_key_perm x (sort_interventions l)).
Qed.

(** The parts of the window selection that do not depend on the order
    within an urgency rank. *)
Lemma no_estimate_routine_check_in
    (now : Z) (predictions : EmotionPredictions) (risks : RiskEscalations) :
  urgent_interventions risks = [] ->
  find_intervention_windows now predictions risks =
  {| primary := window now "routine_check_in" "routine" 14 0.5; secondary := None |}.
Proof.
  intros H. unfold find_intervention_windows. rewrite H. reflexivity.
Qed.

Lemma windows_target_date
    (now : Z) (predictions : EmotionPredictions) (risks : RiskEscalations) :
  let w := find_intervention_windows now predictions risks in
  w_target_date (primary w) = (now + w_days_from_now (primary w))%Z /\
  forall second, secondary w = Some second ->
                 w_target_date second = (now + w_days_from_now second)%Z.
Proof.
  unfold find_intervention_windows.
  destruct (sort_interventions (urgent_interventions risks)) as [|x [|y l]]; simpl;
    (split; [reflexivity | intros second E; try discriminate; injection E as <-; reflexivity]).
Qed.

(** The ranking the specification describes puts the window 2 days away
    first at the same input. *)
Lemma tied_risks_claimed_ranking :
  map i_type (claimed_ranking (urgent_interventions tied_risks)) =
  ["engagement_intervention"; "dissatisfaction_intervention"].
Proof.
  unfold claimed_ranking, tied_risks, urgent_interventions. cbn. reflexivity.
Qed.

(** *** Threshold crossings *)

Lemma Rltb_true (x y : R) : Rltb x y = true <-> x < y.
Proof. unfold Rltb. destruct (Rlt_dec x y); split; intros; try assumption; try reflexivity; try discriminate; contradiction. Qed.


Section Quadratic.

Variables a b c threshold : R.
Hypothesis Ha : a <> 0.

Let c' := c - threshold.
Let discriminant := b ^ 2 - 4 * a * c'.



Let x1 := (- b + sqrt discriminant) / (2 * a).
Let x2 := (- b - sqrt discriminant) / (2 * a).



End Quadratic.








End TrajectoryFacts.

(* ================================================================== *)
(** ** Further properties of the analyzer                              *)
(* ================================================================== *)

Module AnalyzerExtra.

Import PyStr AdvancedEmotionAnalyzer Spec ExtraSpec.
Local Open Scope string_scope.
Local Open Scope Q_scope.

(** *** Patterns that need a capital letter *)

Section Class.

Variable inside : ascii -> bool.

Lemma leaves_class_not_nullable (r : Re.regex) :
  leaves_class inside r = true -> Re.nullable r = false.
Proof.
  induction r; simpl; intros H; try reflexivity; try discriminate.
  - apply andb_prop in H as [H1 H2]. rewrite IHr1, IHr2 by assumption. reflexivity.
  - apply orb_prop in H as [H|H].
    + rewrite IHr1 by assumption. reflexivity.
    + rewrite IHr2 by assumption. apply andb_false_r.
Qed.

Lemma leaves_class_mkAlt (a b : Re.regex) :
  leaves_class inside a = true -> leaves_class inside b = true ->
  leaves_class inside (Re.mkAlt a b) = true.
Proof.
  intros Ha Hb. destruct a, b; simpl in *; try reflexivity; try assumption;
    try discriminate; rewrite ?Ha, ?Hb; reflexivity.
Qed.

Lemma leaves_class_mkCat (a b : Re.regex) :
  leaves_class inside a || leaves_class inside b = true ->
  leaves_class inside (Re.mkCat a b) = true.
Proof.
  intros H. destruct a, b; simpl in *; try reflexivity; try assumption; try discriminate.
Qed.

Lemma leaves_class_deriv (c : ascii) (r : Re.regex) :
  inside c = true -> leaves_class inside r = true ->
  leaves_class inside (Re.deriv c r) = true.
Proof.
  intros Hc. induction r; simpl; intros H; try reflexivity; try discriminate.
  - destruct (Ascii.eqb_spec c a) as [->|_]; [| reflexivity].
    rewrite Hc in H. discriminate.
  - apply andb_prop in H as [H1 H2]. apply leaves_class_mkAlt; auto.
  - apply leaves_class_mkAlt.
    + apply leaves_class_mkCat. destruct (leaves_class inside r1) eqn:E1.
      * rewrite IHr1 by reflexivity. reflexivity.
      * simpl in H. rewrite H. apply orb_true_r.
    + destruct (Re.nullable r1) eqn:En; [| reflexivity].
      destruct (leaves_class inside r1) eqn:E1.
      * rewrite (leaves_class_not_nullable _ E1) in En. discriminate.
      * simpl in H. apply IHr2, H.
Qed.

Lemma match_prefix_inside (t : string) (r : Re.regex) :
  all_inside inside t = true -> leaves_class inside r = true ->
  Re.match_prefix r t = false.
Proof.
  revert r. induction t as [|c t IH]; simpl; intros r Ht Hr;
    rewrite (leaves_class_not_nullable _ Hr); simpl.
  - reflexivity.
  - apply andb_prop in Ht as [Hc Ht]. apply IH; [exact Ht|].
    apply leaves_class_deriv; assumption.
Qed.

Lemma search_regex_inside (t : string) (r : Re.regex) :
  all_inside inside t = true -> leaves_class inside r = true ->
  Re.search_regex r t = false.
Proof.
  induction t as [|c t IH]; intros Ht Hr; simpl.
  - rewrite (leaves_class_not_nullable _ Hr). reflexivity.
  - rewrite (leaves_class_not_nullable _ Hr). simpl.
    pose proof Ht as Ht'. simpl in Ht'. apply andb_prop in Ht' as [Hc Ht'].
    rewrite (match_prefix_inside _ _ Ht' (leaves_class_deriv _ _ Hc Hr)).
    apply IH; assumption.
Qed.

End Class.

Lemma lower_char_not_upper (c : ascii) : isupper (lower_char c) = false.
Proof.
  destruct c as [[] [] [] [] [] [] [] []]; reflexivity.
Qed.

Lemma lower_not_upper (text : string) : all_inside not_upper (lower text) = true.
Proof.
  induction text as [|c t IH]; simpl.
  - reflexivity.
  - unfold not_upper at 1. rewrite lower_char_not_upper, IH. reflexivity.
Qed.

Lemma search_needs_capital (pattern text : string) :
  needs_capital pattern = true -> Re.search pattern (lower text) = false.
Proof.
  intros H. unfold Re.search.
  apply (search_regex_inside not_upper); [apply lower_not_upper | exact H].
Qed.

(** *** Explicit statements *)

Lemma weighted_indicator_score_tight (h m l : nat) :
  0.1 <= weighted_indicator_score h m l /\ weighted_indicator_score h m l <= 0.9.
Proof.
  unfold weighted_indicator_score.
  destruct (Nat.ltb_spec 0 (h + m + l)) as [Hpos|_]; [| split; lra].
  pose proof (AnalyzerFacts.Qnat_nonneg h). pose proof (AnalyzerFacts.Qnat_nonneg m).
  pose proof (AnalyzerFacts.Qnat_nonneg l).
  pose proof (AnalyzerFacts.Qnat_pos _ Hpos) as HT.
  assert (E : Qnat (h + m + l) == Qnat h + Qnat m + Qnat l)
    by (rewrite !AnalyzerFacts.Qnat_add; reflexivity).
  split.
  - apply Qle_shift_div_l; [exact HT | lra].
  - apply Qle_shift_div_r; [exact HT | lra].
Qed.

(** X1. The explicit-statement adjustments of the engagement and confidence
    levels never apply: their patterns begin with a capital I and are
    searched in the lowercased text.  For every text both levels are the
    weighted indicator scores, hence lie between 0.1 and 0.9. *)
Theorem explicit_engagement_confidence_never_apply (text : string) :
  (_detect_engagement_level text =
   weighted_indicator_score (count_words engagement_high text)
                            (count_words engagement_medium text)
                            (count_words engagement_low text) /\
   _detect_confidence_level text =
   weighted_indicator_score (count_words confidence_high text)
                            (count_words confidence_medium text)
                            (count_words confidence_low text)) /\
  (0.1 <= _detect_engagement_level text /\ _detect_engagement_level text <= 0.9) /\
  (0.1 <= _detect_confidence_level text /\ _detect_confidence_level text <= 0.9).
Proof.
  assert (E : _detect_engagement_level text =
              weighted_indicator_score (count_words engagement_high text)
                (count_words engagement_medium text) (count_words engagement_low text)).
  { unfold _detect_engagement_level. cbv zeta.
    rewrite !(search_needs_capital _ text) by reflexivity. reflexivity. }
  assert (C : _detect_confidence_level text =
              weighted_indicator_score (count_words confidence_high text)
                (count_words confidence_medium text) (count_words confidence_low text)).
  { unfold _detect_confidence_level. cbv zeta.
    rewrite !(search_needs_capital _ text) by reflexivity. reflexivity. }
  split; [split; assumption|].
  rewrite E, C. split; apply weighted_indicator_score_tight.
Qed.

Lemma in_map_filter (A B : Type) (f : A -> B) (g : A -> bool) (l : list A) (y : B) :
  In y (map f (filter g l)) -> exists x, In x l /\ g x = true /\ y = f x.
Proof.
  intros H. apply in_map_iff in H as [x [E Hx]]. apply filter_In in Hx as [Hx Hg].
  exists x. auto.
Qed.

(** X2. Whatever the text, [hidden_signals] only holds tags of a fixed list
    of twelve.  The tag "I suppose" of the fourth pattern is not among
    them: that pattern begins with a capital I and never matches the
    lowercased text. *)
Theorem hidden_signals_vocabulary
    (text : string) (aspect_scores : option (list (string * Z)))
    (historical_data : option (list HistoryEntry)) :
  (forall tag, In tag (hidden_signals (analyze_text text aspect_scores historical_data)) ->
               In tag hidden_signal_tags) /\
  In "I suppose" (map pattern_name hidden_dissatisfaction_patterns) /\
  ~ In "I suppose" (hidden_signals (analyze_text text aspect_scores historical_data)).
Proof.
  assert (V : forall tag,
             In tag (hidden_signals (analyze_text text aspect_scores historical_data)) ->
             In tag hidden_signal_tags).
  { intros tag H.
    change (In tag
              (map pattern_name
                 (filter (fun pattern => Re.search pattern (lower text))
                         hidden_dissatisfaction_patterns)
               ++ tags_of
                    [ ("(good|great|nice) but", "praise_with_reservations");
                      ("(like|enjoy).*(however|though|but)", "praise_with_reservations");
                      ("(somewhat|kind of|sort of) (good|helpful|useful)", "faint_praise");
                      ("(I appreciate|thank you for) (the effort|trying|attempting)",
                       "diplomatic_language") ] text)%list) in H.
    apply in_app_or in H as [H|H].
    - apply in_map_filter in H as [p [Hp [Hs ->]]].
      unfold hidden_dissatisfaction_patterns in Hp. simpl in Hp.
      repeat (destruct Hp as [<-|Hp];
              [first [ rewrite search_needs_capital in Hs by reflexivity; discriminate
                     | vm_compute; tauto ] |]).
      contradiction.
    - unfold tags_of in H. apply in_map_filter in H as [p [Hp [_ ->]]].
      simpl in Hp.
      repeat (destruct Hp as [<-|Hp]; [vm_compute; tauto|]).
      contradiction. }
  split; [exact V|]. split.
  - vm_compute. tauto.
  - intros H. apply V in H. unfold hidden_signal_tags in H. simpl in H.
    repeat (destruct H as [H|H]; [discriminate H|]). exact H.
Qed.

(** X3. An explicit frustration statement sets a floor: when one of the
    three explicit patterns is found in the lowercased text, the
    frustration level is at least 0.7 and the intensity is "severe" or
    "critical". *)
Theorem explicit_frustration_floor
    (text : string) (aspect_scores : option (list (string * Z)))
    (historical_data : option (list HistoryEntry)) :
  any_pattern explicit_frustration_patterns text = true ->
  0.7 <= frustration_level (analyze_text text aspect_scores historical_data) /\
  In (frustration_intensity (analyze_text text aspect_scores historical_data))
     ["severe"; "critical"].
Proof.
  intros H.
  assert (F : 0.7 <= _detect_frustration_level text).
  { unfold _detect_frustration_level. cbv zeta.
    unfold explicit_frustration_patterns in H. rewrite H.
    apply Q.le_max_r. }
  split; [exact F|].
  change (In (_determine_frustration_intensity (_detect_frustration_level text))
             ["severe"; "critical"]).
  unfold _determine_frustration_intensity.
  repeat destruct (Qlt_le_dec _ _); simpl; try tauto; lra.
Qed.

Lemma explicit_frustration_floor_witness :
  any_pattern explicit_frustration_patterns "Feeling really upset about the grading" = true /\
  0.7 <= frustration_level (analyze_text "Feeling really upset about the grading" None None) /\
  In (frustration_intensity (analyze_text "Feeling really upset about the grading" None None))
     ["severe"; "critical"].
Proof.
  split.
  - vm_compute. reflexivity.
  - apply (explicit_frustration_floor "Feeling really upset about the grading" None None).
    vm_compute. reflexivity.
Defined.

(** *** Urgency *)

Lemma prefix_app (a s : string) :
  String.prefix a s = true <-> exists suf, s = a ++ suf.
Proof.
  revert s. induction a as [|c a IH]; intros s.
  - split; [intros _; exists s; reflexivity | intros _; destruct s; reflexivity].
  - destruct s as [|d s]; simpl.
    + split; [discriminate | intros [suf E]; discriminate E].
    + destruct (ascii_dec c d) as [->|Hne].
      * rewrite IH. split; intros [suf E]; exists suf.
        -- rewrite E. reflexivity.
        -- injection E as E. exact E.
      * split; [discriminate | intros [suf E]; injection E as E1 E2; congruence].
Qed.

Lemma append_assoc (a b c : string) : (a ++ b) ++ c = a ++ (b ++ c).
Proof. induction a as [|x a IH]; simpl; [reflexivity | rewrite IH; reflexivity]. Qed.

Lemma contains_iff (a s : string) :
  contains a s = true <-> exists pre suf, s = pre ++ a ++ suf.
Proof.
  induction s as [|d s IH]; cbn [contains].
  - rewrite orb_false_r. rewrite prefix_app. split.
    + intros [suf E]. exists "", suf. exact E.
    + intros [pre [suf E]]. destruct pre; [exists suf; exact E | discriminate E].
  - rewrite orb_true_iff, prefix_app, IH. split.
    + intros [[suf E]|[pre [suf E]]].
      * exists "", suf. exact E.
      * exists (String d pre), suf. simpl. rewrite E. reflexivity.
    + intros [pre [suf E]]. destruct pre as [|x pre].
      * left. exists suf. exact E.
      * right. simpl in E. injection E as _ E. exists pre, suf. exact E.
Qed.

(** Containment of substrings is transitive. *)
Lemma contains_trans (a b s : string) :
  contains a b = true -> contains b s = true -> contains a s = true.
Proof.
  rewrite !contains_iff. intros [p1 [s1 ->]] [p2 [s2 ->]].
  exists (p2 ++ p1), (s1 ++ s2). rewrite !append_assoc. reflexivity.
Qed.

(** X4. The urgency level is "low" exactly when no phrase of the levels
    immediate, critical, high and medium occurs in the lowercased text: the
    phrases listed for "low" never decide.  And it is "critical" only when
    a critical phrase other than "very urgent" occurs: that phrase contains
    "urgent", which already makes the level "immediate". *)
Theorem urgency_decision (text : string) :
  (_detect_urgency text = "low" <->
   any_phrase (phrases_of "immediate") text = false /\
   any_phrase (phrases_of "critical") text = false /\
   any_phrase (phrases_of "high") text = false /\
   any_phrase (phrases_of "medium") text = false) /\
  (_detect_urgency text = "critical" ->
   any_phrase (remove string_dec "very urgent" (phrases_of "critical")) text = true).
Proof.
  change (phrases_of "immediate")
    with ["immediately"; "urgent"; "asap"; "right now"; "can't wait"; "emergency"; "critical"; "desperate"].
  change (phrases_of "critical")
    with ["very urgent"; "need help now"; "can't continue"; "blocking me"; "impossible"; "giving up"].
  change (phrases_of "high")
    with ["soon"; "quickly"; "need help"; "struggling"; "important"; "priority"; "stuck"].
  change (phrases_of "medium")
    with ["when possible"; "would like"; "appreciate"; "should be addressed"; "needs attention"].
  change (remove string_dec "very urgent"
            ["very urgent"; "need help now"; "can't continue"; "blocking me"; "impossible"; "giving up"])
    with ["need help now"; "can't continue"; "blocking me"; "impossible"; "giving up"].
  unfold _detect_urgency, urgency_phrases. cbn [first_matching_level].
  split.
  - destruct (any_phrase _ text); [split; [discriminate | intros [? _]; discriminate]|].
    destruct (any_phrase _ text); [split; [discriminate | intros (_ & ? & _); discriminate]|].
    destruct (any_phrase _ text); [split; [discriminate | intros (_ & _ & ? & _); discriminate]|].
    destruct (any_phrase _ text); [split; [discriminate | intros (_ & _ & _ & ?); discriminate]|].
    split; [auto | intros _; destruct (any_phrase _ text); reflexivity].
  - destruct (any_phrase ["immediately"; _; _; _; _; _; _; _] text) eqn:Ei; [discriminate|].
    destruct (any_phrase ["very urgent"; _; _; _; _; _] text) eqn:Ec.
    + intros _. unfold any_phrase in *. cbn [existsb] in *.
      destruct (contains "very urgent" (lower text)) eqn:Ev; [| exact Ec].
      assert (U : contains "urgent" (lower text) = true).
      { apply (contains_trans "urgent" "very urgent"); [reflexivity | exact Ev]. }
      rewrite U in Ei. rewrite orb_true_r in Ei. discriminate Ei.
    + repeat (destruct (any_phrase _ text); [discriminate|]). discriminate.
Qed.

(** X5. The response time: a frustration level above 0.8 never leaves the
    response at "routine"; the response is "within_hour" exactly for the
    urgency levels "immediate" and "critical", and for "high" with a
    frustration level above 0.8; up to 0.8 the response is the one mapped
    to the urgency level. *)
Theorem response_urgency_escalation (urgency : string) (frustration : Q) :
  (0.8 < frustration -> _determine_response_urgency urgency frustration <> "routine") /\
  (_determine_response_urgency urgency frustration = "within_hour" <->
   urgency = "immediate" \/ urgency = "critical" \/ (urgency = "high" /\ 0.8 < frustration)) /\
  (frustration <= 0.8 ->
   _determine_response_urgency urgency frustration = urgency_mapping urgency).
Proof.
  unfold _determine_response_urgency, urgency_mapping.
  destruct (String.eqb_spec urgency "immediate") as [->|N1];
    [| destruct (String.eqb_spec urgency "critical") as [->|N2];
       [| destruct (String.eqb_spec urgency "high") as [->|N3];
          [| destruct (String.eqb_spec urgency "medium") as [->|N4];
             [| destruct (String.eqb_spec urgency "low") as [->|N5] ] ] ] ];
    destruct (Qlt_le_dec 0.8 frustration) as [Hf|Hf]; simpl;
    (split; [intros ?; try discriminate; try lra
            | split; [split; [intros E; try discriminate E; auto
                             | intros [E|[E|[E ?]]]; try discriminate E; try reflexivity;
                               try contradiction; try lra]
                     | intros ?; try reflexivity; lra]]).
Qed.

(** *** Hidden dissatisfaction *)

(** *** Reading the fields of the returned profile *)

Lemma hidden_projections (text : string) (aspect_scores : option (list (string * Z)))
    (historical_data : option (list HistoryEntry)) :
  let p := analyze_text text aspect_scores historical_data in
  let r := _analyze_hidden_dissatisfaction text
             (_calculate_satisfaction_level text aspect_scores) in
  hidden_dissatisfaction_flag p = fst (fst r) /\
  hidden_dissatisfaction_confidence p = snd (fst r) /\
  hidden_signals p = snd r /\
  politeness_mask_level p = _calculate_politeness_mask text (fst (fst r)) /\
  sentiment_authenticity p = _calculate_sentiment_authenticity text (fst (fst r)).
Proof.
  lazy beta zeta iota delta [analyze_text hidden_dissatisfaction_flag
    hidden_dissatisfaction_confidence hidden_signals politeness_mask_level
    sentiment_authenticity].
  destruct (_analyze_hidden_dissatisfaction text
             (_calculate_satisfaction_level text aspect_scores)) as [[f c] s].
  repeat split; reflexivity.
Qed.

Lemma text_projections (text : string) (aspect_scores : option (list (string * Z)))
    (historical_data : option (list HistoryEntry)) :
  let p := analyze_text text aspect_scores historical_data in
  frustration_level p = _detect_frustration_level text /\
  frustration_type p = _determine_frustration_type text /\
  frustration_intensity p =
    _determine_frustration_intensity (_detect_frustration_level text) /\
  urgency_level p = _detect_urgency text /\
  urgency_signals p = _detect_urgency_signals text /\
  response_urgency p =
    _determine_response_urgency (_detect_urgency text) (_detect_frustration_level text) /\
  emotional_temperature p = _calculate_emotional_temperature text /\
  dropout_risk_emotions p = _detect_dropout_risk_emotions text /\
  positive_recovery_indicators p = _detect_positive_recovery_indicators text /\
  emotional_triggers p = _identify_emotional_triggers text /\
  emotional_complexity p = _determine_emotional_complexity text.
Proof.
  lazy beta zeta iota delta [analyze_text frustration_level frustration_type
    frustration_intensity urgency_level urgency_signals response_urgency
    emotional_temperature dropout_risk_emotions positive_recovery_indicators
    emotional_triggers emotional_complexity].
  destruct (_analyze_hidden_dissatisfaction text
             (_calculate_satisfaction_level text aspect_scores)) as [[f c] s].
  repeat split; reflexivity.
Qed.

(** X6. The flag and the signals go together: the flag is set exactly when
    [hidden_signals] is not empty; without the flag the confidence and the
    politeness mask are 0; the confidence never exceeds 0.95. *)
Theorem hidden_flag_consistency
    (text : string) (aspect_scores : option (list (string * Z)))
    (historical_data : option (list HistoryEntry)) :
  let p := analyze_text text aspect_scores historical_data in
  (hidden_dissatisfaction_flag p = true <-> hidden_signals p <> []) /\
  (hidden_dissatisfaction_flag p = false ->
   hidden_dissatisfaction_confidence p == 0 /\ politeness_mask_level p == 0) /\
  hidden_dissatisfaction_confidence p <= 0.95.
Proof.
  intros p.
  destruct (hidden_projections text aspect_scores historical_data)
    as (Ef & Ec & Es & Em & _).
  fold p in Ef, Ec, Es, Em. rewrite Ef, Ec, Es, Em. clear Ef Ec Es Em p.
  set (satisfaction := _calculate_satisfaction_level text aspect_scores).
  unfold _analyze_hidden_dissatisfaction. cbv zeta.
  set (signals := (_ ++ _)%list). cbn [fst snd].
  assert (B : Qmin (Qnat (List.length signals) * 0.25) 0.75 <= 0.75) by apply Q.le_min_r.
  assert (B0 : 0 <= Qmin (Qnat (List.length signals) * 0.25) 0.75).
  { pose proof (AnalyzerFacts.Qnat_nonneg (List.length signals)).
    destruct (Q.min_spec (Qnat (List.length signals) * 0.25) 0.75) as [[_ E]|[_ E]];
      rewrite E; lra. }
  split; [|split].
  - destruct signals; simpl; split; intros H; try discriminate; try reflexivity; congruence.
  - intros H. rewrite H. rewrite !andb_false_r.
    destruct signals as [|x l]; [| discriminate H].
    split; [vm_compute; reflexivity|].
    unfold _calculate_politeness_mask. simpl. reflexivity.
  - set (base := Qmin (Qnat (List.length signals) * 0.25) 0.75) in *.
    match goal with |- context [base + ?a] => set (adj := a) end.
    assert (A : adj <= 0.2).
    { subst adj. repeat match goal with |- context [if ?b then _ else _] => destruct b end; lra. }
    destruct (Q.min_spec (base + adj) 1.0) as [[H1 E]|[H1 E]];
      destruct (Q.max_spec (Qmin (base + adj) 1.0) 0.0) as [[H2 E']|[H2 E']];
      rewrite E'; try rewrite E; lra.
Qed.

(** X7. The authenticity score stays between 0.35 and 0.9, so its clamp to
    [0,1] never acts; it is at most 0.6 when hidden dissatisfaction is
    flagged and at least 0.65 when it is not. *)
Theorem sentiment_authenticity_bands (text : string) (hidden : bool) :
  0.35 <= _calculate_sentiment_authenticity text hidden /\
  _calculate_sentiment_authenticity text hidden <= 0.9 /\
  (hidden = true -> _calculate_sentiment_authenticity text hidden <= 0.6) /\
  (hidden = false -> 0.65 <= _calculate_sentiment_authenticity text hidden).
Proof.
  unfold _calculate_sentiment_authenticity. cbv zeta.
  destruct hidden; destruct (any_pattern _ text); destruct (any_pattern _ text);
    vm_compute; repeat split; intros; try discriminate; congruence.
Qed.

(** *** Tag lists *)

Lemma add_by_phrases_spec (table : list (string * list string)) (text : string)
    (vocabulary detected : list string) :
  incl (map fst table) vocabulary ->
  NoDup detected -> incl detected vocabulary ->
  NoDup (add_by_phrases table text detected) /\
  incl (add_by_phrases table text detected) vocabulary.
Proof.
  unfold add_by_phrases. revert detected.
  induction table as [|[tag phrases] table IH]; intros detected Ht Hn Hi; simpl.
  - split; assumption.
  - assert (Ht' : incl (map fst table) vocabulary)
      by (intros x Hx; apply Ht; right; exact Hx).
    destruct (any_phrase phrases text && negb (mem tag detected)) eqn:E.
    + apply andb_prop in E as [_ E]. apply negb_true_iff in E.
      apply IH; [exact Ht' | |].
      * apply NoDup_app; [exact Hn | repeat constructor; intros [] | ].
        intros x Hx [E'|[]]. subst x.
        assert (M : mem tag detected = true).
        { unfold mem. apply existsb_exists. exists tag. split; [exact Hx|].
          apply String.eqb_refl. }
        rewrite M in E. discriminate.
      * apply incl_app; [exact Hi|]. intros x [<-|[]]. apply Ht. left. reflexivity.
    + apply IH; assumption.
Qed.

Lemma NoDup_map_fst_filter (A B : Type) (g : A * B -> bool) (l : list (A * B)) :
  NoDup (map fst l) -> NoDup (map fst (filter g l)).
Proof.
  induction l as [|x l IH]; simpl; intros H.
  - constructor.
  - inversion H as [|? ? Hx Hl]; subst. destruct (g x); simpl.
    + constructor; [| apply IH, Hl].
      intros Hin. apply Hx. apply in_map_iff in Hin as [y [E Hy]].
      apply filter_In in Hy as [Hy _]. apply in_map_iff. exists y. auto.
    + apply IH, Hl.
Qed.

Lemma NoDup_map_snd_filter (A B : Type) (g : A * B -> bool) (l : list (A * B)) :
  NoDup (map snd l) -> NoDup (map snd (filter g l)).
Proof.
  induction l as [|x l IH]; simpl; intros H.
  - constructor.
  - inversion H as [|? ? Hx Hl]; subst. destruct (g x); simpl.
    + constructor; [| apply IH, Hl].
      intros Hin. apply Hx. apply in_map_iff in Hin as [y [E Hy]].
      apply filter_In in Hy as [Hy _]. apply in_map_iff. exists y. auto.
    + apply IH, Hl.
Qed.

Ltac nodup_strings :=
  repeat (constructor; [simpl; intuition discriminate|]); constructor.

(** X8. The tag lists [urgency_signals], [dropout_risk_emotions],
    [positive_recovery_indicators] and [emotional_triggers] never hold a
    tag twice, and hold tags of their fixed vocabularies only. *)
Theorem tag_lists_without_duplicates
    (text : string) (aspect_scores : option (list (string * Z)))
    (historical_data : option (list HistoryEntry)) :
  let p := analyze_text text aspect_scores historical_data in
  (NoDup (urgency_signals p) /\ incl (urgency_signals p) urgency_signal_tags) /\
  (NoDup (dropout_risk_emotions p) /\
   incl (dropout_risk_emotions p) dropout_risk_emotions_list) /\
  (NoDup (positive_recovery_indicators p) /\
   incl (positive_recovery_indicators p) positive_recovery_indicators_list) /\
  (NoDup (emotional_triggers p) /\ incl (emotional_triggers p) trigger_tags).
Proof.
  intros p.
  destruct (text_projections text aspect_scores historical_data)
    as (_ & _ & _ & _ & Eu & _ & _ & Ed & Er & Et & _).
  fold p in Eu, Ed, Er, Et. rewrite Eu, Ed, Er, Et. clear Eu Ed Er Et p.
  split; [|split; [|split]].
  - unfold _detect_urgency_signals, tags_of. split.
    + apply NoDup_map_snd_filter. simpl. nodup_strings.
    + intros x Hx. apply in_map_filter in Hx as [r [Hr [_ ->]]].
      apply (in_map snd) in Hr. exact Hr.
  - unfold _detect_dropout_risk_emotions. cbv zeta.
    apply add_by_phrases_spec.
    + intros x Hx. simpl in Hx. unfold dropout_risk_emotions_list. simpl. intuition.
    + apply NoDup_filter. unfold dropout_risk_emotions_list. nodup_strings.
    + intros x Hx. apply filter_In in Hx as [Hx _]. exact Hx.
  - unfold _detect_positive_recovery_indicators. cbv zeta.
    apply add_by_phrases_spec.
    + intros x Hx. simpl in Hx. unfold positive_recovery_indicators_list. simpl. intuition.
    + apply NoDup_filter. unfold positive_recovery_indicators_list. nodup_strings.
    + intros x Hx. apply filter_In in Hx as [Hx _]. exact Hx.
  - unfold _identify_emotional_triggers, trigger_tags. split.
    + apply NoDup_map_fst_filter. unfold trigger_patterns. simpl. nodup_strings.
    + intros x Hx. apply in_map_filter in Hx as [r [Hr [_ ->]]].
      apply in_map. exact Hr.
Qed.


(** *** Letter case *)

Ltac by_lower H :=
  cbv beta zeta delta
    [_detect_frustration_level _detect_engagement_level _detect_confidence_level
     text_satisfaction _calculate_satisfaction_level _determine_frustration_type
     _detect_urgency first_matching_level _detect_urgency_signals tags_of
     _analyze_hidden_dissatisfaction _calculate_politeness_mask
     _detect_dropout_risk_emotions _detect_positive_recovery_indicators
     add_by_phrases _identify_emotional_triggers _calculate_sentiment_authenticity
     _determine_emotional_complexity
     count_words count_phrases any_phrase any_pattern];
  rewrite H; reflexivity.

Lemma first_matching_level_lower (levels : list (string * list string)) (t1 t2 : string) :
  lower t1 = lower t2 -> first_matching_level levels t1 = first_matching_level levels t2.
Proof.
  intros H. induction levels as [|[level phrases] rest IH]; [reflexivity|].
  cbn [first_matching_level]. unfold any_phrase. rewrite H, IH. reflexivity.
Qed.

(** X9. Letter case only matters for the emotional temperature: two texts
    with the same lowercase form get profiles that agree on every other
    field, whatever the aspect scores and the history. *)
Theorem letter_case_only_changes_temperature
    (t1 t2 : string) (aspect_scores : option (list (string * Z)))
    (historical_data : option (list HistoryEntry)) :
  lower t1 = lower t2 ->
  same_but_temperature (analyze_text t1 aspect_scores historical_data)
                       (analyze_text t2 aspect_scores historical_data).
Proof.
  intros H.
  assert (E1 : _detect_frustration_level t1 = _detect_frustration_level t2) by by_lower H.
  assert (E2 : _detect_engagement_level t1 = _detect_engagement_level t2) by by_lower H.
  assert (E3 : _detect_confidence_level t1 = _detect_confidence_level t2) by by_lower H.
  assert (E4 : _calculate_satisfaction_level t1 aspect_scores
               = _calculate_satisfaction_level t2 aspect_scores) by by_lower H.
  assert (E5 : _determine_frustration_type t1 = _determine_frustration_type t2) by by_lower H.
  assert (E6 : _detect_urgency t1 = _detect_urgency t2)
    by (apply first_matching_level_lower, H).
  assert (E7 : _detect_urgency_signals t1 = _detect_urgency_signals t2) by by_lower H.
  assert (E8 : forall s, _analyze_hidden_dissatisfaction t1 s
                         = _analyze_hidden_dissatisfaction t2 s) by (intros s; by_lower H).
  assert (E9 : forall b, _calculate_politeness_mask t1 b = _calculate_politeness_mask t2 b)
    by (intros b; by_lower H).
  assert (E10 : _detect_dropout_risk_emotions t1 = _detect_dropout_risk_emotions t2)
    by by_lower H.
  assert (E11 : _detect_positive_recovery_indicators t1
                = _detect_positive_recovery_indicators t2) by by_lower H.
  assert (E12 : _identify_emotional_triggers t1 = _identify_emotional_triggers t2)
    by by_lower H.
  assert (E13 : forall b, _calculate_sentiment_authenticity t1 b
                          = _calculate_sentiment_authenticity t2 b) by (intros b; by_lower H).
  assert (E14 : _determine_emotional_complexity t1 = _determine_emotional_complexity t2)
    by by_lower H.
  unfold same_but_temperature.
  lazy beta zeta iota delta [analyze_text frustration_level engagement_level
    confidence_level satisfaction_level frustration_type frustration_intensity
    frustration_trend urgency_level urgency_signals response_urgency
    emotional_volatility emotional_trajectory hidden_dissatisfaction_flag
    hidden_dissatisfaction_confidence hidden_signals politeness_mask_level
    dropout_risk_emotions positive_recovery_indicators emotional_triggers
    emotion_coherence sentiment_authenticity emotional_complexity].
  rewrite E1, E2, E3, E4, E5, E6, E7, E8, E10, E11, E12, E14.
  destruct (_analyze_hidden_dissatisfaction t2
              (_calculate_satisfaction_level t2 aspect_scores)) as [[f c] s].
  rewrite E9, E13. repeat split; reflexivity.
Qed.

Lemma letter_case_only_changes_temperature_witness :
  lower "I NEED HELP!" = lower "i need help!" /\
  same_but_temperature (analyze_text "I NEED HELP!" None None)
                       (analyze_text "i need help!" None None).
Proof.
  split; [reflexivity|].
  apply (letter_case_only_changes_temperature "I NEED HELP!" "i need help!" None None).
  reflexivity.
Defined.

(** *** Frustration classification *)

(** X10. The intensity label never goes down when the frustration level
    goes up. *)
Theorem frustration_intensity_monotone (f1 f2 : Q) :
  f1 <= f2 ->
  (intensity_rank (_determine_frustration_intensity f1)
   <= intensity_rank (_determine_frustration_intensity f2))%nat.
Proof.
  intros H. unfold _determine_frustration_intensity.
  destruct (Qlt_le_dec f1 0.3); [cbn; lia|].
  destruct (Qlt_le_dec f2 0.3); [lra|].
  destruct (Qlt_le_dec f1 0.6); [destruct (Qlt_le_dec f2 0.6);
    [|destruct (Qlt_le_dec f2 0.85)]; cbn; lia|].
  destruct (Qlt_le_dec f2 0.6); [lra|].
  destruct (Qlt_le_dec f1 0.85); [destruct (Qlt_le_dec f2 0.85); cbn; lia|].
  destruct (Qlt_le_dec f2 0.85); [lra|]. cbn. lia.
Qed.

Lemma frustration_intensity_monotone_witness :
  0.25 <= 0.7 /\
  (intensity_rank (_determine_frustration_intensity 0.25)
   <= intensity_rank (_determine_frustration_intensity 0.7))%nat.
Proof.
  split; [lra|]. apply (frustration_intensity_monotone 0.25 0.7). lra.
Defined.

Lemma max_by_count_spec (best : string * nat) (l : list (string * nat)) :
  In (max_by_count best l) (best :: l) /\
  forall kv, In kv (best :: l) -> (snd kv <= snd (max_by_count best l))%nat.
Proof.
  revert best. induction l as [|x l IH]; intros best; cbn [max_by_count].
  - split; [left; reflexivity|]. intros kv [<-|[]]. lia.
  - destruct (snd best <? snd x)%nat eqn:E.
    + apply Nat.ltb_lt in E. destruct (IH x) as [I M]. split.
      * right. exact I.
      * intros kv [<-|Hk]; [|apply M, Hk].
        specialize (M x (or_introl eq_refl)). lia.
    + apply Nat.ltb_ge in E. destruct (IH best) as [I M]. split.
      * destruct I as [I|I]; [left; exact I | right; right; exact I].
      * intros kv [<-|[<-|Hk]].
        -- apply M. left. reflexivity.
        -- specialize (M best (or_introl eq_refl)). lia.
        -- apply M. right. exact Hk.
Qed.

Lemma Qnat_le_iff (a b : nat) : Qnat a * 1.5 < Qnat b <-> (3 * a < 2 * b)%nat.
Proof.
  unfold Qnat, Qlt, Qmult. cbn. lia.
Qed.

(** X11. A frustration type other than "mixed" names a category that has
    the most keyword hits of the four, at least one hit, and at least two
    thirds of all hits. *)
Theorem frustration_type_dominant (text : string) :
  let t := _determine_frustration_type text in
  let total := fold_right Nat.add O (map snd (frustration_matches text)) in
  t <> "mixed" ->
  exists n, In (t, n) (frustration_matches text) /\
            (0 < n)%nat /\
            (forall kv, In kv (frustration_matches text) -> (snd kv <= n)%nat) /\
            (2 * total <= 3 * n)%nat.
Proof.
  intros t total. subst t. unfold _determine_frustration_type. cbv zeta.
  fold (frustration_matches text). fold total.
  destruct (total =? 0)%nat; [congruence|].
  destruct (frustration_matches text) as [|first rest] eqn:Em; [congruence|].
  destruct (max_by_count_spec first rest) as [I M].
  destruct (max_by_count first rest) as [name n]. cbn [fst snd] in *.
  destruct (0 <? n)%nat eqn:Pos; cbn [andb].
  - destruct (Qlt_le_dec (Qnat n * 1.5) (Qnat total)) as [L|L]; [congruence|].
    intros _. exists n. apply Nat.ltb_lt in Pos.
    split; [exact I|]. split; [exact Pos|]. split; [exact M|].
    apply Qle_not_lt in L. rewrite Qnat_le_iff in L. lia.
  - congruence.
Qed.

Lemma frustration_type_dominant_witness :
  _determine_frustration_type "The website shows an error after login" <> "mixed" /\
  exists n, In (_determine_frustration_type "The website shows an error after login", n)
               (frustration_matches "The website shows an error after login") /\
            (0 < n)%nat.
Proof.
  assert (H : _determine_frustration_type "The website shows an error after login"
              <> "mixed") by (vm_compute; discriminate).
  split; [exact H|].
  destruct (frustration_type_dominant "The website shows an error after login" H)
    as [n [I [P _]]].
  exists n. split; [exact I | exact P].
Defined.
End AnalyzerExtra.

(* ================================================================== *)
(** ** Further properties of the trajectory predictor                  *)
(* ================================================================== *)

Module TrajectoryExtra.

Import EmotionTrajectoryPredictor TrajectorySpec TrajectoryExtraSpec TrajectoryFacts.
Local Open Scope string_scope.
Local Open Scope R_scope.

(** *** The three horizons *)

Lemma clip01_unit (x : R) : in_unit (clip01 x).
Proof.
  unfold in_unit, clip01, Rmax, Rmin.
  destruct (Rle_dec 1 x); destruct (Rle_dec 0 _); lra.
Qed.

Lemma with_temperature_unit (f e c s : R) :
  in_unit f -> in_unit e -> in_unit c -> in_unit s ->
  prediction_in_unit (with_temperature f e c s).
Proof.
  unfold in_unit, prediction_in_unit, with_temperature. cbn. intros. repeat split; lra.
Qed.

Lemma default_prediction_unit : prediction_in_unit _default_emotion_prediction.
Proof.
  unfold in_unit, prediction_in_unit, _default_emotion_prediction. cbn. repeat split; lra.
Qed.

Lemma predict_polynomial_unit polyfit1 polyfit2 (ws : list Z) (values : list R) (target : Z) :
  in_unit (_predict_polynomial polyfit1 polyfit2 ws values target).
Proof. unfold _predict_polynomial. apply clip01_unit. Qed.

Lemma predict_next_value_unit polyfit1 (ws : list Z) (values : list R) :
  (List.length ws <? 2)%nat = false ->
  in_unit (_predict_next_value polyfit1 ws values).
Proof. intros H. unfold _predict_next_value. rewrite H. apply clip01_unit. Qed.

(** X13. Whatever the fitted coefficients are, each of the three horizons
    (next week, two weeks, end of course) predicts the four levels and the
    emotional temperature inside [0,1]. *)
Theorem horizon_predictions_in_unit
    (polyfit1 : list R -> list R -> R * R) (polyfit2 : list R -> list R -> R * R * R)
    (now : Z) (history : StudentEmotionHistory) :
  let p := emotion_predictions (predict_emotion_evolution polyfit1 polyfit2 now history) in
  prediction_in_unit (next_week p) /\
  prediction_in_unit (two_week p) /\
  prediction_in_unit (course_completion p).
Proof.
  cbn [predict_emotion_evolution emotion_predictions next_week two_week course_completion].
  split; [|split].
  - unfold predict_next_week_emotions.
    destruct (List.length (weeks history) <? 2)%nat eqn:E;
      [apply default_prediction_unit|].
    apply with_temperature_unit; apply predict_next_value_unit, E.
  - unfold predict_two_week_emotions.
    destruct (List.length (weeks history) <? 3)%nat;
      [apply default_prediction_unit|].
    apply with_temperature_unit; apply predict_polynomial_unit.
  - unfold predict_end_course_emotions.
    destruct (List.length (weeks history) <? 3)%nat;
      [apply default_prediction_unit|].
    cbv zeta. destruct (10 <=? max_week (weeks history))%Z;
      apply with_temperature_unit; apply predict_polynomial_unit.
Qed.

(** *** Hidden dissatisfaction *)

Lemma Rmin_bounds (cap x : R) : 0 <= cap -> 0 <= x -> 0 <= Rmin cap x <= cap.
Proof. intros. unfold Rmin. destruct (Rle_dec cap x); lra. Qed.

Lemma IZR_of_nat_le (k n : nat) : (k <= n)%nat -> IZR (Z.of_nat k) <= IZR (Z.of_nat n).
Proof. intros H. apply IZR_le. lia. Qed.

Ltac hd_finish :=
  repeat split; try lra; try lia; try (cbn; tauto); try discriminate;
  intros;
  repeat match goal with
         | E : Some ?a = Some ?d |- _ =>
             assert (d = a) by congruence; clear E; subst d
         | H : _ /\ _ |- _ => destruct H
         end;
  lia.

(** X14. The hidden dissatisfaction forecast: the risk is one of five
    labels; the explosion probability lies between 0 and 0.9; a day
    estimate is given exactly when the latest week is flagged (and there
    are at least three weeks), and lies between 1 and 26; for the risk
    "high" the probability is at least 0.8 and the estimate at most 8
    days. *)
Theorem hidden_dissatisfaction_forecast_bounds (history : StudentEmotionHistory) :
  let r := predict_hidden_dissatisfaction history in
  In (hd_risk r) hidden_risks /\
  0 <= hd_explosion_probability r <= 0.9 /\
  (hd_days_to_explosion r <> None <->
   (3 <= List.length (weeks history))%nat /\ (1 <= consecutive_hidden_weeks history)%nat) /\
  (forall d, hd_days_to_explosion r = Some d -> (1 <= d <= 26)%Z) /\
  (hd_risk r = "high" ->
   0.8 <= hd_explosion_probability r /\
   forall d, hd_days_to_explosion r = Some d -> (d <= 8)%Z).
Proof.
  unfold predict_hidden_dissatisfaction, consecutive_hidden_weeks, hidden_risks. cbv zeta.
  destruct (Nat.ltb_spec (List.length (weeks history)) 3) as [L|L].
  { cbn. repeat split; try lra; try tauto; try discriminate; try lia. }
  set (k := leading_true (rev (hidden_dissatisfaction_flags history))).
  set (fi := ((3 <=? List.length (frustration_levels history))%nat && _)%bool).
  set (ss := ((3 <=? List.length (satisfaction_levels history))%nat && _)%bool).
  pose proof (IZR_of_nat_le 0 k (Nat.le_0_l k)) as K0. cbn in K0.
  destruct (Nat.leb_spec 3 k) as [K3|K3]; cbn [andb].
  - pose proof (IZR_of_nat_le 3 k K3) as K. cbn in K.
    destruct fi; cbn [andb].
    + destruct ss; cbn [andb].
      * cbn [hd_risk hd_explosion_probability hd_days_to_explosion].
        pose proof (Rmin_bounds 0.9 (0.5 + IZR (Z.of_nat k) * 0.1)).
        assert (0.8 <= Rmin 0.9 (0.5 + IZR (Z.of_nat k) * 0.1))
          by (unfold Rmin; destruct (Rle_dec _ _); lra).
        hd_finish.
      * destruct (Nat.leb_spec 2 k); [|lia]. cbn [andb].
        cbn [hd_risk hd_explosion_probability hd_days_to_explosion].
        pose proof (Rmin_bounds 0.7 (0.3 + IZR (Z.of_nat k) * 0.1)).
        hd_finish.
    + destruct (Nat.leb_spec 2 k); [|lia]. cbn [andb].
      destruct (Nat.leb_spec 1 k); [|lia].
      cbn [hd_risk hd_explosion_probability hd_days_to_explosion].
      pose proof (Rmin_bounds 0.4 (0.1 + IZR (Z.of_nat k) * 0.1)).
      hd_finish.
  - destruct (Nat.leb_spec 2 k) as [K2|K2]; cbn [andb].
    + destruct (Nat.leb_spec 1 k); [|lia].
      destruct fi;
        cbn [hd_risk hd_explosion_probability hd_days_to_explosion].
      * pose proof (Rmin_bounds 0.7 (0.3 + IZR (Z.of_nat k) * 0.1)).
        hd_finish.
      * pose proof (Rmin_bounds 0.4 (0.1 + IZR (Z.of_nat k) * 0.1)).
        hd_finish.
    + destruct (Nat.leb_spec 1 k) as [K1|K1];
        cbn [hd_risk hd_explosion_probability hd_days_to_explosion].
      * pose proof (Rmin_bounds 0.4 (0.1 + IZR (Z.of_nat k) * 0.1)).
        hd_finish.
      * hd_finish.
Qed.

(** *** Confidence scores *)

Lemma Rsum_nonneg (l : list R) : Forall (fun x => 0 <= x) l -> 0 <= Rsum l.
Proof.
  induction 1 as [|x l Hx _ IH]; cbn; [lra|]. unfold Rsum in IH. lra.
Qed.

Lemma var_nonneg (l : list R) : l <> [] -> 0 <= var l.
Proof.
  intros Hl. unfold var, mean, len. rewrite length_map.
  apply Rmult_le_pos.
  - apply Rsum_nonneg. apply Forall_forall. intros y Hy.
    apply in_map_iff in Hy as [x [<- _]]. apply pow2_ge_0.
  - left. apply Rinv_0_lt_compat. apply lt_0_INR.
    destruct l; [congruence | cbn; lia].
Qed.

Lemma data_quality_unit (n : nat) : in_unit (Rmin 1 (INR n / 10)).
Proof.
  pose proof (pos_INR n). unfold in_unit, Rmin. destruct (Rle_dec 1 (INR n / 10)); lra.
Qed.

(** X15. For a history with one entry per week in every list, the overall
    confidence lies between 0.21 and 0.97, and each of the seven other
    scores lies between 0 and its cap (0.95, 0.9, 0.8, 0.9, 0.85, 0.8,
    0.85). *)
Theorem prediction_confidence_bounds (history : StudentEmotionHistory) :
  well_formed history ->
  let c := calculate_prediction_confidence history in
  0.21 <= cs_overall c <= 0.97 /\
  0 <= cs_next_week c <= 0.95 /\
  0 <= cs_two_week c <= 0.9 /\
  0 <= cs_course_completion c <= 0.8 /\
  0 <= cs_frustration_threshold c <= 0.9 /\
  0 <= cs_engagement_dropout c <= 0.85 /\
  0 <= cs_dissatisfaction_explosion c <= 0.8 /\
  0 <= cs_intervention_windows c <= 0.85.
Proof.
  intros (Hf & He & _).
  unfold calculate_prediction_confidence. cbv zeta.
  cbn [cs_overall cs_next_week cs_two_week cs_course_completion cs_frustration_threshold
       cs_engagement_dropout cs_dissatisfaction_explosion cs_intervention_windows].
  set (n := List.length (weeks history)) in *.
  pose proof (data_quality_unit n) as [Q0 Q1].
  set (quality := Rmin 1 (INR n / 10)) in *.
  set (variances := ((if (1 <? n)%nat then var (frustration_levels history) else 1)
                     + (if (1 <? n)%nat then var (engagement_levels history) else 1)) / 2).
  assert (V : 0 <= variances).
  { subst variances. destruct (Nat.ltb_spec 1 n) as [L|L]; [|lra].
    assert (0 <= var (frustration_levels history))
      by (apply var_nonneg; destruct (frustration_levels history); [cbn in Hf; lia | congruence]).
    assert (0 <= var (engagement_levels history))
      by (apply var_nonneg; destruct (engagement_levels history); [cbn in He; lia | congruence]).
    lra. }
  assert (C : 0 <= 1 - Rmin 1 variances <= 1)
    by (unfold Rmin; destruct (Rle_dec 1 variances); lra).
  set (consistency := 1 - Rmin 1 variances) in *.
  set (recency := if (_ && _)%bool then 0.9 else 0.7).
  assert (Rc : 0.7 <= recency <= 0.9) by (subst recency; destruct (_ && _)%bool; lra).
  set (base := quality * 0.4 + consistency * 0.3 + recency * 0.3).
  assert (B : 0.21 <= base <= 0.97) by (subst base; lra).
  unfold Rmin.
  repeat match goal with |- context [Rle_dec ?a ?b] => destruct (Rle_dec a b) end;
    repeat split; lra.
Qed.

Lemma prediction_confidence_bounds_witness :
  well_formed slow_history /\
  0.21 <= cs_overall (calculate_prediction_confidence slow_history) <= 0.97.
Proof.
  assert (W : well_formed slow_history) by (cbv; repeat split; reflexivity).
  split; [exact W|].
  exact (proj1 (prediction_confidence_bounds slow_history W)).
Defined.

(** X16. The confidence scores read the weeks only to count them: the
    check for recent data compares the latest week with itself, so two
    histories with as many weeks and the same frustration and engagement
    levels get the same scores, however old or far apart the weeks are. *)
Theorem prediction_confidence_ignores_week_numbers (h1 h2 : StudentEmotionHistory) :
  List.length (weeks h1) = List.length (weeks h2) ->
  frustration_levels h1 = frustration_levels h2 ->
  engagement_levels h1 = engagement_levels h2 ->
  calculate_prediction_confidence h1 = calculate_prediction_confidence h2.
Proof.
  intros Hn Hf He. unfold calculate_prediction_confidence. cbv zeta.
  rewrite Hn, Hf, He.
  assert (R : forall ws, (max_week ws - 2 <=? max_week ws)%Z = true)
    by (intros ws; apply Z.leb_le; lia).
  rewrite !R. reflexivity.
Qed.

Lemma prediction_confidence_ignores_week_numbers_witness :
  calculate_prediction_confidence slow_history = calculate_prediction_confidence gapped_history.
Proof.
  apply (prediction_confidence_ignores_week_numbers slow_history gapped_history);
    reflexivity.
Defined.

(** *** Intervention windows *)

Lemma may_precede_rank (x y : Intervention) :
  may_precede x y ->
  (_urgency_to_numeric (i_urgency x) <= _urgency_to_numeric (i_urgency y))%Z.
Proof.
  unfold may_precede, sort_key, key_lt.
  destruct (Z.ltb_spec (_urgency_to_numeric (i_urgency y)) (_urgency_to_numeric (i_urgency x)));
    cbn [orb]; [discriminate | lia].
Qed.

Lemma sorted_head_rank (x : Intervention) (l : list Intervention) :
  Sorted.LocallySorted may_precede (x :: l) ->
  forall y, In y l ->
  (_urgency_to_numeric (i_urgency x) <= _urgency_to_numeric (i_urgency y))%Z.
Proof.
  revert x. induction l as [|z l IH]; intros x H y Hy; [destruct Hy|].
  inversion H as [| |? ? ? Hl Hxz]; subst.
  pose proof (may_precede_rank x z Hxz).
  destruct Hy as [<-|Hy]; [assumption|].
  specialize (IH z Hl y Hy). lia.
Qed.

Lemma urgent_interventions_types (risks : RiskEscalations) :
  NoDup (map i_type (urgent_interventions risks)) /\
  (List.length (urgent_interventions risks) <= 3)%nat.
Proof.
  unfold urgent_interventions. cbv zeta.
  destruct (fth_days_to_threshold _) as [d1|]; [destruct (d1 <=? 7)%Z|];
    destruct (edo_days_to_intervention _) as [d2|];
    destruct (de_days_to_explosion _) as [d3|]; cbn;
    (split; [|lia]);
    repeat (constructor; [cbn; intuition discriminate|]); constructor.
Qed.

(** X17. The windows: there are at most three candidates, of three
    different types; a secondary window is given exactly when there are at
    least two candidates; its urgency rank is never below the primary
    window's, and its type differs from the primary window's. *)
Theorem intervention_windows_ranked
    (now : Z) (predictions : EmotionPredictions) (risks : RiskEscalations) :
  let w := find_intervention_windows now predictions risks in
  let candidates := urgent_interventions risks in
  (List.length candidates <= 3)%nat /\
  (secondary w <> None <-> (2 <= List.length candidates)%nat) /\
  (forall second, secondary w = Some second ->
     (window_rank (primary w) <= window_rank second)%Z /\
     w_type (primary w) <> w_type second).
Proof.
  cbv zeta. unfold find_intervention_windows.
  destruct (urgent_interventions_types risks) as [Hn Hl].
  pose proof (sort_interventions_perm (urgent_interventions risks)) as P.
  pose proof (sort_interventions_sorted (urgent_interventions risks)) as S.
  split; [exact Hl|].
  rewrite (Permutation.Permutation_length P).
  assert (Hn' : NoDup (map i_type (sort_interventions (urgent_interventions risks))))
    by (eapply Permutation.Permutation_NoDup; [apply Permutation.Permutation_map, P | exact Hn]).
  destruct (sort_interventions (urgent_interventions risks)) as [|x [|y l]];
    cbn [primary secondary List.length].
  - split; [split; [congruence | lia]|]. discriminate.
  - split; [split; [congruence | lia]|]. discriminate.
  - split; [split; [lia | discriminate]|].
    intros second E. assert (second = window_of now y) by congruence. subst second.
    unfold window_rank, window_of, window. cbn [w_timing w_type]. split.
    + apply (sorted_head_rank x (y :: l) S). left. reflexivity.
    + inversion Hn' as [|? ? Hx _]; subst. intros E'. apply Hx. left. symmetry. exact E'.
Qed.

(** X18. When the frustration curve reports a threshold within 7 days,
    the primary window is never the engagement intervention: the
    frustration candidate has urgency "immediate" or "within_24_hours",
    the engagement candidate "within_week" or "routine". *)
Theorem frustration_candidate_before_engagement
    (now : Z) (predictions : EmotionPredictions)
    (frustration_trajectory : FrustrationTrajectory) (engagement_decay : EngagementDecay)
    (hidden_dissatisfaction : HiddenDissatisfaction) (days : Z) :
  ft_trend frustration_trajectory <> "insufficient_data" ->
  ft_days_to_threshold frustration_trajectory = Some days ->
  (days <= 7)%Z ->
  let risks :=
    {| frustration_boiling_point := predict_frustration_threshold frustration_trajectory;
       engagement_dropout_risk := predict_engagement_dropout engagement_decay;
       hidden_to_open_dissatisfaction :=
         predict_dissatisfaction_explosion hidden_dissatisfaction |} in
  let w := find_intervention_windows now predictions risks in
  w_type (primary w) <> "engagement_intervention" /\
  (window_rank (primary w) <= 1)%Z.
Proof.
  intros Ht Hd H7 risks w.
  set (F := {| i_type := "frustration_intervention"; i_days := days;
               i_urgency := fth_intervention_urgency
                              (predict_frustration_threshold frustration_trajectory);
               i_confidence := fth_confidence
                              (predict_frustration_threshold frustration_trajectory) |}).
  assert (RF : (_urgency_to_numeric (i_urgency F) <= 1)%Z).
  { subst F. cbn [i_urgency]. unfold predict_frustration_threshold. cbv zeta.
    cbn [fth_intervention_urgency]. rewrite Hd.
    apply String.eqb_neq in Ht. rewrite Ht. unfold within.
    destruct (Z.leb_spec days 3); [cbn; lia|].
    destruct (Z.leb_spec days 7); [cbn; lia | lia]. }
  assert (IF : In F (urgent_interventions risks)).
  { unfold urgent_interventions. cbv zeta. subst risks.
    cbn [frustration_boiling_point]. unfold predict_frustration_threshold at 1. cbv zeta.
    cbn [fth_days_to_threshold]. rewrite Hd.
    destruct (Z.leb_spec days 7); [|lia]. left. reflexivity. }
  assert (RE : forall x, In x (urgent_interventions risks) ->
                 i_type x = "engagement_intervention" ->
                 (2 <= _urgency_to_numeric (i_urgency x))%Z).
  { intros x Hx Tx. unfold urgent_interventions in Hx. cbv zeta in Hx.
    apply in_app_or in Hx as [Hx|Hx]; [| apply in_app_or in Hx as [Hx|Hx]].
    - destruct (fth_days_to_threshold _) as [d|]; [destruct (d <=? 7)%Z|];
        cbn in Hx; try tauto. destruct Hx as [<-|[]]. discriminate Tx.
    - destruct (edo_days_to_intervention _) as [d|]; cbn in Hx; [|tauto].
      destruct Hx as [<-|[]]. cbn [i_urgency]. destruct (d <=? 7)%Z; cbn; lia.
    - destruct (de_days_to_explosion _) as [d|]; cbn in Hx; [|tauto].
      destruct Hx as [<-|[]]. discriminate Tx. }
  pose proof (sort_interventions_perm (urgent_interventions risks)) as P.
  pose proof (sort_interventions_sorted (urgent_interventions risks)) as S.
  assert (IF' := Permutation.Permutation_in _ P IF).
  subst w. unfold find_intervention_windows.
  destruct (sort_interventions (urgent_interventions risks)) as [|x l] eqn:Es;
    [destruct IF'|].
  cbn [primary]. unfold window_rank, window_of, window. cbn [w_type w_timing].
  assert (RX : (_urgency_to_numeric (i_urgency x) <= 1)%Z).
  { destruct IF' as [->|Hl]; [exact RF|].
    pose proof (sorted_head_rank x l S F Hl). lia. }
  split; [|exact RX].
  intros Tx.
  assert (Ix : In x (urgent_interventions risks)).
  { apply Permutation.Permutation_in with (l := x :: l);
      [apply Permutation.Permutation_sym, P | left; reflexivity]. }
  pose proof (RE x Ix Tx). lia.
Qed.

Lemma frustration_candidate_before_engagement_witness :
  w_type (primary (find_intervention_windows 0 any_predictions
            {| frustration_boiling_point := predict_frustration_threshold rising_frustration;
               engagement_dropout_risk := predict_engagement_dropout fading_engagement;
               hidden_to_open_dissatisfaction :=
                 predict_dissatisfaction_explosion no_hidden_dissatisfaction |}))
  <> "engagement_intervention".
Proof.
  refine (proj1 (frustration_candidate_before_engagement 0 any_predictions
            rising_frustration fading_engagement no_hidden_dissatisfaction 5 _ _ _)).
  - cbn. discriminate.
  - reflexivity.
  - lia.
Defined.

(** *** Reading the history *)

(** X19. The history read from the student journeys has one entry per
    journey in every list; it holds no float equal to 0 and no empty
    string, because a stored 0.0 (and an absent value) is replaced by the
    default: a journey whose stored frustration level is 0.0 is read as
    frustration 0.5. *)
Theorem loaded_history_entries
    (student_id course_id : string) (student_journeys : list StudentJourney) :
  let h := get_student_emotion_history student_id course_id student_journeys in
  well_formed h /\
  List.length (weeks h) = List.length student_journeys /\
  Forall (fun v => v <> 0) (float_entries h) /\
  Forall (fun s => s <> "") (emotional_trajectories h ++ urgency_levels h)%list /\
  (forall i journey,
     nth_error student_journeys i = Some journey ->
     j_frustration_level journey = Some 0 ->
     nth_error (frustration_levels h) i = Some 0.5).
Proof.
  cbv zeta. unfold well_formed, float_entries, get_student_emotion_history.
  cbn [weeks frustration_levels engagement_levels confidence_levels satisfaction_levels
       emotional_trajectories hidden_dissatisfaction_flags urgency_levels
       emotional_temperatures emotional_volatilities].
  rewrite !length_map.
  assert (F : forall (get : StudentJourney -> option R),
             Forall (fun v => v <> 0)
                    (map (fun journey => or_float (get journey) 0.5) student_journeys)).
  { intros get. apply Forall_forall. intros v Hv.
    apply in_map_iff in Hv as [j [<- _]]. unfold or_float.
    destruct (get j) as [x|]; [destruct (Req_EM_T x 0)|]; lra. }
  assert (G : forall (get : StudentJourney -> option string) (default : string),
             default <> "" ->
             Forall (fun s => s <> "")
                    (map (fun journey => or_string (get journey) default) student_journeys)).
  { intros get default Hd. apply Forall_forall. intros v Hv.
    apply in_map_iff in Hv as [j [<- _]]. unfold or_string.
    destruct (get j) as [[|c s]|]; [exact Hd | discriminate | exact Hd]. }
  repeat split; try reflexivity.
  - repeat (apply Forall_app; split); apply F.
  - apply Forall_app; split; apply G; discriminate.
  - intros i journey Hi H0.
    rewrite nth_error_map, Hi. cbn. unfold or_float. rewrite H0.
    destruct (Req_EM_T 0 0); [reflexivity | contradiction].
Qed.

(** *** The curves and the dates of the windows *)

Lemma r_squared_unit (x y : list R) (poly : R -> R) : in_unit (_calculate_r_squared x y poly).
Proof.
  unfold _calculate_r_squared. cbv zeta.
  destruct (Req_EM_T _ 0); [unfold in_unit; lra | apply clip01_unit].
Qed.

Lemma curve_confidence_unit (r : R) (n : nat) :
  in_unit r -> in_unit (r * 0.7 + Rmin 1 (INR n / 10) * 0.3).
Proof.
  intros [R0 R1]. destruct (data_quality_unit n) as [Q0 Q1]. unfold in_unit. lra.
Qed.

Lemma forecast_unit (coeffs : R * R * R) (ws : list Z) : Forall in_unit (forecast coeffs ws).
Proof.
  unfold forecast. apply Forall_forall. intros v Hv.
  apply in_map_iff in Hv as [w [<- _]]. apply clip01_unit.
Qed.

Lemma combine_fst_snd (A B : Type) (l : list A) (l' : list B) :
  List.length l = List.length l' ->
  map fst (combine l l') = l /\ map snd (combine l l') = l'.
Proof.
  revert l'. induction l as [|x l IH]; intros [|y l'] H; cbn in *; try discriminate.
  - split; reflexivity.
  - destruct (IH l') as [E1 E2]; [lia|]. rewrite E1, E2. split; reflexivity.
Qed.

(** X20. With at least three weeks of history, whatever the fitted
    coefficients are: both curves forecast the three weeks after the
    latest one, every forecast and both confidences lie in [0,1], and an
    engagement curve whose dropout risk is "low" gives no disengagement
    estimate. *)
Theorem curve_forecasts
    (polyfit2 : list R -> list R -> R * R * R) (history : StudentEmotionHistory) :
  (3 <= List.length (weeks history))%nat ->
  let f := model_frustration_curve polyfit2 history in
  let e := predict_engagement_decline polyfit2 history in
  (exists p, ft_prediction f = Some p /\
             map fst p = next_three_weeks (weeks history) /\
             Forall in_unit (map snd p)) /\
  (exists p, ed_prediction e = Some p /\
             map fst p = next_three_weeks (weeks history) /\
             Forall in_unit (map snd p)) /\
  in_unit (ft_confidence f) /\
  in_unit (ed_confidence e) /\
  (ed_dropout_risk e = "low" -> ed_weeks_to_disengagement e = None).
Proof.
  intros H. apply Nat.ltb_ge in H. cbv zeta.
  unfold model_frustration_curve, predict_engagement_decline. cbv zeta. rewrite H.
  destruct (polyfit2 (weeks_array (weeks history)) (frustration_levels history))
    as [[fa fb] fc] eqn:Ef.
  destruct (polyfit2 (weeks_array (weeks history)) (engagement_levels history))
    as [[ea eb] ec] eqn:Ee.
  cbn [ft_prediction ft_confidence ed_prediction ed_confidence ed_dropout_risk
       ed_weeks_to_disengagement].
  fold (forecast (fa, fb, fc) (weeks history)).
  fold (forecast (ea, eb, ec) (weeks history)).
  assert (L : forall c, List.length (next_three_weeks (weeks history))
                        = List.length (forecast c (weeks history)))
    by (intros c; unfold forecast; rewrite length_map; reflexivity).
  unfold weeks_array, len. rewrite length_map.
  split; [|split; [|split; [|split]]].
  - destruct (combine_fst_snd _ _ _ _ (L (fa, fb, fc))) as [E1 E2].
    eexists. split; [reflexivity|]. rewrite E1, E2.
    split; [reflexivity | apply forecast_unit].
  - destruct (combine_fst_snd _ _ _ _ (L (ea, eb, ec))) as [E1 E2].
    eexists. split; [reflexivity|]. rewrite E1, E2.
    split; [reflexivity | apply forecast_unit].
  - apply curve_confidence_unit, r_squared_unit.
  - apply curve_confidence_unit, r_squared_unit.
  - destruct (Rlt_dec (min_list (forecast (ea, eb, ec) (weeks history))) 0.3);
      [discriminate|].
    destruct (Rlt_dec (min_list (forecast (ea, eb, ec) (weeks history))) 0.5);
      [discriminate|].
    intros _. destruct (Rle_dec _ 0.3); [lra | reflexivity].
Qed.

Lemma curve_forecasts_witness :
  (3 <= List.length (weeks slow_history))%nat /\
  in_unit (ft_confidence (model_frustration_curve slow_fit slow_history)) /\
  in_unit (ed_confidence (predict_engagement_decline slow_fit slow_history)).
Proof.
  assert (H : (3 <= List.length (weeks slow_history))%nat) by (cbn; lia).
  split; [exact H|].
  destruct (curve_forecasts slow_fit slow_history H) as (_ & _ & F & E & _).
  split; [exact F | exact E].
Defined.

Lemma py_int_nonneg (x : R) : 0 <= x -> (0 <= py_int x)%Z.
Proof.
  intros H. unfold py_int. destruct (Rle_dec 0 x); [|contradiction].
  unfold Int_part. destruct (archimed x) as [U _].
  assert (0 < IZR (up x)) by lra. apply lt_IZR in H0. lia.
Qed.

Lemma weeks_to_crossing_positive (coeffs : R * R * R) (threshold current_week w : R) :
  weeks_to_crossing coeffs threshold current_week = Some w -> 0 < w.
Proof.
  unfold weeks_to_crossing. destruct coeffs as [[a b] c]. cbv zeta.
  destruct (Rle_dec 0 _); [|discriminate].
  set (x1 := (- b + _) / _). set (x2 := (- b - _) / _).
  cbn [filter].
  destruct (Rltb current_week x1) eqn:E1; destruct (Rltb current_week x2) eqn:E2;
    try apply Rltb_true in E1; try apply Rltb_true in E2;
    cbn [min_list fold_left]; intros E; try discriminate;
    assert (E' : forall u v : R, Some u = Some v -> u = v) by (intros; congruence);
    apply E' in E; subst w.
  - unfold Rmin. destruct (Rle_dec x1 x2); lra.
  - lra.
  - lra.
Qed.

Lemma frustration_days_nonneg
    (polyfit2 : list R -> list R -> R * R * R) (history : StudentEmotionHistory) (d : Z) :
  ft_days_to_threshold (model_frustration_curve polyfit2 history) = Some d -> (0 <= d)%Z.
Proof.
  unfold model_frustration_curve. cbv zeta.
  destruct (List.length (weeks history) <? 3)%nat; [discriminate|].
  destruct (polyfit2 _ _) as [[a b] c]. cbn [ft_days_to_threshold].
  destruct (Rle_dec _ _); [|discriminate].
  destruct (weeks_to_crossing _ _ _) as [w|] eqn:E; [|discriminate].
  apply weeks_to_crossing_positive in E.
  intros E'. assert (d = py_int (w * 7)) by congruence. subst d.
  apply py_int_nonneg. lra.
Qed.

Lemma hidden_days_positive (history : StudentEmotionHistory) (d : Z) :
  hd_days_to_explosion (predict_hidden_dissatisfaction history) = Some d -> (1 <= d)%Z.
Proof.
  unfold predict_hidden_dissatisfaction. cbv zeta.
  destruct (List.length (weeks history) <? 3)%nat; [discriminate|].
  destruct (_ && _ && _)%bool;
    [| destruct (_ && _)%bool; [| destruct (1 <=? _)%nat]];
    cbn [hd_days_to_explosion]; intros E; try discriminate;
    match type of E with Some ?a = Some _ => assert (d = a) by congruence end;
    subst d; lia.
Qed.

Lemma windows_after_now (now : Z) (predictions : EmotionPredictions) (risks : RiskEscalations) :
  Forall (fun x => (0 <= i_days x)%Z) (urgent_interventions risks) ->
  let w := find_intervention_windows now predictions risks in
  (now <= w_target_date (primary w))%Z /\
  (forall second, secondary w = Some second -> (now <= w_target_date second)%Z).
Proof.
  intros F. cbv zeta. unfold find_intervention_windows.
  pose proof (sort_interventions_perm (urgent_interventions risks)) as P.
  assert (F' := Permutation.Permutation_Forall P F).
  destruct (sort_interventions (urgent_interventions risks)) as [|x [|y l]];
    cbn [primary secondary].
  - split; [cbn; lia | discriminate].
  - inversion F' as [|? ? Hx _]; subst. split; [cbn; lia | discriminate].
  - inversion F' as [|? ? Hx F'']; subst. inversion F'' as [|? ? Hy _]; subst.
    split; [cbn; lia|].
    intros second E. assert (second = window_of now y) by congruence. subst second.
    cbn. lia.
Qed.

(** X21. No intervention window lies in the past: the target dates of the
    primary and of the secondary window are never before the day of the
    prediction.  (The leading coefficients of the two fitted curves are
    taken to be non-zero; the source divides by them.) *)
Theorem intervention_windows_not_in_past
    (polyfit1 : list R -> list R -> R * R) (polyfit2 : list R -> list R -> R * R * R)
    (now : Z) (history : StudentEmotionHistory) :
  leading (polyfit2 (weeks_array (weeks history)) (frustration_levels history)) <> 0 ->
  leading (polyfit2 (weeks_array (weeks history)) (engagement_levels history)) <> 0 ->
  let w := optimal_intervention_windows
             (predict_emotion_evolution polyfit1 polyfit2 now history) in
  (now <= w_target_date (primary w))%Z /\
  (forall second, secondary w = Some second -> (now <= w_target_date second)%Z).
Proof.
  intros _ _.
  cbn [predict_emotion_evolution optimal_intervention_windows].
  apply windows_after_now.
  unfold urgent_interventions. cbv zeta.
  cbn [frustration_boiling_point engagement_dropout_risk hidden_to_open_dissatisfaction].
  apply Forall_app; split; [|apply Forall_app; split].
  - unfold predict_frustration_threshold. cbv zeta. cbn [fth_days_to_threshold].
    destruct (ft_days_to_threshold _) as [d|] eqn:E; [|constructor].
    destruct (d <=? 7)%Z; constructor; [|constructor].
    cbn [i_days]. apply (frustration_days_nonneg polyfit2 history d E).
  - unfold predict_engagement_dropout. cbv zeta. cbn [edo_days_to_intervention].
    destruct (ed_weeks_to_disengagement _) as [wk|]; constructor; [|constructor].
    cbn [i_days]. lia.
  - unfold predict_dissatisfaction_explosion. cbv zeta. cbn [de_days_to_explosion].
    destruct (hd_days_to_explosion _) as [d|] eqn:E; constructor; [|constructor].
    cbn [i_days]. pose proof (hidden_days_positive history d E). lia.
Qed.

Lemma intervention_windows_not_in_past_witness :
  (100 <= w_target_date (primary (optimal_intervention_windows
             (predict_emotion_evolution flat_fit slow_fit 100 slow_history))))%Z.
Proof.
  refine (proj1 (intervention_windows_not_in_past flat_fit slow_fit 100 slow_history _ _));
    cbn; lra.
Defined.

End TrajectoryExtra.

(* ================================================================== *)
(** ** Properties of the pattern clusters and outcomes                 *)
(* ================================================================== *)

Module PatternExtra.

Import PyStr HistoricalPatternService PatternExtraSpec.
Local Open Scope string_scope.
Local Open Scope Q_scope.

(** *** Signatures *)

Lemma close_sym (v1 v2 : Q) : Qle_bool (Qabs (v1 - v2)) 0.2 = Qle_bool (Qabs (v2 - v1)) 0.2.
Proof. rewrite (Qabs_Qminus v1 v2). reflexivity. Qed.

Lemma component_match_sym (float : string -> option Q) (c1 c2 : string) :
  component_match float c1 c2 = component_match float c2 c1.
Proof.
  destruct c1 as [|t1 v1], c2 as [|t2 v2]; cbn [component_match]; try reflexivity.
  rewrite (Ascii.eqb_sym t2 t1).
  destruct (Ascii.eqb t1 t2) eqn:E; cbn [negb]; [|reflexivity].
  apply Ascii.eqb_eq in E. subst t2.
  destruct (contains _ _).
  - destruct (float v1), (float v2); try reflexivity. rewrite close_sym. reflexivity.
  - rewrite String.eqb_sym. reflexivity.
Qed.

Lemma count_matches_sym (float : string -> option Q) (l1 l2 : list string) :
  count_matches float (combine l1 l2) = count_matches float (combine l2 l1).
Proof.
  revert l2. induction l1 as [|c1 l1 IH]; intros [|c2 l2]; cbn [combine count_matches];
    try reflexivity.
  rewrite component_match_sym, IH. reflexivity.
Qed.

(** X22. Whether two signatures are similar does not depend on their
    order, errors included: [_are_signatures_similar] gives the same
    answer, or fails alike, on (sig1, sig2) and on (sig2, sig1). *)
Theorem signature_similarity_symmetric (float : string -> option Q) (sig1 sig2 : string) :
  _are_signatures_similar float sig1 sig2 = _are_signatures_similar float sig2 sig1.
Proof.
  unfold _are_signatures_similar. cbv zeta.
  rewrite (Nat.eqb_sym (List.length (split "_" sig2))).
  destruct (Nat.eqb_spec (List.length (split "_" sig1)) (List.length (split "_" sig2)))
    as [E|E]; cbn [negb]; [|reflexivity].
  rewrite count_matches_sym, E. reflexivity.
Qed.

Lemma split_not_nil (sep : ascii) (s : string) : split sep s <> [].
Proof.
  induction s as [|c s IH]; cbn [split]; [discriminate|].
  destruct (Ascii.eqb c sep); [discriminate|].
  destruct (split sep s); [contradiction | discriminate].
Qed.

Lemma component_match_self (float : string -> option Q) (c : string) :
  component_match float c c = if is_empty c then None else Some (comparable float c).
Proof.
  destruct c as [|t v]; cbn [component_match is_empty comparable]; [reflexivity|].
  rewrite Ascii.eqb_refl. cbn [negb].
  destruct (contains _ _).
  - destruct (float v) as [q|]; [|reflexivity].
    f_equal. apply Qle_bool_iff.
    assert (E : q - q == 0) by ring. rewrite E. cbn. discriminate.
  - rewrite String.eqb_refl. reflexivity.
Qed.

Lemma count_matches_self (float : string -> option Q) (l : list string) :
  count_matches float (combine l l) =
  if existsb is_empty l then None
  else Some (List.length (filter (comparable float) l)).
Proof.
  induction l as [|c l IH]; cbn [combine count_matches existsb filter]; [reflexivity|].
  rewrite component_match_self, IH.
  destruct (is_empty c); cbn [orb]; [reflexivity|].
  destruct (existsb is_empty l); [reflexivity|].
  destruct (comparable float c); reflexivity.
Qed.

Lemma ratio_threshold (m n : nat) :
  (0 < n)%nat ->
  Qle_bool 0.7 (inject_Z (Z.of_nat m) / inject_Z (Z.of_nat n)) = (7 * n <=? 10 * m)%nat.
Proof.
  intros Hn.
  assert (P : 0 < inject_Z (Z.of_nat n)) by (unfold Qlt; cbn; lia).
  destruct (Nat.leb_spec (7 * n) (10 * m)) as [L|L].
  - apply Qle_bool_iff. apply Qle_shift_div_l; [exact P|].
    unfold Qle, Qmult. cbn [Qnum Qden inject_Z]. lia.
  - destruct (Qle_bool _ _) eqn:E; [|reflexivity].
    apply Qle_bool_iff in E.
    apply (Qmult_le_r _ _ _ P) in E.
    assert (D : inject_Z (Z.of_nat m) / inject_Z (Z.of_nat n) * inject_Z (Z.of_nat n)
                == inject_Z (Z.of_nat m)) by (field; intros Z0; rewrite Z0 in P; lra).
    rewrite D in E. unfold Qle, Qmult in E. cbn [Qnum Qden inject_Z] in E. lia.
Qed.

(** X23. A signature need not be similar to itself: compared with itself
    it is similar exactly when at least 70% of its components are
    comparable, that is, are not of one of the types "fecstvuh" with a rest
    that does not read as a float; and the comparison fails (IndexError)
    exactly when a component is empty. *)
Theorem signature_self_similarity (float : string -> option Q) (signature : string) :
  _are_signatures_similar float signature signature =
  if has_empty_component signature then None
  else Some (7 * List.length (split "_" signature)
             <=? 10 * List.length (filter (comparable float) (split "_" signature)))%nat.
Proof.
  unfold _are_signatures_similar, has_empty_component. cbv zeta.
  rewrite Nat.eqb_refl. cbn [negb]. rewrite count_matches_self.
  destruct (existsb is_empty _); [reflexivity|].
  rewrite ratio_threshold; [reflexivity|].
  pose proof (split_not_nil "_" signature). destruct (split "_" signature); [congruence|cbn; lia].
Qed.

(** *** Clusters *)

Lemma mem_index_true (j : nat) (processed : list nat) :
  mem_index j processed = true <-> In j processed.
Proof.
  unfold mem_index. rewrite existsb_exists. split.
  - intros [x [Hx E]]. apply Nat.eqb_eq in E. subst. exact Hx.
  - intros H. exists j. split; [exact H | apply Nat.eqb_refl].
Qed.

Lemma select_cons (k : nat) (q : Pattern) (processed : list nat) (all : list (nat * Pattern)) :
  select processed ((k, q) :: all) =
  if mem_index k processed then q :: select processed all else select processed all.
Proof.
  unfold select. cbn [filter fst]. destruct (mem_index k processed); reflexivity.
Qed.

Lemma mem_index_cons (k j : nat) (processed : list nat) :
  mem_index k (j :: processed) = (k =? j)%nat || mem_index k processed.
Proof. reflexivity. Qed.

Lemma select_skip (j : nat) (processed : list nat) (all : list (nat * Pattern)) :
  ~ In j (map fst all) -> select (j :: processed) all = select processed all.
Proof.
  induction all as [|[k q] all IH]; intros H; [reflexivity|].
  rewrite !select_cons, mem_index_cons.
  destruct (Nat.eqb_spec k j) as [->|N]; [exfalso; apply H; left; reflexivity|].
  cbn [orb]. rewrite (IH (fun I => H (or_intror I))). reflexivity.
Qed.

Lemma select_add (j : nat) (other : Pattern) (processed : list nat)
    (all : list (nat * Pattern)) :
  NoDup (map fst all) -> In (j, other) all -> mem_index j processed = false ->
  Permutation.Permutation (select (j :: processed) all) (other :: select processed all).
Proof.
  induction all as [|[k q] all IH]; intros Hn Hi Hm; [destruct Hi|].
  cbn [map fst] in Hn. inversion Hn as [|? ? Hk Hn']; subst.
  rewrite !select_cons, mem_index_cons.
  destruct Hi as [E|Hi].
  - injection E as -> ->.
    rewrite Nat.eqb_refl, Hm. cbn [orb].
    rewrite (select_skip j processed all Hk). apply Permutation.Permutation_refl.
  - assert (N : k <> j).
    { intros ->. apply Hk. apply (in_map fst) in Hi. exact Hi. }
    specialize (IH Hn' Hi Hm).
    apply Nat.eqb_neq in N. rewrite N. cbn [orb].
    destruct (mem_index k processed).
    + eapply Permutation.perm_trans; [apply Permutation.perm_skip, IH|].
      apply Permutation.perm_swap.
    + exact IH.
Qed.

Lemma mean_similarity_one (pattern : Pattern) :
  p_similarity_score pattern == mean_similarity [pattern].
Proof.
  unfold mean_similarity. cbn [map fold_right List.length].
  change (inject_Z (Z.of_nat 1)) with 1. field.
Qed.

Section Clustering.

Variable float : string -> option Q.
Variable all : list (nat * Pattern).
Hypothesis all_NoDup : NoDup (map fst all).

Lemma absorb_spec (i : nat) (pattern : Pattern) (others : list (nat * Pattern)) :
  incl others all ->
  forall cluster processed cluster' processed',
  absorb float i pattern others cluster processed = Some (cluster', processed') ->
  exists added,
    patterns cluster' = (patterns cluster ++ added)%list /\
    Permutation.Permutation (select processed' all) (added ++ select processed all) /\
    cluster_id cluster' = cluster_id cluster /\
    signature_prototype cluster' = signature_prototype cluster /\
    Forall (fun other =>
              _are_signatures_similar float (p_signature pattern) (p_signature other)
              = Some true) added /\
    (avg_similarity cluster == mean_similarity (patterns cluster) ->
     avg_similarity cluster' == mean_similarity (patterns cluster')) /\
    (forall k, In k processed -> In k processed').
Proof.
  induction others as [|[j other] rest IH]; intros Hincl cluster processed cluster' processed' H;
    cbn [absorb] in H.
  - injection H as <- <-. exists []. rewrite app_nil_r. cbn [app].
    repeat split; auto.
  - assert (Hrest : incl rest all) by (intros x Hx; apply Hincl; right; exact Hx).
    destruct (mem_index j processed || (i =? j)%nat) eqn:Skip;
      [apply (IH Hrest _ _ _ _ H)|].
    apply orb_false_iff in Skip as [Hm _].
    destruct (_are_signatures_similar float (p_signature pattern) (p_signature other))
      as [[|]|] eqn:Sim; [| apply (IH Hrest _ _ _ _ H) | discriminate].
    destruct (IH Hrest _ _ _ _ H) as (added & Hp & Hs & Hid & Hproto & Hsim & Havg & Hmono).
    cbn [patterns cluster_id signature_prototype avg_similarity] in *.
    exists (other :: added). split; [|split; [|split; [|split; [|split; [|split]]]]].
    + rewrite Hp, <- app_assoc. reflexivity.
    + eapply Permutation.perm_trans; [exact Hs|].
      eapply Permutation.perm_trans;
        [apply Permutation.Permutation_app_head,
               (select_add j other processed all all_NoDup (Hincl _ (or_introl eq_refl)) Hm)|].
      apply Permutation.Permutation_sym. apply Permutation.Permutation_middle.
    + exact Hid.
    + exact Hproto.
    + constructor; assumption.
    + intros _. apply Havg. reflexivity.
    + intros k Hk. apply Hmono. right. exact Hk.
Qed.

Lemma cluster_from_spec (todo : list (nat * Pattern)) :
  incl todo all ->
  forall clusters processed result,
  cluster_from float all todo clusters processed = Some result ->
  Permutation.Permutation (List.concat (map patterns clusters)) (select processed all) ->
  map cluster_id clusters = seq 1 (List.length clusters) ->
  Forall (cluster_formed float) clusters ->
  exists processed',
    Permutation.Permutation (List.concat (map patterns result)) (select processed' all) /\
    map cluster_id result = seq 1 (List.length result) /\
    Forall (cluster_formed float) result /\
    (forall k, In k processed -> In k processed') /\
    (forall ip, In ip todo -> In (fst ip) processed').
Proof.
  induction todo as [|[i pattern] rest IH];
    intros Hincl clusters processed result H Hperm Hids Hformed; cbn [cluster_from] in H.
  - injection H as <-. exists processed. repeat split; auto. intros ip [].
  - assert (Hrest : incl rest all) by (intros x Hx; apply Hincl; right; exact Hx).
    destruct (mem_index i processed) eqn:Hm.
    + destruct (IH Hrest _ _ _ H Hperm Hids Hformed) as (p' & A & B & C & D & E).
      exists p'. repeat split; auto.
      intros ip [<-|Hip]; [|apply E, Hip].
      apply D. apply mem_index_true. exact Hm.
    + destruct (absorb float i pattern all _ (i :: processed)) as [[cluster processed1]|] eqn:Ea;
        [|discriminate].
      destruct (absorb_spec i pattern all (incl_refl all) _ _ _ _ Ea)
        as (added & Hp & Hs & Hid & Hproto & Hsim & Havg & Hmono).
      cbn [patterns cluster_id signature_prototype avg_similarity] in *.
      assert (Hperm' : Permutation.Permutation
                         (List.concat (map patterns (clusters ++ [cluster])))
                         (select processed1 all)).
      { rewrite map_app, concat_app. cbn [map List.concat]. rewrite app_nil_r, Hp.
        apply Permutation.perm_trans with (added ++ pattern :: select processed all)%list.
        - apply Permutation.perm_trans
            with ((pattern :: added) ++ List.concat (map patterns clusters))%list;
            [apply Permutation.Permutation_app_comm|].
          cbn [app].
          apply Permutation.perm_trans with (pattern :: added ++ select processed all)%list;
            [apply Permutation.perm_skip, Permutation.Permutation_app_head, Hperm|].
          apply Permutation.Permutation_middle.
        - apply Permutation.Permutation_sym.
          apply Permutation.perm_trans with (added ++ select (i :: processed) all)%list;
            [exact Hs|].
          apply Permutation.Permutation_app_head.
          apply (select_add i pattern processed all all_NoDup
                   (Hincl _ (or_introl eq_refl)) Hm). }
      assert (Hids' : map cluster_id (clusters ++ [cluster])
                      = seq 1 (List.length (clusters ++ [cluster]))).
      { rewrite map_app, length_app. cbn [map List.length].
        rewrite seq_app, Hids, Hid. cbn [seq]. do 2 f_equal. lia. }
      assert (Hformed' : Forall (cluster_formed float) (clusters ++ [cluster])).
      { apply Forall_app. split; [exact Hformed|]. constructor; [|constructor].
        unfold cluster_formed. rewrite Hp. cbn [app].
        split; [exact Hproto|]. split; [exact Hsim|].
        change (pattern :: added) with ([pattern] ++ added)%list. rewrite <- Hp.
        apply Havg. apply mean_similarity_one. }
      destruct (IH Hrest _ _ _ H Hperm' Hids' Hformed') as (p' & A & B & C & D & E).
      exists p'. repeat split; auto.
      * intros k Hk. apply D, Hmono. right. exact Hk.
      * intros ip [<-|Hip]; [|apply E, Hip].
        apply D, Hmono. left. reflexivity.
Qed.

End Clustering.

Lemma select_all (processed : list nat) (all : list (nat * Pattern)) :
  (forall ip, In ip all -> In (fst ip) processed) -> select processed all = map snd all.
Proof.
  unfold select. induction all as [|ip all IH]; intros H; [reflexivity|].
  cbn [filter]. assert (M : mem_index (fst ip) processed = true)
    by (apply mem_index_true, H; left; reflexivity).
  rewrite M. cbn [map]. f_equal. apply IH. intros x Hx. apply H. right. exact Hx.
Qed.

Lemma select_nil (all : list (nat * Pattern)) : select [] all = [].
Proof.
  induction all as [|[k q] all IH]; [reflexivity|]. rewrite select_cons. exact IH.
Qed.

Lemma enumerate_fst_snd (l : list Pattern) :
  map fst (enumerate l) = seq 0 (List.length l) /\ map snd (enumerate l) = l.
Proof.
  unfold enumerate. apply TrajectoryExtra.combine_fst_snd. apply length_seq.
Qed.

(** X24. When the clustering returns, every pattern has been put in
    exactly one cluster (the clusters' members, one cluster after the
    other, are a rearrangement of the patterns given); the clusters are
    numbered 1, 2, 3, ... in the order they were opened; each cluster
    starts with the pattern that opened it, whose signature is the
    prototype, every other member is similar to that first pattern, and
    the average is the mean of the members' similarity scores. *)
Theorem clusters_partition_the_patterns
    (float : string -> option Q) (pattern_signatures : list Pattern) (clusters : list Cluster) :
  _cluster_patterns float pattern_signatures = Some clusters ->
  Permutation.Permutation (List.concat (map patterns clusters)) pattern_signatures /\
  map cluster_id clusters = seq 1 (List.length clusters) /\
  Forall (cluster_formed float) clusters.
Proof.
  intros H. unfold _cluster_patterns in H.
  destruct (enumerate_fst_snd pattern_signatures) as [Ef Es].
  assert (Hn : NoDup (map fst (enumerate pattern_signatures)))
    by (rewrite Ef; apply seq_NoDup).
  destruct (cluster_from_spec float _ Hn _ (incl_refl _) [] [] clusters H)
    as (processed & A & B & C & _ & E).
  - rewrite select_nil. apply Permutation.Permutation_refl.
  - reflexivity.
  - constructor.
  - rewrite (select_all processed _ E), Es in A. repeat split; assumption.
Qed.

Lemma clusters_partition_the_patterns_witness :
  exists clusters,
    _cluster_patterns sample_float sample_patterns = Some clusters /\
    Permutation.Permutation (List.concat (map patterns clusters)) sample_patterns /\
    List.length clusters = 2%nat.
Proof.
  eexists. split; [vm_compute; reflexivity|]. split; [|reflexivity].
  refine (proj1 (clusters_partition_the_patterns sample_float sample_patterns _ _)).
  vm_compute. reflexivity.
Defined.

Lemma count_matches_total (float : string -> option Q) (l1 l2 : list string) :
  existsb is_empty l1 = false -> existsb is_empty l2 = false ->
  count_matches float (combine l1 l2) <> None.
Proof.
  revert l2. induction l1 as [|c1 l1 IH]; intros [|c2 l2] H1 H2;
    cbn [combine count_matches]; try discriminate.
  cbn [existsb] in H1, H2.
  apply orb_false_iff in H1 as [E1 H1]. apply orb_false_iff in H2 as [E2 H2].
  specialize (IH l2 H1 H2).
  destruct c1 as [|t1 v1]; [discriminate|]. destruct c2 as [|t2 v2]; [discriminate|].
  cbn [component_match].
  destruct (negb (Ascii.eqb t1 t2));
    [| destruct (contains _ _); [destruct (float v1), (float v2)|]];
    destruct (count_matches float (combine l1 l2)); try congruence; discriminate.
Qed.

Lemma similar_total (float : string -> option Q) (sig1 sig2 : string) :
  has_empty_component sig1 = false -> has_empty_component sig2 = false ->
  _are_signatures_similar float sig1 sig2 <> None.
Proof.
  intros H1 H2. unfold _are_signatures_similar. cbv zeta.
  destruct (negb _); [discriminate|].
  pose proof (count_matches_total float _ _ H1 H2).
  destruct (count_matches float _); [discriminate | congruence].
Qed.

Section Totality.

Variable float : string -> option Q.
Variable all : list (nat * Pattern).
Hypothesis all_sound : forall ip, In ip all -> has_empty_component (p_signature (snd ip)) = false.

Lemma absorb_total (i : nat) (pattern : Pattern) (others : list (nat * Pattern)) :
  has_empty_component (p_signature pattern) = false ->
  incl others all ->
  forall cluster processed, absorb float i pattern others cluster processed <> None.
Proof.
  intros Hp. induction others as [|[j other] rest IH]; intros Hincl cluster processed;
    cbn [absorb]; [discriminate|].
  assert (Hrest : incl rest all) by (intros x Hx; apply Hincl; right; exact Hx).
  destruct (mem_index j processed || (i =? j)%nat); [apply IH, Hrest|].
  pose proof (similar_total float _ _ Hp (all_sound _ (Hincl _ (or_introl eq_refl)))) as T.
  cbn [snd] in T.
  destruct (_are_signatures_similar float (p_signature pattern) (p_signature other))
    as [[|]|]; [apply IH, Hrest | apply IH, Hrest | congruence].
Qed.

Lemma cluster_from_total (todo : list (nat * Pattern)) :
  incl todo all ->
  forall clusters processed, cluster_from float all todo clusters processed <> None.
Proof.
  induction todo as [|[i pattern] rest IH]; intros Hincl clusters processed;
    cbn [cluster_from]; [discriminate|].
  assert (Hrest : incl rest all) by (intros x Hx; apply Hincl; right; exact Hx).
  destruct (mem_index i processed); [apply IH, Hrest|].
  pose proof (absorb_total i pattern all
                (all_sound _ (Hincl _ (or_introl eq_refl))) (incl_refl all)
                {| cluster_id := List.length clusters + 1; patterns := [pattern];
                   avg_similarity := p_similarity_score pattern;
                   signature_prototype := p_signature pattern |} (i :: processed)) as T.
  destruct (absorb float i pattern all _ (i :: processed)) as [[cluster processed1]|];
    [apply IH, Hrest | congruence].
Qed.

End Totality.

(** X25. The clustering returns a result (it raises no IndexError)
    whenever no signature has an empty component. *)
Theorem clustering_returns
    (float : string -> option Q) (pattern_signatures : list Pattern) :
  Forall (fun pattern => has_empty_component (p_signature pattern) = false)
         pattern_signatures ->
  exists clusters, _cluster_patterns float pattern_signatures = Some clusters.
Proof.
  intros H. unfold _cluster_patterns.
  assert (S : forall ip, In ip (enumerate pattern_signatures) ->
                         has_empty_component (p_signature (snd ip)) = false).
  { intros ip Hip. rewrite Forall_forall in H. apply H.
    destruct (enumerate_fst_snd pattern_signatures) as [_ Es].
    rewrite <- Es at 1. apply in_map, Hip. }
  pose proof (cluster_from_total float _ S _ (incl_refl _) [] []) as T.
  destruct (cluster_from float _ _ [] []) as [clusters|]; [|congruence].
  exists clusters. reflexivity.
Qed.

Lemma clustering_returns_witness :
  exists clusters, _cluster_patterns sample_float sample_patterns = Some clusters.
Proof.
  apply (clustering_returns sample_float sample_patterns).
  repeat constructor.
Defined.

(** *** Outcomes *)

Lemma Qnat_nonneg' (n : nat) : 0 <= inject_Z (Z.of_nat n).
Proof. unfold Qle. cbn [Qnum Qden inject_Z]. lia. Qed.

Lemma ratio_unit (m n : nat) :
  (m <= n)%nat -> (0 < n)%nat ->
  0 <= inject_Z (Z.of_nat m) / inject_Z (Z.of_nat n) /\
  inject_Z (Z.of_nat m) / inject_Z (Z.of_nat n) <= 1.
Proof.
  intros Hm Hn.
  assert (P : 0 < inject_Z (Z.of_nat n)) by (unfold Qlt; cbn [Qnum Qden inject_Z]; lia).
  split.
  - apply Qle_shift_div_l; [exact P|]. rewrite Qmult_0_l. apply Qnat_nonneg'.
  - apply Qle_shift_div_r; [exact P|]. rewrite Qmult_1_l.
    unfold Qle. cbn [Qnum Qden inject_Z]. lia.
Qed.

Lemma dropped_le (cluster : Cluster) : (dropped cluster <= List.length (patterns cluster))%nat.
Proof. unfold dropped. apply filter_length_le. Qed.

Lemma weigh_cluster_bounds (state : Q * Q * list string) (cluster : Cluster) :
  0 <= avg_similarity cluster ->
  0 <= fst (fst state) /\ fst (fst state) <= snd (fst state) ->
  0 <= fst (fst (weigh_cluster state cluster)) /\
  fst (fst (weigh_cluster state cluster)) <= snd (fst (weigh_cluster state cluster)).
Proof.
  destruct state as [[d t] r]. cbn [fst snd]. intros Ha [D0 Dt].
  unfold weigh_cluster. cbv zeta.
  pose proof (Qnat_nonneg' (List.length (patterns cluster))) as Sz.
  destruct (Nat.ltb_spec 0 (List.length (patterns cluster))) as [L|L]; cbn [fst snd].
  - destruct (ratio_unit _ _ (dropped_le cluster) L) as [R0 R1].
    set (ratio := inject_Z (Z.of_nat (dropped cluster)) / _) in *.
    set (size := inject_Z (Z.of_nat (List.length (patterns cluster)))) in *.
    assert (W : 0 <= size * avg_similarity cluster) by (apply Qmult_le_0_compat; assumption).
    set (weight := size * avg_similarity cluster) in *.
    assert (0 <= ratio * weight) by (apply Qmult_le_0_compat; assumption).
    assert (ratio * weight <= 1 * weight) by (apply Qmult_le_compat_r; assumption).
    split; lra.
  - assert (W : 0 <= inject_Z (Z.of_nat (List.length (patterns cluster))) * avg_similarity cluster)
      by (apply Qmult_le_0_compat; assumption).
    split; lra.
Qed.

Lemma weigh_clusters_bounds (clusters : list Cluster) (state : Q * Q * list string) :
  Forall (fun cluster => 0 <= avg_similarity cluster) clusters ->
  0 <= fst (fst state) /\ fst (fst state) <= snd (fst state) ->
  0 <= fst (fst (fold_left weigh_cluster clusters state)) /\
  fst (fst (fold_left weigh_cluster clusters state))
  <= snd (fst (fold_left weigh_cluster clusters state)).
Proof.
  revert state. induction clusters as [|c clusters IH]; intros state Ha Hs; [exact Hs|].
  inversion Ha as [|? ? Hc Ha']; subst. cbn [fold_left].
  apply IH; [exact Ha'|]. apply weigh_cluster_bounds; assumption.
Qed.

(** X26. When every cluster has a non-negative average similarity, the
    predicted dropout risk and the intervention success probability both
    lie in [0,1] and add up to 1; the empty dictionary is returned for no
    cluster only. *)
Theorem predicted_outcomes_in_unit_interval (pattern_clusters : list Cluster) :
  Forall (fun cluster => 0 <= avg_similarity cluster) pattern_clusters ->
  match _predict_outcomes_from_patterns pattern_clusters with
  | Some outcomes =>
      (0 <= dropout_risk outcomes /\ dropout_risk outcomes <= 1) /\
      (0 <= intervention_success_probability outcomes /\
       intervention_success_probability outcomes <= 1) /\
      dropout_risk outcomes + intervention_success_probability outcomes == 1
  | None => pattern_clusters = []
  end.
Proof.
  intros Ha. unfold _predict_outcomes_from_patterns.
  destruct pattern_clusters as [|c clusters]; [reflexivity|].
  assert (B := weigh_clusters_bounds (c :: clusters) (0, 0, []) Ha).
  destruct (fold_left weigh_cluster (c :: clusters) (0, 0, [])) as [[d t] r].
  cbn [fst snd] in B. destruct B as [D0 Dt]; [split; apply Qle_refl|].
  cbn [dropout_risk intervention_success_probability].
  destruct (Qlt_le_dec 0 t) as [T|T].
  - assert (R0 : 0 <= d / t) by (apply Qle_shift_div_l; [exact T | lra]).
    assert (R1 : d / t <= 1) by (apply Qle_shift_div_r; [exact T | lra]).
    set (risk := d / t) in *. repeat split; lra.
  - repeat split; lra.
Qed.

Lemma predicted_outcomes_in_unit_interval_witness :
  match _predict_outcomes_from_patterns [sample_cluster] with
  | Some outcomes =>
      (0 <= dropout_risk outcomes /\ dropout_risk outcomes <= 1) /\
      (0 <= intervention_success_probability outcomes /\
       intervention_success_probability outcomes <= 1) /\
      dropout_risk outcomes + intervention_success_probability outcomes == 1
  | None => [sample_cluster] = []
  end.
Proof.
  apply (predicted_outcomes_in_unit_interval [sample_cluster]).
  constructor; [|constructor]. cbn. lra.
Defined.

Lemma add_unique_spec (cluster_interventions recommended : list string) :
  NoDup recommended ->
  NoDup (add_unique recommended cluster_interventions) /\
  forall x, In x (add_unique recommended cluster_interventions) <->
            In x recommended \/ In x cluster_interventions.
Proof.
  unfold add_unique. revert recommended.
  induction cluster_interventions as [|y l IH]; intros recommended Hn; cbn [fold_left].
  - split; [exact Hn|]. intros x. cbn. tauto.
  - destruct (existsb (String.eqb y) recommended) eqn:E.
    + destruct (IH recommended Hn) as [N I]. split; [exact N|].
      intros x. rewrite I. cbn [In].
      apply existsb_exists in E as [z [Hz Ez]]. apply String.eqb_eq in Ez. subst z.
      split; [tauto|]. intros [H|[<-|H]]; tauto.
    + assert (Hy : ~ In y recommended).
      { intros Hy. assert (existsb (String.eqb y) recommended = true)
          by (apply existsb_exists; exists y; split; [exact Hy | apply String.eqb_refl]).
        congruence. }
      assert (Hn' : NoDup (recommended ++ [y])).
      { apply NoDup_app; [exact Hn | repeat constructor; intros [] |].
        intros x Hx [<-|[]]. exact (Hy Hx). }
      destruct (IH _ Hn') as [N I]. split; [exact N|].
      intros x. rewrite I, in_app_iff. cbn [In]. tauto.
Qed.

Lemma cluster_interventions_empty (cluster : Cluster) :
  patterns cluster = [] -> cluster_interventions cluster = [].
Proof. unfold cluster_interventions. intros ->. reflexivity. Qed.

Lemma weigh_clusters_recommended (clusters : list Cluster) (state : Q * Q * list string) :
  NoDup (snd state) ->
  NoDup (snd (fold_left weigh_cluster clusters state)) /\
  forall x, In x (snd (fold_left weigh_cluster clusters state)) <->
            In x (snd state) \/
            exists cluster, In cluster clusters /\ In x (cluster_interventions cluster).
Proof.
  revert state. induction clusters as [|c clusters IH]; intros state Hn; cbn [fold_left].
  - split; [exact Hn|]. intros x. split; [tauto|]. intros [H|[c [[] _]]]. exact H.
  - assert (S : NoDup (snd (weigh_cluster state c)) /\
                forall x, In x (snd (weigh_cluster state c)) <->
                          In x (snd state) \/ In x (cluster_interventions c)).
    { destruct state as [[d t] r]. cbn [snd] in *. unfold weigh_cluster. cbv zeta.
      destruct (Nat.ltb_spec 0 (List.length (patterns c))) as [L|L]; cbn [snd].
      - apply add_unique_spec, Hn.
      - split; [exact Hn|]. intros x.
        rewrite cluster_interventions_empty; [cbn; tauto|].
        destruct (patterns c); [reflexivity | cbn in L; lia]. }
    destruct S as [N I]. destruct (IH _ N) as [N' I']. split; [exact N'|].
    intros x. rewrite I', I. split.
    + intros [[H|H]|[c' [Hc Hx]]].
      * left. exact H.
      * right. exists c. split; [left; reflexivity | exact H].
      * right. exists c'. split; [right; exact Hc | exact Hx].
    + intros [H|[c' [[<-|Hc] Hx]]].
      * left. left. exact H.
      * left. right. exact Hx.
      * right. exists c'. split; assumption.
Qed.

(** X27. The recommended interventions never hold an intervention twice,
    and they are exactly the successful interventions listed in the
    metadata of the clusters' patterns. *)
Theorem recommended_interventions_unique (pattern_clusters : list Cluster) :
  match _predict_outcomes_from_patterns pattern_clusters with
  | Some outcomes =>
      NoDup (recommended_interventions outcomes) /\
      forall x, In x (recommended_interventions outcomes) <->
                exists cluster, In cluster pattern_clusters /\
                                In x (cluster_interventions cluster)
  | None => pattern_clusters = []
  end.
Proof.
  unfold _predict_outcomes_from_patterns.
  destruct pattern_clusters as [|c clusters]; [reflexivity|].
  destruct (weigh_clusters_recommended (c :: clusters) (0, 0, [])) as [N I];
    [constructor|].
  destruct (fold_left weigh_cluster (c :: clusters) (0, 0, [])) as [[d t] r].
  cbn [snd] in N, I. cbn [recommended_interventions].
  split; [exact N|]. intros x. rewrite I. cbn [In]. tauto.
Qed.

Lemma mean_similarity_nonneg (l : list Pattern) :
  l <> [] -> Forall (fun pattern => 0 <= p_similarity_score pattern) l ->
  0 <= mean_similarity l.
Proof.
  intros Hl Hf. unfold mean_similarity.
  apply Qle_shift_div_l.
  - unfold Qlt. cbn [Qnum Qden inject_Z]. destruct l; [congruence | cbn [List.length]; lia].
  - rewrite Qmult_0_l. clear Hl. induction Hf as [|p l Hp _ IH]; cbn [map fold_right].
    + apply Qle_refl.
    + lra.
Qed.

(** X28. From the matches to the outcomes: when the similarity scores of
    the matches are not negative and the clustering returns, the outcomes
    predicted from its clusters have a dropout risk and a success
    probability in [0,1]; no outcome is predicted only when there is no
    match. *)
Theorem outcomes_of_clustered_matches
    (float : string -> option Q) (pattern_signatures : list Pattern) (clusters : list Cluster) :
  Forall (fun pattern => 0 <= p_similarity_score pattern) pattern_signatures ->
  _cluster_patterns float pattern_signatures = Some clusters ->
  match _predict_outcomes_from_patterns clusters with
  | Some outcomes =>
      (0 <= dropout_risk outcomes /\ dropout_risk outcomes <= 1) /\
      (0 <= intervention_success_probability outcomes /\
       intervention_success_probability outcomes <= 1)
  | None => pattern_signatures = []
  end.
Proof.
  intros Hs H. unfold _cluster_patterns in H.
  destruct (enumerate_fst_snd pattern_signatures) as [Ef Es].
  assert (Hn : NoDup (map fst (enumerate pattern_signatures)))
    by (rewrite Ef; apply seq_NoDup).
  destruct (cluster_from_spec float _ Hn _ (incl_refl _) [] [] clusters H)
    as (processed & A & _ & C & _ & E);
    [rewrite select_nil; apply Permutation.Permutation_refl | reflexivity | constructor |].
  rewrite (select_all processed _ E), Es in A.
  assert (Ha : Forall (fun cluster => 0 <= avg_similarity cluster) clusters).
  { apply Forall_forall. intros c Hc.
    rewrite Forall_forall in C. specialize (C c Hc). unfold cluster_formed in C.
    destruct (patterns c) as [|first rest] eqn:Ep; [contradiction|].
    destruct C as (_ & _ & Avg). rewrite Avg.
    apply mean_similarity_nonneg; [discriminate|].
    apply Forall_forall. intros p Hp. rewrite Forall_forall in Hs. apply Hs.
    apply (Permutation.Permutation_in _ A).
    apply in_concat. exists (patterns c). split; [apply in_map, Hc | rewrite Ep; exact Hp]. }
  unfold _predict_outcomes_from_patterns.
  destruct clusters as [|c clusters].
  { cbn in A. apply Permutation.Permutation_nil in A. exact A. }
  assert (B := weigh_clusters_bounds (c :: clusters) (0, 0, []) Ha).
  destruct (fold_left weigh_cluster (c :: clusters) (0, 0, [])) as [[d t] r].
  cbn [fst snd] in B. destruct B as [D0 Dt]; [split; apply Qle_refl|].
  cbn [dropout_risk intervention_success_probability].
  destruct (Qlt_le_dec 0 t) as [T|T].
  - assert (R0 : 0 <= d / t) by (apply Qle_shift_div_l; [exact T | lra]).
    assert (R1 : d / t <= 1) by (apply Qle_shift_div_r; [exact T | lra]).
    set (risk := d / t) in *. repeat split; lra.
  - repeat split; lra.
Qed.

Lemma outcomes_of_clustered_matches_witness :
  exists clusters,
    _cluster_patterns sample_float sample_patterns = Some clusters /\
    match _predict_outcomes_from_patterns clusters with
    | Some outcomes =>
        (0 <= dropout_risk outcomes /\ dropout_risk outcomes <= 1) /\
        (0 <= intervention_success_probability outcomes /\
         intervention_success_probability outcomes <= 1)
    | None => sample_patterns = []
    end.
Proof.
  destruct (_cluster_patterns sample_float sample_patterns) as [clusters|] eqn:E.
  - exists clusters. split; [reflexivity|].
    apply (outcomes_of_clustered_matches sample_float sample_patterns clusters);
      [repeat constructor; cbn; lra | exact E].
  - vm_compute in E. discriminate E.
Defined.

(** *** Successful interventions *)

Lemma count_intervention_consistent (student_id : string) (intervention : InterventionRecord)
    (stats : InterventionStats) :
  (success_count stats <= total_count stats)%nat ->
  List.length (examples stats) = Nat.min 3 (success_count stats) ->
  Forall (fun example => ir_success (snd example) = true) (examples stats) ->
  stats_consistent (count_intervention student_id intervention stats).
Proof.
  intros Hs He Hf. unfold stats_consistent, count_intervention.
  cbn [total_count success_count examples].
  destruct (ir_success intervention) eqn:S; cbn [andb].
  - destruct (Nat.ltb_spec (List.length (examples stats)) 3) as [L|L].
    + rewrite length_app. cbn [List.length]. repeat split; try lia.
      apply Forall_app. split; [exact Hf|]. constructor; [exact S | constructor].
    + repeat split; try lia. exact Hf.
  - repeat split; try lia. exact Hf.
Qed.

Lemma record_intervention_spec (student_id intervention_type : string)
    (intervention : InterventionRecord) (stats : list InterventionStats) :
  Forall stats_consistent stats -> NoDup (map is_type stats) ->
  let stats' := record_intervention student_id intervention_type intervention stats in
  Forall stats_consistent stats' /\
  NoDup (map is_type stats') /\
  (forall t, In t (map is_type stats') <-> t = intervention_type \/ In t (map is_type stats)) /\
  list_sum (map total_count stats') = S (list_sum (map total_count stats)).
Proof.
  cbv zeta. induction stats as [|s stats IH]; intros Hc Hn; cbn [record_intervention].
  - split; [|split; [|split]].
    + constructor; [|constructor].
      apply count_intervention_consistent; cbn; [lia | reflexivity | constructor].
    + cbn. constructor; [intros [] | constructor].
    + intros t. cbn. split; [intros [<-|[]]; left; reflexivity | intros [->|[]]; left; reflexivity].
    + reflexivity.
  - inversion Hc as [|? ? Hs Hc']; subst. cbn [map] in Hn.
    inversion Hn as [|? ? Hi Hn']; subst.
    destruct (String.eqb_spec (is_type s) intervention_type) as [E|E].
    + split; [|split; [|split]].
      * constructor; [|exact Hc'].
        destruct Hs as (_ & S1 & S2 & S3). apply count_intervention_consistent; assumption.
      * cbn [map count_intervention is_type]. constructor; assumption.
      * intros t. cbn [map count_intervention is_type In]. rewrite E.
        intuition congruence.
      * cbn [map list_sum count_intervention total_count fold_right]. lia.
    + destruct (IH Hc' Hn') as (A & B & C & D). split; [|split; [|split]].
      * constructor; assumption.
      * cbn [map]. constructor; [|exact B].
        intros H. apply C in H. destruct H as [H|H]; [congruence | exact (Hi H)].
      * intros t. cbn [map In]. rewrite C. tauto.
      * unfold list_sum in *. cbn [map fold_right]. lia.
Qed.

Lemma record_match_spec (match_ : Pattern) (stats : list InterventionStats) :
  Forall stats_consistent stats -> NoDup (map is_type stats) ->
  Forall stats_consistent (record_match stats match_) /\
  NoDup (map is_type (record_match stats match_)) /\
  list_sum (map total_count (record_match stats match_))
  = (list_sum (map total_count stats) + List.length (listed_interventions match_))%nat.
Proof.
  unfold record_match, listed_interventions. cbv zeta.
  destruct (interventions (p_metadata match_)) as [l|];
    [| intros Hc Hn; cbn [List.length]; repeat split; try assumption; lia].
  revert stats. induction l as [|i l IH]; intros stats Hc Hn; cbn [fold_left List.length].
  - repeat split; try assumption. lia.
  - destruct (record_intervention_spec (get_string (p_student_id match_) "unknown")
                (get_string (ir_type i) "unknown") i stats Hc Hn) as (A & B & _ & D).
    destruct (IH _ A B) as (A' & B' & D'). repeat split; try assumption.
    rewrite D', D. lia.
Qed.

Lemma record_matches_spec (pattern_matches : list Pattern) (stats : list InterventionStats) :
  Forall stats_consistent stats -> NoDup (map is_type stats) ->
  Forall stats_consistent (fold_left record_match pattern_matches stats) /\
  NoDup (map is_type (fold_left record_match pattern_matches stats)) /\
  list_sum (map total_count (fold_left record_match pattern_matches stats))
  = (list_sum (map total_count stats)
     + List.length (List.concat (map listed_interventions pattern_matches)))%nat.
Proof.
  revert stats. induction pattern_matches as [|m ms IH]; intros stats Hc Hn;
    cbn [fold_left map List.concat].
  - cbn [List.length]. repeat split; try assumption. lia.
  - destruct (record_match_spec m stats Hc Hn) as (A & B & D).
    destruct (IH _ A B) as (A' & B' & D'). repeat split; try assumption.
    rewrite D', D, length_app. lia.
Qed.

Lemma with_success_rate_spec (stats : InterventionStats) :
  stats_consistent stats ->
  stats_consistent (with_success_rate stats) /\
  is_type (with_success_rate stats) = is_type stats /\
  total_count (with_success_rate stats) = total_count stats /\
  success_rate (with_success_rate stats)
  == inject_Z (Z.of_nat (success_count (with_success_rate stats)))
     / inject_Z (Z.of_nat (total_count (with_success_rate stats))) /\
  0 <= success_rate (with_success_rate stats) /\
  success_rate (with_success_rate stats) <= 1.
Proof.
  intros (H1 & H2 & H3 & H4). unfold with_success_rate.
  destruct (Nat.ltb_spec 0 (total_count stats)) as [L|L]; [|lia].
  cbn [is_type total_count success_count success_rate examples].
  destruct (ratio_unit _ _ H2 L) as [R0 R1].
  repeat split; assumption.
Qed.

Lemma insert_by_rate_spec (x : InterventionStats) (l : list InterventionStats) :
  Permutation.Permutation (x :: l) (insert_by_rate x l) /\
  list_sum (map total_count (insert_by_rate x l))
  = (total_count x + list_sum (map total_count l))%nat /\
  (Sorted.LocallySorted (fun a b => success_rate b <= success_rate a) l ->
   Sorted.LocallySorted (fun a b => success_rate b <= success_rate a) (insert_by_rate x l)).
Proof.
  induction l as [|y l (P & S & IH)]; cbn [insert_by_rate].
  - split; [apply Permutation.Permutation_refl|]. split; [reflexivity|]. intros _. constructor.
  - destruct (Qle_bool (success_rate y) (success_rate x)) eqn:E.
    + split; [apply Permutation.Permutation_refl|]. split; [reflexivity|].
      intros H. constructor; [exact H|]. apply Qle_bool_iff. exact E.
    + split; [|split].
      * eapply Permutation.perm_trans; [apply Permutation.perm_swap|].
        apply Permutation.perm_skip. exact P.
      * unfold list_sum in *. cbn [map fold_right]. lia.
      * intros H.
        assert (Lt : success_rate x <= success_rate y).
        { destruct (Qlt_le_dec (success_rate x) (success_rate y)) as [Q|Q];
            [apply Qlt_le_weak, Q|].
          apply Qle_bool_iff in Q. congruence. }
        inversion H as [|? |? z l' Hl Hyz]; subst; cbn [insert_by_rate] in *.
        -- constructor; [constructor | exact Lt].
        -- specialize (IH Hl).
           destruct (Qle_bool (success_rate z) (success_rate x)).
           ++ constructor; [exact IH | exact Lt].
           ++ constructor; [exact IH | exact Hyz].
Qed.

Lemma sort_by_rate_spec (l : list InterventionStats) :
  Permutation.Permutation l (sort_by_rate l) /\
  list_sum (map total_count (sort_by_rate l)) = list_sum (map total_count l) /\
  Sorted.LocallySorted (fun a b => success_rate b <= success_rate a) (sort_by_rate l).
Proof.
  induction l as [|x l (P & S & H)]; cbn [sort_by_rate fold_right].
  - split; [constructor|]. split; [reflexivity | constructor].
  - fold (sort_by_rate l).
    destruct (insert_by_rate_spec x (sort_by_rate l)) as (P' & S' & H').
    split; [|split].
    + eapply Permutation.perm_trans; [apply Permutation.perm_skip, P | exact P'].
    + rewrite S'. unfold list_sum in *. cbn [map fold_right]. lia.
    + apply H', H.
Qed.

(** X29. The intervention statistics hold one entry per intervention type;
    every entry counts at least one intervention and no more successes
    than interventions, keeps min(3, successes) examples, all of them
    successful, and has as success rate the successes divided by the
    total, in [0,1]; the totals of the entries add up to the number of
    interventions listed in the matches. *)
Theorem intervention_statistics_consistent (pattern_matches : list Pattern) :
  let result := identify_successful_interventions pattern_matches in
  NoDup (map is_type result) /\
  Forall (fun stats =>
            stats_consistent stats /\
            success_rate stats
            == inject_Z (Z.of_nat (success_count stats))
               / inject_Z (Z.of_nat (total_count stats)) /\
            0 <= success_rate stats /\ success_rate stats <= 1) result /\
  list_sum (map total_count result)
  = List.length (List.concat (map listed_interventions pattern_matches)).
Proof.
  cbv zeta. unfold identify_successful_interventions. cbv zeta.
  destruct (record_matches_spec pattern_matches [] (Forall_nil _) (NoDup_nil _))
    as (A & B & D).
  set (stats := fold_left record_match pattern_matches []) in *.
  destruct (sort_by_rate_spec (map with_success_rate stats)) as (P & S & _).
  assert (T : map is_type (map with_success_rate stats) = map is_type stats).
  { rewrite map_map. apply map_ext_in. intros s Hs.
    rewrite Forall_forall in A. apply (with_success_rate_spec s (A s Hs)). }
  assert (C : map total_count (map with_success_rate stats) = map total_count stats).
  { rewrite map_map. apply map_ext_in. intros s Hs.
    rewrite Forall_forall in A. apply (with_success_rate_spec s (A s Hs)). }
  split; [|split].
  - eapply Permutation.Permutation_NoDup; [apply Permutation.Permutation_map, P|].
    rewrite T. exact B.
  - eapply Permutation.Permutation_Forall; [exact P|].
    apply Forall_forall. intros s' Hs'. apply in_map_iff in Hs' as [s [<- Hs]].
    rewrite Forall_forall in A.
    destruct (with_success_rate_spec s (A s Hs)) as (W1 & _ & _ & W4 & W5 & W6).
    split; [exact W1|]. split; [exact W4|]. split; [exact W5 | exact W6].
  - rewrite S, C, D. reflexivity.
Qed.

(** X30. The statistics are returned in the order of their success rate,
    highest first. *)
Theorem interventions_sorted_by_success_rate (pattern_matches : list Pattern) :
  Sorted.LocallySorted (fun a b => success_rate b <= success_rate a)
    (identify_successful_interventions pattern_matches).
Proof.
  unfold identify_successful_interventions. cbv zeta. apply sort_by_rate_spec.
Qed.

End PatternExtra.
